(** * Daily_Report_Processor: a shallow embedding of [Daily_Report_Processor.py]

    The development follows the Python module function by function:

    - [Text]: Python [str] values and the string methods that
      [clean_dish_name] calls ([replace], [isdigit], [upper], [split],
      [join]);
    - [Frame]: the part of a pandas [DataFrame] that [process_report]
      touches (an index and an ordered list of named columns);
    - [Ingest]: [merge_files], with [pd.read_csv] as an oracle carried by
      every file and Python's [try]/[except] dispatch written out;
    - [Report]: [process_report], [export_to_excel] and [main].

    - [Unicode]: [clean_dish_name] once more, on sequences of Unicode code
      points, with the character database as a parameter.

    Scope of the model.  In [Text] characters are the 8-bit [ascii] of the
    Standard Library, read as the code points 0..255; [isdigit], [isspace]
    and [upper] are those of Python on the ASCII range 0..127, and the
    theorems over [Text] that quantify over texts are stated for ASCII
    texts.  [Unicode] has no such bound: a text is any sequence of code
    points, the two models agree on ASCII texts, and what [isdigit],
    [isspace] and [upper] answer beyond ASCII is read from the database.
    Numeric cells are integers.  What [pd.to_datetime] makes of a column, and whether it raises
    on it, is a parameter of the development, and so is the outcome of
    writing the workbook. *)

From Stdlib Require Import List Bool Arith NArith ZArith Lia Ascii String.
Import ListNotations.

Set Implicit Arguments.

(* ------------------------------------------------------------------ *)
(** * Python strings *)

Module Text.

(** A Python [str] is a sequence of code points. *)
Definition str := list ascii.

(** A literal of the source, e.g. [lit "W/"]. Rocq strings have no escape
    sequences, so [lit "\n"] is the two characters backslash and [n], which
    is what the source writes as ['\\n']. *)
Definition lit (s : string) : str := list_ascii_of_string s.

Definition code (c : ascii) : N := N_of_ascii c.

Definition is_ascii (c : ascii) : bool := (code c <? 128)%N.

(** [c.isdigit()] on the ASCII range: the ten decimal digits. *)
Definition isdigit (c : ascii) : bool :=
  ((48 <=? code c) && (code c <=? 57))%N.

(** Whitespace as [str.split()] sees it on the ASCII range:
    TAB, LF, VT, FF, CR, the four separators FS, GS, RS, US, and space. *)
Definition isspace (c : ascii) : bool :=
  (((9 <=? code c) && (code c <=? 13))
   || ((28 <=? code c) && (code c <=? 31))
   || (code c =? 32))%N.

Definition islower (c : ascii) : bool :=
  ((97 <=? code c) && (code c <=? 122))%N.

(** [c.upper()] on the ASCII range. *)
Definition upper_char (c : ascii) : ascii :=
  if islower c then ascii_of_N (code c - 32) else c.

(** [text.upper()] *)
Definition upper (text : str) : str := map upper_char text.

(** [text.replace(ch, '')] for a single character [ch]. *)
Definition remove_char (ch : ascii) (text : str) : str :=
  filter (fun c => negb (Ascii.eqb c ch)) text.

(** [key] is a prefix of [text] *)
Fixpoint starts_with (key text : str) : bool :=
  match key, text with
  | [], _ => true
  | _ :: _, [] => false
  | k :: key', c :: text' => Ascii.eqb k c && starts_with key' text'
  end.

(** [text.replace(key, val)] for a non-empty [key]: the text is scanned from
    the left; at an occurrence of [key] the scan emits [val] and resumes
    after the occurrence (occurrences do not overlap), elsewhere it copies
    one character.  [skip] counts the characters of the current occurrence
    still to be passed over. *)
Fixpoint replace_from (key val : str) (skip : nat) (text : str) : str :=
  match text with
  | [] => []
  | c :: text' =>
      match skip with
      | S k => replace_from key val k text'
      | O =>
          if starts_with key text
          then val ++ replace_from key val (List.length key - 1) text'
          else c :: replace_from key val 0 text'
      end
  end.

Definition replace (key val text : str) : str := replace_from key val 0 text.

(** [key in text] *)
Fixpoint occurs (key text : str) : bool :=
  starts_with key text
  || match text with
     | [] => false
     | _ :: text' => occurs key text'
     end.

(** [text.split()]: the maximal runs of non-whitespace characters. *)
Fixpoint split (text : str) : list str :=
  match text with
  | [] => []
  | c :: text' =>
      if isspace c then split text'
      else
        match text' with
        | [] => [[c]]
        | c' :: _ =>
            if isspace c' then [c] :: split text'
            else
              match split text' with
              | w :: ws => (c :: w) :: ws
              | [] => [[c]]
              end
        end
  end.

(** [sep.join(words)] *)
Fixpoint join (sep : str) (words : list str) : str :=
  match words with
  | [] => []
  | [w] => w
  | w :: ws => w ++ sep ++ join sep ws
  end.

(** The symbols removed first (source line 59). *)
Definition symbols : list ascii := ["("; ")"; "."; "@"]%char.

(** The dictionary [replacements] (source lines 51-57), in insertion order,
    which is the order [replacements.items()] iterates in. *)
Definition replacements : list (str * str) :=
  [ (lit "W/", lit "WITH");
    (lit "&", lit "AND");
    (lit " WIT ", lit " WITH ");
    (lit "\n", lit " ");
    (lit "PCS", lit "") ].

Definition remove_symbols (text : str) : str :=
  fold_left (fun t ch => remove_char ch t) symbols text.

Definition apply_replacements (text : str) : str :=
  fold_left (fun t kv => replace (fst kv) (snd kv) t) replacements text.

Definition remove_digits (text : str) : str :=
  filter (fun c => negb (isdigit c)) text.

(** The body of [clean_dish_name] once [text] is known to be a [str]
    (source lines 59-64). *)
Definition clean_text (text : str) : str :=
  let text := remove_symbols text in
  let text := apply_replacements text in
  let text := remove_digits text in
  join (lit " ") (split (upper text)).

End Text.

Import Text.

(* ------------------------------------------------------------------ *)
(** * Python values, exceptions *)

(** The values a cell of a table holds.  [NaN] is the float that
    [read_csv] puts in an empty field, [NaT] the missing timestamp;
    [Timestamp] counts nanoseconds since the epoch and [Date] days since
    the epoch. *)
Inductive value : Type :=
| NaN
| PyNone
| Int (z : Z)
| Str (s : str)
| Timestamp (ns : Z)
| NaT
| Date (days : Z).

Definition value_eq_dec (a b : value) : {a = b} + {a <> b}.
Proof.
  decide equality; try apply Z.eq_dec.
  apply (list_eq_dec ascii_dec).
Defined.

Definition value_eqb (a b : value) : bool :=
  if value_eq_dec a b then true else false.

(** [pd.isna] *)
Definition isna (v : value) : bool :=
  match v with
  | NaN | PyNone | NaT => true
  | _ => false
  end.

(** [isinstance(v, str)] *)
Definition is_str (v : value) : bool :=
  match v with
  | Str _ => true
  | _ => false
  end.

(** [clean_dish_name] (source lines 45-64). *)
Definition clean_dish_name (text : value) : str :=
  match text with
  | Str text => clean_text text
  | _ => lit ""
  end.

(** The exceptions the program meets.  [OtherException] stands for every
    other subclass of [Exception] that [read_csv] raises ([ParserError],
    [EmptyDataError], [FileNotFoundError], [PermissionError], ...). *)
Inductive exn : Type :=
| UnicodeDecodeError (msg : string)
| KeyError (labels : list string)
| ValueError (msg : string)
| IndexError (msg : string)
| OtherException (msg : string).

Inductive result (A : Type) : Type :=
| Ok (a : A)
| Raise (e : exn).

Arguments Ok {A} a.
Arguments Raise {A} e.

Definition bind {A B : Type} (r : result A) (k : A -> result B) : result B :=
  match r with
  | Ok a => k a
  | Raise e => Raise e
  end.

Notation "x <- r ;; k" := (bind r (fun x => k))
  (at level 61, r at next level, right associativity).

Definition raises {A : Type} (r : result A) : Prop := exists e, r = Raise e.

(** [', '.join(labels)] and [str(e)] *)
Definition show_labels (labels : list string) : string :=
  String.concat ", " labels.

Definition message (e : exn) : string :=
  match e with
  | UnicodeDecodeError msg => msg
  | KeyError labels => ("[" ++ show_labels labels ++ "] not in index")%string
  | ValueError msg => msg
  | IndexError msg => msg
  | OtherException msg => msg
  end.

(* ------------------------------------------------------------------ *)
(** * Data frames *)

Module Frame.

Definition Series := list value.

(** A [DataFrame]: the row labels and the columns in their order. Every
    column of a frame that pandas builds has one value per row ([wf]). *)
Record DataFrame : Type := {
  index : list nat;
  columns : list (string * Series)
}.

Definition nrows (df : DataFrame) : nat := List.length (index df).

Definition wf (df : DataFrame) : Prop :=
  Forall (fun c => List.length (snd c) = nrows df) (columns df).

(** [pd.DataFrame()] *)
Definition empty_frame : DataFrame := {| index := []; columns := [] |}.

(** [df.empty]: some axis has length 0. *)
Definition empty (df : DataFrame) : bool :=
  (nrows df =? 0) || (List.length (columns df) =? 0).

Definition labels (df : DataFrame) : list string := map fst (columns df).

Fixpoint lookup (name : string) (cols : list (string * Series)) : option Series :=
  match cols with
  | [] => None
  | (n, v) :: cols' => if String.eqb n name then Some v else lookup name cols'
  end.

(** The column labelled [name], if there is one. *)
Definition column (df : DataFrame) (name : string) : option Series :=
  lookup name (columns df).

(** [name in df.columns] *)
Definition has_column (df : DataFrame) (name : string) : bool :=
  match column df name with
  | Some _ => true
  | None => false
  end.

(** [df[name]] *)
Definition getcol (df : DataFrame) (name : string) : result Series :=
  match column df name with
  | Some v => Ok v
  | None => Raise (KeyError [name])
  end.

(** [df[names]] for a list of labels: the listed columns in the listed
    order, or [KeyError] naming the labels that are missing. *)
Definition getitem (df : DataFrame) (names : list string) : result DataFrame :=
  match filter (fun n => negb (has_column df n)) names with
  | [] =>
      Ok {| index := index df;
            columns :=
              map (fun n => (n, match column df n with
                                | Some v => v
                                | None => []
                                end)) names |}
  | missing => Raise (KeyError missing)
  end.

Fixpoint update (name : string) (v : Series) (cols : list (string * Series))
  : list (string * Series) :=
  match cols with
  | [] => [(name, v)]
  | (n, w) :: cols' =>
      if String.eqb n name then (n, v) :: cols'
      else (n, w) :: update name v cols'
  end.

(** [df[name] = v]: replaces the column in place, or appends a new one. *)
Definition setcol (df : DataFrame) (name : string) (v : Series) : DataFrame :=
  {| index := index df; columns := update name v (columns df) |}.

(** [df[names] = other], column by column. *)
Definition setitem (df : DataFrame) (other : DataFrame) : DataFrame :=
  fold_left (fun d c => setcol d (fst c) (snd c)) (columns other) df.

(** [df.drop(columns=names, errors='ignore')] *)
Definition drop (names : list string) (df : DataFrame) : DataFrame :=
  {| index := index df;
     columns :=
       filter (fun c => negb (existsb (String.eqb (fst c)) names)) (columns df) |}.

(** [df.insert(loc, name, v)] *)
Definition insert (loc : nat) (name : string) (v : Series) (df : DataFrame)
  : result DataFrame :=
  if has_column df name
  then Raise (ValueError ("cannot insert " ++ name ++ ", already exists"))
  else if loc <=? List.length (columns df)
  then Ok {| index := index df;
             columns := firstn loc (columns df) ++ (name, v) :: skipn loc (columns df) |}
  else Raise (IndexError "index out of bounds").

(** [series.ffill()]: a missing value takes the last value seen that is not
    missing; before the first such value it stays as it is. *)
Fixpoint ffill_from (last : option value) (s : Series) : Series :=
  match s with
  | [] => []
  | v :: s' =>
      if isna v
      then match last with
           | Some w => w :: ffill_from last s'
           | None => v :: ffill_from last s'
           end
      else v :: ffill_from (Some v) s'
  end.

Definition ffill (s : Series) : Series := ffill_from None s.

(** [df.ffill()] *)
Definition ffill_frame (df : DataFrame) : DataFrame :=
  {| index := index df;
     columns := map (fun c => (fst c, ffill (snd c))) (columns df) |}.

(** The rows (or values) that a boolean mask selects. *)
Fixpoint keep {A : Type} (mask : list bool) (l : list A) : list A :=
  match mask, l with
  | b :: mask', x :: l' => if b then x :: keep mask' l' else keep mask' l'
  | _, _ => []
  end.

(** [~series.duplicated(keep='first')]: true at the first occurrence of every
    key.  Missing values compare equal to one another here, as they do in
    pandas. *)
Fixpoint first_mask_from (seen : list value) (keys : Series) : list bool :=
  match keys with
  | [] => []
  | k :: keys' =>
      negb (existsb (value_eqb k) seen) :: first_mask_from (k :: seen) keys'
  end.

Definition first_mask (keys : Series) : list bool := first_mask_from [] keys.

Definition select (mask : list bool) (df : DataFrame) : DataFrame :=
  {| index := keep mask (index df);
     columns := map (fun c => (fst c, keep mask (snd c))) (columns df) |}.

(** [df.drop_duplicates(key)] *)
Definition drop_duplicates (key : string) (df : DataFrame) : result DataFrame :=
  keys <- getcol df key ;;
  Ok (select (first_mask keys) df).

(** The labels of [pd.concat(dfs)]: the union, in order of first
    appearance. *)
Fixpoint union_labels (seen : list string) (names : list string) : list string :=
  match names with
  | [] => []
  | n :: names' =>
      if existsb (String.eqb n) seen then union_labels seen names'
      else n :: union_labels (n :: seen) names'
  end.

(** [pd.concat(dfs, ignore_index=True)]: rows one frame after the other, a
    column a frame lacks filled with [NaN], rows renumbered from 0. *)
Definition concat (dfs : list DataFrame) : DataFrame :=
  {| index := seq 0 (list_sum (map nrows dfs));
     columns :=
       map (fun n =>
              (n, flat_map (fun df => match column df n with
                                      | Some v => v
                                      | None => repeat NaN (nrows df)
                                      end) dfs))
           (union_labels [] (flat_map labels dfs)) |}.

End Frame.

Import Frame.

(* ------------------------------------------------------------------ *)
(** * Ingestion: [merge_files] *)

Module Ingest.

Inductive encoding : Type := gbk | utf8.

(** A file of the folder.  [read_csv f enc] is the outcome of
    [pd.read_csv(file, header=2, sep='\t', encoding=enc)] on it: the parsed
    table or the exception raised. *)
Record File : Type := {
  file_name : string;
  read_csv : encoding -> result DataFrame
}.

(** What has been printed so far. *)
Definition console := list string.

Definition could_not_read (file : File) (e : exn) : string :=
  ("[ERROR] Could not read '" ++ file_name file ++ "': " ++ message e)%string.

(** The loop of source lines 33-41.  A [try] statement picks the first
    [except] clause that matches the exception raised by its body; what a
    handler raises is not offered to the other clauses of the same [try],
    so an exception of the retry at line 38 leaves the loop. *)
Fixpoint merge_loop (files : list File) (all_dfs : list DataFrame) (out : console)
  : console * result (list DataFrame) :=
  match files with
  | [] => (out, Ok all_dfs)
  | file :: files' =>
      match read_csv file gbk with
      | Ok df => merge_loop files' (all_dfs ++ [df]) out
      | Raise (UnicodeDecodeError _) =>
          match read_csv file utf8 with
          | Ok df => merge_loop files' (all_dfs ++ [df]) out
          | Raise e => (out, Raise e)
          end
      | Raise e => merge_loop files' all_dfs (out ++ [could_not_read file e])
      end
  end.

(** [merge_files] (source lines 27-42); [files] is [folder.glob('*.xls')]. *)
Definition merge_files (files : list File) : console * result DataFrame :=
  let (out, r) := merge_loop files [] [] in
  (out,
   all_dfs <- r ;;
   Ok (match all_dfs with
       | [] => empty_frame
       | _ :: _ => concat all_dfs
       end)).

(** The file is read by one of the two attempts. *)
Definition parses (file : File) : bool :=
  match read_csv file gbk with
  | Ok _ => true
  | Raise (UnicodeDecodeError _) =>
      match read_csv file utf8 with
      | Ok _ => true
      | Raise _ => false
      end
  | Raise _ => false
  end.

(** The first attempt fails in decoding and the retry fails too. *)
Definition retry_fails (file : File) : bool :=
  match read_csv file gbk with
  | Raise (UnicodeDecodeError _) =>
      match read_csv file utf8 with
      | Ok _ => false
      | Raise _ => true
      end
  | _ => false
  end.

End Ingest.

Import Ingest.

(* ------------------------------------------------------------------ *)
(** * Reconciliation and derivation: [process_report], and [main] *)

Module Report.

Definition fields_to_fill : list string :=
  ["Date"; "POS Name"; "Cashier Name"; "Transaction No"]%string.

Definition dish_columns : list string :=
  ["OR No"; "DateTime"; "Date"; "POS Name"; "Cashier Name"; "Transaction No";
   "Dishes"; "Dish Quantities"]%string.

Definition ns_per_day : Z := 86400000000000.

(** [.dt.date] at one value: the calendar day of a timestamp. *)
Definition dt_date (v : value) : value :=
  match v with
  | Timestamp ns => Date (ns / ns_per_day)
  | _ => NaT
  end.

(** What [pd.to_datetime(col, errors='coerce')] does with a column [col]:
    [raises_on col] is the exception it raises, if it raises (with
    [errors='coerce'] it still does on some columns, texts with mixed UTC
    offsets for one); [cell col v] is what it makes of the cell [v] of
    [col] when it returns: nanoseconds since the epoch, or [None] where
    pandas gives [NaT]. *)
Record ToDatetime : Type := {
  raises_on : Series -> option exn;
  cell : Series -> value -> option Z
}.

(** A date object or a missing value. *)
Definition is_date_or_missing (v : value) : bool :=
  match v with
  | Date _ | NaT | NaN | PyNone => true
  | _ => false
  end.

Section WithToDatetime.

Variable to_datetime : ToDatetime.

(** The column that [pd.to_datetime(col, errors='coerce')] returns. *)
Definition to_timestamps (col : Series) : Series :=
  map (fun v => match cell to_datetime col v with
                | Some ns => Timestamp ns
                | None => NaT
                end) col.

(** [pd.to_datetime(col, errors='coerce')].  On a column that holds only
    dates and missing values it does not raise. *)
Definition pd_to_datetime (col : Series) : result Series :=
  if forallb is_date_or_missing col
  then Ok (to_timestamps col)
  else
    match raises_on to_datetime col with
    | Some e => Raise e
    | None => Ok (to_timestamps col)
    end.

(** Source lines 72-84: the Reconciled Table. *)
Definition reconcile (df : DataFrame) : result DataFrame :=
  filled <- getitem df fields_to_fill ;;
  let df := setitem df (ffill_frame filled) in
  let df := drop ["No data found"%string] df in
  date <- getcol df "Date" ;;
  stamps <- pd_to_datetime date ;;
  df <- insert 1 "DateTime" stamps df ;;
  date <- getcol df "Date" ;;
  stamps <- pd_to_datetime date ;;
  let df := setcol df "Date" (map dt_date stamps) in
  Ok (match column df "Dishes" with
      | Some dishes =>
          setcol df "Dishes" (map (fun v => Str (clean_dish_name v)) dishes)
      | None => df
      end).

(** Source line 87: the Transaction View. *)
Definition transactions (df : DataFrame) : result DataFrame :=
  unique <- drop_duplicates "OR No" df ;;
  Ok (drop ["Dishes"; "Dish Quantities"]%string unique).

(** Source lines 90-91: the Item View. *)
Definition dishes (df : DataFrame) : result DataFrame :=
  getitem df dish_columns.

(** [process_report] (source lines 67-93). *)
Definition process_report (df : DataFrame)
  : result (DataFrame * DataFrame * DataFrame) :=
  df <- reconcile df ;;
  df_transactions <- transactions df ;;
  df_dishes <- dishes df ;;
  Ok (df, df_transactions, df_dishes).

(** A workbook: its sheets, by name. *)
Definition Workbook := list (string * DataFrame).

(** The folder named on the command line.  [write_xlsx folder book] is the
    outcome of writing [book] to [Daily_Report.xlsx] in the folder: [None]
    when the file is written, the exception raised when it is not (the
    path is not writable, the disk is full, a value cannot be stored). *)
Record Folder : Type := {
  path : string;
  folder_exists : bool;
  is_dir : bool;
  glob_xls : list File;
  write_xlsx : Workbook -> option exn
}.

(** [export_to_excel] (source lines 96-105): the three sheets are written,
    then the line is printed; an exception of the writing leaves the
    function before the line. *)
Definition export_to_excel (folder : Folder) (report transactions dishes : DataFrame)
  : console * result Workbook :=
  let book :=
    [("DailyReport", report); ("Transactions", transactions); ("Dishes", dishes)]%string in
  match write_xlsx folder book with
  | None =>
      (["[INFO] Report saved to: " ++ path folder ++ "/Daily_Report.xlsx"]%string,
       Ok book)
  | Some e => ([], Raise e)
  end.

(** What a run leaves behind: the lines printed, the workbook if its
    writing completed, and the exception that ended the run if one did. *)
Record Run : Type := {
  stdout : console;
  written : option Workbook;
  raised : option exn
}.

Definition no_valid_files : string :=
  "[WARNING] No valid .xls files found or all files failed to load.".

(** [main] (source lines 108-128), after the argument is parsed. *)
Definition main (folder : Folder) : Run :=
  if negb (folder_exists folder) || negb (is_dir folder)
  then {| stdout := [("[ERROR] Invalid folder path: " ++ path folder)%string];
          written := None; raised := None |}
  else
    let (out, r) := merge_files (glob_xls folder) in
    match r with
    | Raise e => {| stdout := out; written := None; raised := Some e |}
    | Ok df_raw =>
        if empty df_raw
        then {| stdout := out ++ [no_valid_files]; written := None; raised := None |}
        else
          match process_report df_raw with
          | Raise e => {| stdout := out; written := None; raised := Some e |}
          | Ok (df_report, df_tx, df_dishes) =>
              match export_to_excel folder df_report df_tx df_dishes with
              | (info, Ok book) =>
                  {| stdout := out ++ info; written := Some book; raised := None |}
              | (info, Raise e) =>
                  {| stdout := out ++ info; written := None; raised := Some e |}
              end
          end
    end.

End WithToDatetime.

End Report.

Import Report.

(* ------------------------------------------------------------------ *)
(** * Predicates used in the statements *)

Module Props.

Definition ascii_only (text : str) : bool := forallb is_ascii text.

(** The keys of [replacements] that a normalized text can still contain
    (the backslash-n key needs a lower-case letter). *)
Definition live_keys : list str :=
  [lit "W/"; lit "&"; lit " WIT "; lit "PCS"].

(** [text] contains none of the [live_keys]. *)
Definition key_free (text : str) : bool :=
  forallb (fun key => negb (occurs key text)) live_keys.

(** A character as the normalizer leaves it: no digit, none of the removed
    symbols, its own upper case (so in particular not the letter [n] of the
    backslash-n key). *)
Definition settled (c : ascii) : bool :=
  negb (isdigit c) && negb (existsb (Ascii.eqb c) symbols)
  && Ascii.eqb (upper_char c) c.

Definition no_space (w : str) : Prop := Forall (fun c => isspace c = false) w.

Definition word (w : str) : Prop := w <> [] /\ no_space w.

(** How often [c] occurs in [text]: [text.count(c)]. *)
Definition count (c : ascii) (text : str) : nat := count_occ ascii_dec text c.

(** The shape of a normalizer output: settled characters, words separated by
    single spaces. *)
Definition normalized (text : str) : Prop :=
  Forall (fun c => settled c = true) text
  /\ exists ws, Forall word ws /\ text = join (lit " ") ws.

(** [out] is [src] forward-filled: a value that is not missing is kept; a
    missing value takes the nearest value above it that is not missing; with
    nothing but missing values above it, it stays as it is. *)
Definition forward_filled (src out : Series) : Prop :=
  List.length out = List.length src
  /\ forall i, i < List.length src ->
       (isna (nth i src NaN) = false -> nth i out NaN = nth i src NaN)
       /\ (isna (nth i src NaN) = true ->
           forall j, j < i -> isna (nth j src NaN) = false ->
             (forall k, j < k -> k < i -> isna (nth k src NaN) = true) ->
             nth i out NaN = nth j src NaN)
       /\ (isna (nth i src NaN) = true ->
           (forall j, j < i -> isna (nth j src NaN) = true) ->
           nth i out NaN = nth i src NaN).

(** Every one of the four header columns of [rec] is the forward fill of
    the column of [df]. *)
Definition header_forward_filled (df rec : DataFrame) : Prop :=
  forall f, In f fields_to_fill ->
    exists src out,
      column df f = Some src /\ column rec f = Some out /\ forward_filled src out.

(** [mask] is true exactly at the first occurrence of every key. *)
Definition marks_first (keys : Series) (mask : list bool) : Prop :=
  List.length mask = List.length keys
  /\ forall i, i < List.length keys ->
       (nth i mask false = true <->
        forall j, j < i -> nth j keys NaN <> nth i keys NaN).

(** [tx] holds, for every key of [keys] (the [OR No] column of [rec]), the
    first row of [rec] with that key and no other row, without the two item
    columns. *)
Definition first_rows_by_key (rec tx : DataFrame) (keys : Series) : Prop :=
  exists mask,
    marks_first keys mask
    /\ index tx = keep mask (index rec)
    /\ (forall n,
          column tx n =
            if existsb (String.eqb n) ["Dishes"; "Dish Quantities"]%string
            then None
            else option_map (keep mask) (column rec n))
    /\ column tx "OR No" = Some (keep mask keys)
    /\ NoDup (keep mask keys)
    /\ (forall k, In k (keep mask keys) <-> In k keys)
    /\ nrows tx = List.length (nodup value_eq_dec keys).

(** The lines printed for the files of [files] that are skipped. *)
Definition skipped_lines (files : list File) : console :=
  flat_map (fun file =>
              match read_csv file gbk with
              | Raise (UnicodeDecodeError _) => []
              | Raise e => [could_not_read file e]
              | Ok _ => []
              end) files.

(** The tables of the files of [files] that are read. *)
Definition parsed_tables (files : list File) : list DataFrame :=
  flat_map (fun file =>
              match read_csv file gbk with
              | Ok df => [df]
              | Raise (UnicodeDecodeError _) =>
                  match read_csv file utf8 with
                  | Ok df => [df]
                  | Raise _ => []
                  end
              | Raise _ => []
              end) files.

(** [pd.to_datetime] does not raise on the forward-filled [Date] column of
    [df]. *)
Definition date_column_converts (to_datetime : ToDatetime) (df : DataFrame) : Prop :=
  forall d, column df "Date" = Some d ->
    exists stamps, pd_to_datetime to_datetime (ffill d) = Ok stamps.

(** The folder is one that [main] processes. *)
Definition valid (folder : Folder) : bool :=
  folder_exists folder && is_dir folder.

End Props.

Import Props.

(* ------------------------------------------------------------------ *)
(** * Sample inputs *)

Module Samples.

(** ** An instance of [to_datetime]

    It reads the ISO 8601 texts [YYYY-MM-DD] and [YYYY-MM-DD HH:MM:SS],
    keeps timestamps, reads numbers as nanoseconds and dates as midnight,
    takes every other value as unparseable, and does not raise. *)

Fixpoint number_from (acc : Z) (digits : str) : option Z :=
  match digits with
  | [] => Some acc
  | c :: digits' =>
      if isdigit c
      then number_from (10 * acc + (Z.of_N (code c) - 48))%Z digits'
      else None
  end.

Definition number (digits : str) : option Z := number_from 0 digits.

Definition slice (start len : nat) (s : str) : str := firstn len (skipn start s).

Definition char_at (i : nat) (s : str) (c : ascii) : bool :=
  match nth_error s i with
  | Some c' => Ascii.eqb c' c
  | None => false
  end.

Definition leap (y : Z) : bool :=
  ((y mod 4 =? 0) && negb (y mod 100 =? 0) || (y mod 400 =? 0))%Z.

Definition days_in_month (y m : Z) : Z :=
  if (m =? 2)%Z then (if leap y then 29 else 28)
  else if ((m =? 4) || (m =? 6) || (m =? 9) || (m =? 11))%Z then 30
  else 31.

(** Days from 1970-01-01 to the civil date [y-m-d]. *)
Definition days_from_civil (y m d : Z) : Z :=
  (let y' := if m <=? 2 then y - 1 else y in
   let era := y' / 400 in
   let yoe := y' - era * 400 in
   let mp := (m + 9) mod 12 in
   let doy := (153 * mp + 2) / 5 + d - 1 in
   let doe := yoe * 365 + yoe / 4 - yoe / 100 + doy in
   era * 146097 + doe - 719468)%Z.

Definition parse_date (s : str) : option Z :=
  match number (slice 0 4 s), number (slice 5 2 s), number (slice 8 2 s) with
  | Some y, Some m, Some d =>
      if (char_at 4 s "-" && char_at 7 s "-"
          && (1 <=? m) && (m <=? 12) && (1 <=? d) && (d <=? days_in_month y m))%Z
      then Some (days_from_civil y m d)
      else None
  | _, _, _ => None
  end.

Definition parse_time (s : str) : option Z :=
  match number (slice 0 2 s), number (slice 3 2 s), number (slice 6 2 s) with
  | Some h, Some m, Some sec =>
      if (char_at 2 s ":" && char_at 5 s ":"
          && (h <=? 23) && (m <=? 59) && (sec <=? 59))%Z
      then Some (h * 3600 + m * 60 + sec)%Z
      else None
  | _, _, _ => None
  end.

Definition parse_iso (s : str) : option Z :=
  if List.length s =? 10 then
    match parse_date s with
    | Some days => Some (days * ns_per_day)%Z
    | None => None
    end
  else if (List.length s =? 19) && char_at 10 s " " then
    match parse_date (slice 0 10 s), parse_time (slice 11 8 s) with
    | Some days, Some secs => Some (days * ns_per_day + secs * 1000000000)%Z
    | _, _ => None
    end
  else None.

Definition iso_cell (col : Series) (v : value) : option Z :=
  match v with
  | Str s => parse_iso s
  | Timestamp ns => Some ns
  | Int ns => Some ns
  | Date days => Some (days * ns_per_day)%Z
  | NaN | PyNone | NaT => None
  end.

Definition iso_to_datetime : ToDatetime :=
  {| raises_on := fun _ => None; cell := iso_cell |}.

(** An instance that reads like [iso_to_datetime] and raises on a column
    in which two texts end with different UTC offsets, written [+HH:MM] or
    [-HH:MM]. *)
Definition offset_of (v : value) : option str :=
  match v with
  | Str s =>
      let at_sign := List.length s - 6 in
      if (char_at at_sign s "+" || char_at at_sign s "-")
         && char_at (List.length s - 3) s ":"
      then Some (slice at_sign 6 s)
      else None
  | _ => None
  end.

Definition offsets_differ (v w : value) : bool :=
  match offset_of v, offset_of w with
  | Some a, Some b => if list_eq_dec ascii_dec a b then false else true
  | _, _ => false
  end.

Definition mixed_offsets (col : Series) : bool :=
  existsb (fun v => existsb (offsets_differ v) col) col.

Definition mixed_timezones : string :=
  "Mixed timezones detected. Pass utc=True in to_datetime or tz='UTC' in DatetimeIndex to convert to a common timezone.".

Definition offset_to_datetime : ToDatetime :=
  {| raises_on := fun col =>
       if mixed_offsets col then Some (ValueError mixed_timezones) else None;
     cell := iso_cell |}.

(** ** Tables *)

Definition text (s : string) : value := Str (lit s).

(** Five line items of three receipts; the header fields are filled on the
    first row of a block only. *)
Definition five_rows : DataFrame :=
  {| index := [0; 1; 2; 3; 4];
     columns :=
       [ ("Date", [text "2024-01-05 10:00:00"; NaN; NaN; text "2024-01-05 11:30:00"; NaN]);
         ("POS Name", [text "POS1"; NaN; NaN; text "POS2"; NaN]);
         ("Cashier Name", [text "Ana"; NaN; NaN; text "Ben"; NaN]);
         ("Transaction No", [Int 1001; NaN; NaN; Int 1002; NaN]);
         ("OR No", [Int 1; Int 1; Int 2; Int 2; Int 3]);
         ("Dishes", [text "Burger W/ Cheese"; text "fries (2) PCS 3"; text "Soup";
                     text "rice & egg"; NaN]);
         ("Dish Quantities", [Int 1; Int 2; Int 1; Int 1; Int 4]);
         ("No data found", [NaN; NaN; NaN; NaN; NaN]) ]%string |}.

(** A table whose first date is no date. *)
Definition garbage_date : DataFrame :=
  {| index := [0; 1];
     columns :=
       [ ("Date", [text "garbage"; NaN]);
         ("POS Name", [text "POS1"; NaN]);
         ("Cashier Name", [text "Ana"; NaN]);
         ("Transaction No", [Int 1001; NaN]);
         ("OR No", [Int 1; Int 1]);
         ("Dishes", [text "Soup"; text "Rice"]);
         ("Dish Quantities", [Int 1; Int 2]) ]%string |}.

(** Two receipts stamped in different time zones. *)
Definition two_time_zones : DataFrame :=
  {| index := [0; 1; 2];
     columns :=
       [ ("Date", [text "2024-01-05 10:00:00+08:00"; NaN; text "2024-01-05 11:30:00+09:00"]);
         ("POS Name", [text "POS1"; NaN; text "POS2"]);
         ("Cashier Name", [text "Ana"; NaN; text "Ben"]);
         ("Transaction No", [Int 1001; NaN; Int 1002]);
         ("OR No", [Int 1; Int 1; Int 2]);
         ("Dishes", [text "Soup"; text "Rice"; text "Tea"]);
         ("Dish Quantities", [Int 1; Int 2; Int 1]) ]%string |}.

(** [five_rows] without its item descriptions. *)
Definition no_dishes : DataFrame := drop ["Dishes"%string] five_rows.

(** [five_rows] without the terminal column. *)
Definition no_pos_name : DataFrame := drop ["POS Name"%string] five_rows.

(** ** Files and folders *)

(** A file whose bytes are text neither in GBK nor in UTF-8, such as a
    binary spreadsheet saved under the [.xls] name. *)
Definition binary_file : File :=
  {| file_name := "binary.xls";
     read_csv := fun enc =>
       match enc with
       | gbk => Raise (UnicodeDecodeError
                  "'gbk' codec can't decode byte 0xff in position 0: illegal multibyte sequence")
       | utf8 => Raise (UnicodeDecodeError
                  "'utf-8' codec can't decode byte 0xff in position 0: invalid start byte")
       end |}.

(** A file that decodes but has no table in it. *)
Definition malformed_file : File :=
  {| file_name := "malformed.xls";
     read_csv := fun _ => Raise (OtherException "No columns to parse from file") |}.

(** A file in UTF-8 that GBK cannot decode. *)
Definition utf8_file : File :=
  {| file_name := "utf8.xls";
     read_csv := fun enc =>
       match enc with
       | gbk => Raise (UnicodeDecodeError
                  "'gbk' codec can't decode byte 0x80 in position 7: illegal multibyte sequence")
       | utf8 => Ok garbage_date
       end |}.

Definition valid_file : File :=
  {| file_name := "valid.xls"; read_csv := fun _ => Ok five_rows |}.

Definition two_time_zones_file : File :=
  {| file_name := "zones.xls"; read_csv := fun _ => Ok two_time_zones |}.

Definition folder_of (files : list File) : Folder :=
  {| path := "/data/pos"; folder_exists := true; is_dir := true;
     glob_xls := files; write_xlsx := fun _ => None |}.

(** A folder in which the workbook cannot be written. *)
Definition permission_denied : exn :=
  OtherException "[Errno 13] Permission denied: '/data/pos/Daily_Report.xlsx'".

Definition read_only_folder_of (files : list File) : Folder :=
  {| path := "/data/pos"; folder_exists := true; is_dir := true;
     glob_xls := files; write_xlsx := fun _ => Some permission_denied |}.

End Samples.

Import Samples.

(* ------------------------------------------------------------------ *)
(** * The Text Normalizer on Unicode strings *)

(** [Text] reads a Python [str] as a sequence of 8-bit characters, which is
    what it is for ASCII texts.  This module reads it as what it is in
    general, a sequence of Unicode code points, and follows lines 59-64
    again.  The string methods are those of Python on the ASCII range and
    are taken from the Unicode character database above it. *)

Module Unicode.

(** A code point, and a Python [str]. *)
Definition char := N.
Definition ustr := list N.

(** The code points of an 8-bit text, and of a literal of the source. *)
Definition of_str (s : str) : ustr := map code s.
Definition ulit (s : string) : ustr := of_str (lit s).

(** The part of the Unicode character database that [isdigit], [split] and
    [upper] consult for a code point above the ASCII range.  [db_upper] is
    the full upper-case mapping, of one to three code points. *)
Record Database : Type := {
  db_isdigit : N -> bool;
  db_isspace : N -> bool;
  db_upper : N -> ustr
}.

(** [text.replace(ch, '')] for a single character [ch]. *)
Definition remove_char (ch : N) (text : ustr) : ustr :=
  filter (fun c => negb (N.eqb c ch)) text.

Fixpoint starts_with (key text : ustr) : bool :=
  match key, text with
  | [], _ => true
  | _ :: _, [] => false
  | k :: key', c :: text' => N.eqb k c && starts_with key' text'
  end.

(** [text.replace(key, val)] for a non-empty [key], as in [Text]. *)
Fixpoint replace_from (key val : ustr) (skip : nat) (text : ustr) : ustr :=
  match text with
  | [] => []
  | c :: text' =>
      match skip with
      | S k => replace_from key val k text'
      | O =>
          if starts_with key text
          then val ++ replace_from key val (List.length key - 1) text'
          else c :: replace_from key val 0 text'
      end
  end.

Definition replace (key val text : ustr) : ustr := replace_from key val 0 text.

(** [key in text] *)
Fixpoint occurs (key text : ustr) : bool :=
  starts_with key text
  || match text with
     | [] => false
     | _ :: text' => occurs key text'
     end.

(** [sep.join(words)] *)
Fixpoint join (sep : ustr) (words : list ustr) : ustr :=
  match words with
  | [] => []
  | [w] => w
  | w :: ws => w ++ sep ++ join sep ws
  end.

Definition symbols : ustr := of_str Text.symbols.

(** The dictionary [replacements] (source lines 51-57), in insertion order. *)
Definition replacements : list (ustr * ustr) :=
  [ (ulit "W/", ulit "WITH");
    (ulit "&", ulit "AND");
    (ulit " WIT ", ulit " WITH ");
    (ulit "\n", ulit " ");
    (ulit "PCS", ulit "") ].

Definition remove_symbols (text : ustr) : ustr :=
  fold_left (fun t ch => remove_char ch t) symbols text.

Definition apply_replacements (text : ustr) : ustr :=
  fold_left (fun t kv => replace (fst kv) (snd kv) t) replacements text.

(** How often [c] occurs in [text]. *)
Definition count (c : N) (text : ustr) : nat := count_occ N.eq_dec text c.

(** The keys of [replacements] that a normalized text can still contain. *)
Definition live_keys : list ustr :=
  [ulit "W/"; ulit "&"; ulit " WIT "; ulit "PCS"].

Definition key_free (text : ustr) : bool :=
  forallb (fun key => negb (occurs key text)) live_keys.

Section WithDatabase.

Variable ucd : Database.

(** [c.isdigit()] *)
Definition isdigit (c : N) : bool :=
  if (c <? 128)%N then Text.isdigit (ascii_of_N c) else db_isdigit ucd c.

(** Whitespace as [str.split()] sees it. *)
Definition isspace (c : N) : bool :=
  if (c <? 128)%N then Text.isspace (ascii_of_N c) else db_isspace ucd c.

(** [c.upper()] *)
Definition upper_char (c : N) : ustr :=
  if (c <? 128)%N then [code (Text.upper_char (ascii_of_N c))] else db_upper ucd c.

(** [text.upper()]: every character is mapped by itself. *)
Definition upper (text : ustr) : ustr := flat_map upper_char text.

(** [text.split()] *)
Fixpoint split (text : ustr) : list ustr :=
  match text with
  | [] => []
  | c :: text' =>
      if isspace c then split text'
      else
        match text' with
        | [] => [[c]]
        | c' :: _ =>
            if isspace c' then [c] :: split text'
            else
              match split text' with
              | w :: ws => (c :: w) :: ws
              | [] => [[c]]
              end
        end
  end.

Definition remove_digits (text : ustr) : ustr :=
  filter (fun c => negb (isdigit c)) text.

(** The body of [clean_dish_name] for a [str] (source lines 59-64). *)
Definition clean_text (text : ustr) : ustr :=
  let text := remove_symbols text in
  let text := apply_replacements text in
  let text := remove_digits text in
  join (ulit " ") (split (upper text)).

(** A character as the normalizer leaves it: no digit, none of the removed
    symbols, its own upper case. *)
Definition settled (c : N) : bool :=
  negb (isdigit c) && negb (existsb (N.eqb c) symbols)
  && match upper_char c with
     | [u] => N.eqb u c
     | _ => false
     end.

Definition word (w : ustr) : Prop :=
  w <> [] /\ Forall (fun c => isspace c = false) w.

Definition normalized (text : ustr) : Prop :=
  Forall (fun c => settled c = true) text
  /\ exists ws, Forall word ws /\ text = join (ulit " ") ws.

(** What the proofs need of the database: the upper case of a character
    that is no digit consists of characters that are no digits, none of
    [( ) . @], and their own upper case. *)
Definition upper_settles : Prop :=
  forall c, (128 <= c)%N -> db_isdigit ucd c = false ->
    Forall (fun u => settled u = true) (db_upper ucd c).

End WithDatabase.

(** ** A database for examples

    The Latin-1 range of the Unicode character database: the superscript
    digits, the two spaces NEL and NBSP, and the upper-case mapping, under
    which sharp s becomes [SS] and two letters leave the range; above the
    range no character is a digit, a space or cased. *)
Definition latin1 : Database :=
  {| db_isdigit := fun c => ((c =? 178) || (c =? 179) || (c =? 185))%N;
     db_isspace := fun c => ((c =? 133) || (c =? 160))%N;
     db_upper := fun c =>
       if (255 <? c)%N then [c]
       else if ((224 <=? c) && negb (c =? 247) && negb (c =? 255))%N then [(c - 32)%N]
       else if (c =? 223)%N then [83%N; 83%N]
       else if (c =? 181)%N then [924%N]
       else if (c =? 255)%N then [376%N]
       else [c] |}.

(** ["crème brûlée w/ ice"], as code points. *)
Definition creme_brulee : ustr :=
  [99; 114; 232; 109; 101; 32; 98; 114; 251; 108; 233; 101; 32;
   119; 47; 32; 105; 99; 101]%N.

End Unicode.

(* ------------------------------------------------------------------ *)
(** * Facts about the string methods *)

Module TextFacts.

Ltac each_char c :=
  destruct c as [[] [] [] [] [] [] [] []]; vm_compute; try reflexivity;
  try discriminate; auto.

Lemma upper_char_settled c :
  isdigit c = false -> existsb (Ascii.eqb c) symbols = false ->
  settled (upper_char c) = true.
Proof. each_char c. Qed.

Lemma settled_not_n c : settled c = true -> Ascii.eqb "n" c = false.
Proof. each_char c. Qed.

Lemma settled_upper c : settled c = true -> upper_char c = c.
Proof.
  unfold settled. intros H.
  apply andb_prop in H as [_ H]. now apply Ascii.eqb_eq.
Qed.

Lemma settled_digit c : settled c = true -> negb (isdigit c) = true.
Proof.
  unfold settled. intros H.
  apply andb_prop in H as [H _]. now apply andb_prop in H as [H _].
Qed.

Lemma settled_symbol c ch :
  settled c = true -> In ch symbols -> negb (Ascii.eqb c ch) = true.
Proof.
  unfold settled. intros H Hin.
  apply andb_prop in H as [H _]. apply andb_prop in H as [_ H].
  apply negb_true_iff in H. apply negb_true_iff.
  destruct (Ascii.eqb c ch) eqn:E; [|reflexivity].
  rewrite <- H. symmetry. apply existsb_exists. now exists ch.
Qed.

(** ** [filter] *)

Lemma filter_all {A} (f : A -> bool) l :
  Forall (fun x => f x = true) l -> filter f l = l.
Proof.
  induction 1 as [|x l Hx _ IH]; simpl; [reflexivity|].
  now rewrite Hx, IH.
Qed.

Lemma Forall_filter {A} (P : A -> Prop) f l :
  Forall P l -> Forall P (filter f l).
Proof.
  induction 1 as [|x l Hx _ IH]; simpl; [constructor|].
  destruct (f x); [constructor|]; assumption.
Qed.

Lemma Forall_filter_true {A} (f : A -> bool) l :
  Forall (fun x => f x = true) (filter f l).
Proof.
  induction l as [|x l IH]; simpl; [constructor|].
  destruct (f x) eqn:E; [constructor|]; assumption.
Qed.

(** ** [replace] *)

Lemma replace_from_Forall (P : ascii -> Prop) key val :
  Forall P val ->
  forall text skip, Forall P text -> Forall P (replace_from key val skip text).
Proof.
  intros Hval text. induction text as [|c text IH]; intros skip Ht; simpl.
  - constructor.
  - inversion Ht as [|? ? Hc Ht']; subst.
    destruct skip as [|k]; [|now apply IH].
    destruct (starts_with key (c :: text)).
    + apply Forall_app. split; [assumption|now apply IH].
    + constructor; [assumption|now apply IH].
Qed.

Lemma replace_absent key val text :
  occurs key text = false -> replace key val text = text.
Proof.
  unfold replace. induction text as [|c text IH]; simpl; intros H.
  - reflexivity.
  - apply orb_false_iff in H as [H1 H2].
    simpl in H1. rewrite H1. now rewrite IH.
Qed.

Lemma starts_with_app key rest : starts_with key (key ++ rest) = true.
Proof.
  induction key as [|k key IH]; simpl; [reflexivity|].
  now rewrite Ascii.eqb_refl.
Qed.

Lemma starts_with_inv key text :
  starts_with key text = true -> text = key ++ skipn (List.length key) text.
Proof.
  revert text. induction key as [|k key IH]; intros text H; simpl.
  - reflexivity.
  - destruct text as [|c text]; simpl in H; [discriminate|].
    apply andb_prop in H as [Hk H]. apply Ascii.eqb_eq in Hk. subst c.
    f_equal. now apply IH.
Qed.

Lemma replace_from_skip key val skip text :
  replace_from key val skip text = replace_from key val 0 (skipn skip text).
Proof.
  revert skip. induction text as [|c text IH]; intros [|k]; simpl; try reflexivity.
  apply IH.
Qed.

(** The equations of Python's [replace]: at an occurrence, [val] and then
    the rest after the occurrence; elsewhere, one character is copied. *)
Lemma replace_hit k key val text :
  starts_with (k :: key) text = true ->
  replace (k :: key) val text
  = val ++ replace (k :: key) val (skipn (List.length (k :: key)) text).
Proof.
  unfold replace. intros H. destruct text as [|c text]; [discriminate|].
  cbn [replace_from]. rewrite H. f_equal.
  cbn [List.length skipn]. rewrite Nat.sub_succ, Nat.sub_0_r.
  apply replace_from_skip.
Qed.

Lemma replace_miss key val c text :
  starts_with key (c :: text) = false ->
  replace key val (c :: text) = c :: replace key val text.
Proof. unfold replace. intros H. cbn [replace_from]. now rewrite H. Qed.

Lemma replace_nil key val : replace key val [] = [].
Proof. reflexivity. Qed.

(** ** [upper] *)

Lemma upper_settled text :
  Forall (fun c => settled c = true) text -> upper text = text.
Proof.
  unfold upper. induction 1 as [|c text Hc _ IH]; simpl; [reflexivity|].
  now rewrite settled_upper, IH.
Qed.

(** ** [split] and [join] *)

Lemma split_space c text : isspace c = true -> split (c :: text) = split text.
Proof. intros H. simpl. now rewrite H. Qed.

Lemma split_Forall (P : ascii -> Prop) text :
  Forall P text -> Forall (Forall P) (split text).
Proof.
  induction 1 as [|c text Hc Ht IH]; [constructor|].
  cbn [split]. destruct (isspace c); [assumption|].
  destruct text as [|c' text']; [repeat constructor; assumption|].
  destruct (isspace c'); [constructor; [repeat constructor|]; assumption|].
  destruct (split (c' :: text')) as [|w ws].
  - repeat constructor; assumption.
  - inversion IH; subst. constructor; [constructor|]; assumption.
Qed.

Lemma split_words text : Forall word (split text).
Proof.
  induction text as [|c text IH]; [constructor|].
  cbn [split]. destruct (isspace c) eqn:Ec; [assumption|].
  assert (Hc : word [c]) by (split; [discriminate|repeat constructor; assumption]).
  destruct text as [|c' text']; [constructor; [exact Hc|constructor]|].
  destruct (isspace c'); [constructor; assumption|].
  destruct (split (c' :: text')) as [|w ws]; [constructor; [exact Hc|constructor]|].
  inversion IH as [|? ? [_ Hw] Hws]; subst.
  constructor; [|assumption].
  split; [discriminate|constructor; assumption].
Qed.

Lemma split_word w : word w -> split w = [w].
Proof.
  intros [Hne Hw]. induction Hw as [|c w Hc Hw IH]; [congruence|].
  cbn [split]. rewrite Hc.
  destruct w as [|c' w']; [reflexivity|].
  inversion Hw as [|? ? Hc' _]; subst. rewrite Hc'.
  rewrite IH by discriminate. reflexivity.
Qed.

Lemma split_word_space w rest :
  word w -> split (w ++ " "%char :: rest) = w :: split rest.
Proof.
  intros [Hne Hw]. induction Hw as [|c w Hc Hw IH]; [congruence|].
  cbn [app split]. rewrite Hc.
  destruct w as [|c' w'].
  - cbn [app]. change (isspace " "%char) with true. cbv iota.
    now rewrite split_space.
  - inversion Hw as [|? ? Hc' _]; subst.
    cbn [app] in *. rewrite Hc'.
    rewrite IH by discriminate. reflexivity.
Qed.

Lemma split_join ws : Forall word ws -> split (join (lit " ") ws) = ws.
Proof.
  induction 1 as [|w ws Hw Hws IH]; [reflexivity|].
  destruct ws as [|w' ws'].
  - now apply split_word.
  - change (join (lit " ") (w :: w' :: ws'))
      with (w ++ " "%char :: join (lit " ") (w' :: ws')).
    rewrite split_word_space by assumption. now rewrite IH.
Qed.

Lemma join_Forall (P : ascii -> Prop) sep ws :
  Forall P sep -> Forall (Forall P) ws -> Forall P (join sep ws).
Proof.
  intros Hsep. induction 1 as [|w ws Hw Hws IH]; [constructor|].
  destruct ws as [|w' ws']; [assumption|].
  change (join sep (w :: w' :: ws')) with (w ++ sep ++ join sep (w' :: ws')).
  repeat (apply Forall_app; split); assumption.
Qed.

(** ** The normalizer *)

Lemma remove_symbols_spec text :
  Forall (fun c => existsb (Ascii.eqb c) symbols = false) (remove_symbols text).
Proof.
  unfold remove_symbols, remove_char. cbn [fold_left symbols].
  apply Forall_forall. intros c Hc.
  repeat (apply filter_In in Hc; destruct Hc as [Hc ?]).
  unfold symbols. cbn [existsb].
  repeat match goal with
         | H : negb (Ascii.eqb c _) = true |- _ =>
             apply negb_true_iff in H; rewrite H; clear H
         end.
  reflexivity.
Qed.

Lemma apply_replacements_Forall (P : ascii -> Prop) text :
  Forall (fun kv => Forall P (snd kv)) replacements ->
  Forall P text -> Forall P (apply_replacements text).
Proof.
  unfold apply_replacements. generalize replacements.
  intros l Hl. revert text.
  induction Hl as [|kv l Hkv _ IH]; intros text Ht; [exact Ht|].
  cbn [fold_left]. apply IH. now apply replace_from_Forall.
Qed.

Lemma clean_text_normalized text : normalized (clean_text text).
Proof.
  unfold clean_text.
  set (u := upper (remove_digits (apply_replacements (remove_symbols text)))).
  assert (Hu : Forall (fun c => settled c = true) u).
  { unfold u, upper. apply Forall_map.
    assert (H : Forall (fun c => negb (isdigit c) = true
                                 /\ existsb (Ascii.eqb c) symbols = false)
                       (remove_digits (apply_replacements (remove_symbols text)))).
    { unfold remove_digits. apply Forall_and; [apply Forall_filter_true|].
      apply Forall_filter. apply apply_replacements_Forall.
      - repeat constructor.
      - apply remove_symbols_spec. }
    eapply Forall_impl; [|exact H]. cbv beta. intros c [Hd Hs].
    apply upper_char_settled; [now apply negb_true_iff|assumption]. }
  split.
  - apply join_Forall; [repeat constructor|]. now apply split_Forall.
  - exists (split u). split; [apply split_words|reflexivity].
Qed.

Lemma occurs_backslash_n text :
  Forall (fun c => settled c = true) text -> occurs (lit "\n") text = false.
Proof.
  induction 1 as [|c text Hc Ht IH]; [reflexivity|].
  cbn [occurs]. rewrite IH, orb_false_r.
  cbn [lit list_ascii_of_string starts_with].
  destruct text as [|c' text']; [now rewrite andb_false_r|].
  inversion Ht as [|? ? Hc' _]; subst.
  now rewrite (settled_not_n _ Hc'), andb_false_r.
Qed.

Lemma remove_char_settled ch text :
  Forall (fun c => settled c = true) text -> In ch symbols ->
  remove_char ch text = text.
Proof.
  intros Hs Hin. unfold remove_char. apply filter_all.
  eapply Forall_impl; [|exact Hs]. intros c Hc. now apply settled_symbol.
Qed.

(** A normalized text without live keys is a fixed point. *)
Lemma normalized_fixed text :
  normalized text -> key_free text = true -> clean_text text = text.
Proof.
  intros [Hs [ws [Hws Heq]]] Hk.
  unfold key_free in Hk. cbn [forallb live_keys] in Hk.
  repeat (apply andb_prop in Hk as [?%negb_true_iff Hk]).
  unfold clean_text.
  assert (E1 : remove_symbols text = text).
  { unfold remove_symbols, symbols. cbn [fold_left].
    rewrite (@remove_char_settled "(" text), (@remove_char_settled ")" text),
      (@remove_char_settled "." text), (@remove_char_settled "@" text);
      solve [reflexivity | exact Hs | cbn; tauto]. }
  assert (E2 : apply_replacements text = text).
  { unfold apply_replacements. cbn [fold_left replacements fst snd].
    now rewrite (@replace_absent _ _ _ H), (@replace_absent _ _ _ H0),
      (@replace_absent _ _ _ H1), (@replace_absent _ _ _ (occurs_backslash_n Hs)),
      (@replace_absent _ _ _ H2). }
  assert (E3 : remove_digits text = text).
  { unfold remove_digits. apply filter_all.
    eapply Forall_impl; [|exact Hs]. apply settled_digit. }
  rewrite E1, E2, E3, (upper_settled Hs), Heq.
  now rewrite split_join.
Qed.

(** ** Counting characters *)

Lemma count_app c s s' : count c (s ++ s') = count c s + count c s'.
Proof. apply count_occ_app. Qed.

Lemma count_cons c c' s :
  count c (c' :: s) = (if ascii_dec c' c then 1 else 0) + count c s.
Proof. unfold count. cbn [count_occ]. now destruct (ascii_dec c' c). Qed.

Lemma occurs_nil key : key <> [] -> occurs key [] = false.
Proof. destruct key; [congruence|reflexivity]. Qed.

(** Every replacement trades the characters of the key for those of the
    value; [k] is the number of replacements made. *)
Lemma replace_count key val c :
  key <> [] ->
  forall text,
  exists k,
    count c (replace key val text) + k * count c key
    = count c text + k * count c val
    /\ (occurs key text = true -> 0 < k).
Proof.
  intros Hkey text.
  remember (List.length text) as n eqn:Hn. revert text Hn.
  induction n as [n IH] using lt_wf_ind. intros text Hn.
  destruct text as [|c0 text].
  - exists 0. split; [reflexivity|]. now rewrite occurs_nil.
  - destruct (starts_with key (c0 :: text)) eqn:E.
    + destruct key as [|k0 key]; [congruence|].
      pose proof (starts_with_inv _ _ E) as Hs.
      set (rest := skipn (List.length (k0 :: key)) (c0 :: text)) in *.
      pose proof (f_equal (@List.length ascii) Hs) as Hl.
      pose proof (f_equal (count c) Hs) as Hcnt.
      rewrite length_app in Hl. rewrite count_app in Hcnt.
      assert (Hlen : List.length rest < n) by (cbn [List.length] in *; lia).
      destruct (IH _ Hlen rest eq_refl) as [k [Hk _]].
      exists (S k). split; [|lia].
      rewrite (replace_hit _ _ _ _ E). fold rest.
      rewrite count_app. lia.
    + assert (Hlen : List.length text < n) by (subst n; cbn; lia).
      destruct (IH _ Hlen text eq_refl) as [k [Hk Hpos]].
      exists k. split.
      * rewrite (replace_miss _ _ _ _ E), !count_cons. lia.
      * cbn [occurs]. rewrite E. exact Hpos.
Qed.

Lemma count_join c ws :
  isspace c = false -> count c (join (lit " ") ws) = count c (List.concat ws).
Proof.
  intros Hc. induction ws as [|w ws IH]; [reflexivity|].
  destruct ws as [|w' ws'].
  - cbn [join List.concat]. now rewrite app_nil_r.
  - change (join (lit " ") (w :: w' :: ws'))
      with (w ++ " "%char :: join (lit " ") (w' :: ws')).
    change (List.concat (w :: w' :: ws')) with (w ++ List.concat (w' :: ws')).
    rewrite !count_app, count_cons, IH.
    destruct (ascii_dec " " c) as [<-|]; [discriminate|reflexivity].
Qed.

Lemma count_split c text :
  isspace c = false -> count c (List.concat (split text)) = count c text.
Proof.
  intros Hc. induction text as [|c0 text IH]; [reflexivity|].
  rewrite count_cons. cbn [split].
  destruct (isspace c0) eqn:E0.
  - rewrite IH. destruct (ascii_dec c0 c) as [->|]; [congruence|reflexivity].
  - destruct text as [|c' text'].
    + cbn [List.concat app]. now rewrite count_cons.
    + destruct (isspace c').
      * cbn [List.concat app]. now rewrite count_cons, IH.
      * destruct (split (c' :: text')) as [|w ws];
          cbn [List.concat app] in *; now rewrite count_cons, <- IH.
Qed.

Lemma count_split_join c text :
  isspace c = false -> count c (join (lit " ") (split text)) = count c text.
Proof. intros Hc. now rewrite count_join, count_split. Qed.

(** On a normalized text only the replacements and the split act. *)
Lemma clean_text_settled text :
  Forall (fun c => settled c = true) text ->
  clean_text text = join (lit " ") (split (apply_replacements text)).
Proof.
  intros Hs. unfold clean_text.
  assert (E1 : remove_symbols text = text).
  { unfold remove_symbols, symbols. cbn [fold_left].
    rewrite (@remove_char_settled "(" text), (@remove_char_settled ")" text),
      (@remove_char_settled "." text), (@remove_char_settled "@" text);
      solve [reflexivity | exact Hs | cbn; tauto]. }
  rewrite E1.
  assert (Hr : Forall (fun c => settled c = true) (apply_replacements text)).
  { apply apply_replacements_Forall; [repeat constructor|assumption]. }
  assert (E3 : remove_digits (apply_replacements text) = apply_replacements text).
  { unfold remove_digits. apply filter_all.
    eapply Forall_impl; [|exact Hr]. apply settled_digit. }
  now rewrite E3, (upper_settled Hr).
Qed.

(** How the replacements change the number of [c]s, given which keys the
    text contains. *)
Ltac count_step c T :=
  match type of T with
  | ?t' = replace ?key ?val ?text =>
      let k := fresh "k" in
      let Hk := fresh "Hk" in
      let Hpos := fresh "Hpos" in
      destruct (@replace_count key val c ltac:(discriminate) text) as [k [Hk Hpos]];
      rewrite <- T in Hk;
      let n := eval vm_compute in (count c key) in
      change (count c key) with n in Hk;
      let m := eval vm_compute in (count c val) in
      change (count c val) with m in Hk
  end.

(** A normalized text that contains a live key is moved. *)
Lemma normalized_moves text :
  normalized text -> key_free text = false -> clean_text text <> text.
Proof.
  intros [Hs _] Hk Heq.
  rewrite (clean_text_settled Hs) in Heq.
  assert (Hc : forall c, isspace c = false ->
                 count c (apply_replacements text) = count c text).
  { intros c Hc. rewrite <- Heq at 2. symmetry. now apply count_split_join. }
  clear Heq. unfold apply_replacements in Hc.
  cbn [fold_left replacements fst snd] in Hc.
  remember (replace (lit "W/") (lit "WITH") text) as t1 eqn:T1.
  remember (replace (lit "&") (lit "AND") t1) as t2 eqn:T2.
  remember (replace (lit " WIT ") (lit " WITH ") t2) as t3 eqn:T3.
  remember (replace (lit "\n") (lit " ") t3) as t4 eqn:T4.
  remember (replace (lit "PCS") (lit "") t4) as t5 eqn:T5.
  unfold key_free in Hk. cbn [forallb live_keys] in Hk.
  destruct (occurs (lit "W/") text) eqn:K1.
  { specialize (Hc "/"%char eq_refl).
    count_step "/"%char T1. count_step "/"%char T2. count_step "/"%char T3.
    count_step "/"%char T4. count_step "/"%char T5.
    specialize (Hpos K1). lia. }
  assert (E1 : t1 = text) by (rewrite T1; now apply replace_absent).
  destruct (occurs (lit "&") text) eqn:K2.
  { specialize (Hc "&"%char eq_refl).
    count_step "&"%char T2. count_step "&"%char T3.
    count_step "&"%char T4. count_step "&"%char T5.
    rewrite E1 in *. specialize (Hpos K2). lia. }
  assert (E2 : t2 = text) by (rewrite T2, E1; now apply replace_absent).
  destruct (occurs (lit " WIT ") text) eqn:K3.
  { specialize (Hc "H"%char eq_refl).
    count_step "H"%char T3. count_step "H"%char T4. count_step "H"%char T5.
    rewrite E2 in *. specialize (Hpos K3). lia. }
  assert (E3 : t3 = text) by (rewrite T3, E2; now apply replace_absent).
  assert (E4 : t4 = text).
  { rewrite T4, E3. apply replace_absent. now apply occurs_backslash_n. }
  destruct (occurs (lit "PCS") text) eqn:K4; [|discriminate].
  specialize (Hc "P"%char eq_refl).
  count_step "P"%char T5.
  rewrite E4 in *. specialize (Hpos K4). lia.
Qed.

(** The normalizer leaves a normalized text alone exactly when the text has
    no live key in it. *)
Lemma normalized_fixed_iff text :
  normalized text -> (clean_text text = text <-> key_free text = true).
Proof.
  intros Hn. split.
  - intros Heq. destruct (key_free text) eqn:E; [reflexivity|].
    now destruct (normalized_moves Hn E).
  - now apply normalized_fixed.
Qed.

End TextFacts.

(* ------------------------------------------------------------------ *)
(** * Facts about data frames *)

Module FrameFacts.

(** ** Looking columns up *)

Lemma lookup_update n v m cols :
  lookup m (update n v cols) = if String.eqb n m then Some v else lookup m cols.
Proof.
  induction cols as [|[n' w] cols IH]; cbn [update lookup].
  - destruct (String.eqb n m); reflexivity.
  - destruct (String.eqb_spec n' n) as [->|Hn]; cbn [lookup].
    + destruct (String.eqb n m); reflexivity.
    + rewrite IH. destruct (String.eqb_spec n' m) as [->|Hm]; [|reflexivity].
      apply String.eqb_neq in Hn. rewrite String.eqb_sym in Hn. now rewrite Hn.
Qed.

Lemma lookup_filter names m cols :
  lookup m (filter (fun c => negb (existsb (String.eqb (fst c)) names)) cols)
  = if existsb (String.eqb m) names then None else lookup m cols.
Proof.
  induction cols as [|[n w] cols IH]; cbn [filter lookup fst].
  - destruct (existsb _ names); reflexivity.
  - destruct (existsb (String.eqb n) names) eqn:En; cbn [negb lookup].
    + rewrite IH. destruct (String.eqb_spec n m) as [->|]; [|reflexivity].
      now rewrite En.
    + destruct (String.eqb_spec n m) as [->|]; [now rewrite En|apply IH].
Qed.

Lemma lookup_app m cols cols' :
  lookup m (cols ++ cols')
  = match lookup m cols with
    | Some v => Some v
    | None => lookup m cols'
    end.
Proof.
  induction cols as [|[n w] cols IH]; cbn [app lookup]; [reflexivity|].
  destruct (String.eqb n m); [reflexivity|apply IH].
Qed.

Lemma lookup_insert k n v m cols :
  lookup n cols = None ->
  lookup m (firstn k cols ++ (n, v) :: skipn k cols)
  = if String.eqb n m then Some v else lookup m cols.
Proof.
  intros Hn. rewrite lookup_app. cbn [lookup].
  assert (E : forall x, lookup x cols
                        = match lookup x (firstn k cols) with
                          | Some w => Some w
                          | None => lookup x (skipn k cols)
                          end)
    by (intros x; now rewrite <- lookup_app, firstn_skipn).
  rewrite (E m). rewrite (E n) in Hn.
  destruct (String.eqb_spec n m) as [->|]; [|reflexivity].
  destruct (lookup m (firstn k cols)); [discriminate|reflexivity].
Qed.

Lemma lookup_names (f : string -> Series) m names :
  lookup m (map (fun n => (n, f n)) names)
  = if existsb (String.eqb m) names then Some (f m) else None.
Proof.
  induction names as [|n names IH]; cbn [map lookup existsb]; [reflexivity|].
  rewrite (String.eqb_sym m n).
  destruct (String.eqb_spec n m) as [->|]; [reflexivity|apply IH].
Qed.

Lemma lookup_Some_In m v cols : lookup m cols = Some v -> In (m, v) cols.
Proof.
  induction cols as [|[n w] cols IH]; cbn [lookup]; [discriminate|].
  destruct (String.eqb_spec n m) as [->|]; intros H.
  - injection H as ->. now left.
  - right. now apply IH.
Qed.

Lemma column_setcol df n v m :
  column (setcol df n v) m = if String.eqb n m then Some v else column df m.
Proof. apply lookup_update. Qed.

Lemma column_drop names df m :
  column (drop names df) m
  = if existsb (String.eqb m) names then None else column df m.
Proof. apply lookup_filter. Qed.

Lemma has_column_true df n :
  has_column df n = true -> exists v, column df n = Some v.
Proof.
  unfold has_column. destruct (column df n) as [v|]; [eauto|discriminate].
Qed.

Lemma has_column_false df n : has_column df n = false <-> column df n = None.
Proof.
  unfold has_column. destruct (column df n); split; congruence.
Qed.

(** ** [df[names]] *)

Lemma getitem_ok df names :
  forallb (has_column df) names = true ->
  getitem df names
  = Ok {| index := index df;
          columns := map (fun n => (n, match column df n with
                                       | Some v => v
                                       | None => []
                                       end)) names |}.
Proof.
  intros H. unfold getitem.
  replace (filter (fun n => negb (has_column df n)) names) with (@nil string);
    [reflexivity|].
  symmetry. induction names as [|n names IH]; [reflexivity|].
  cbn [forallb] in H. apply andb_prop in H as [Hn H].
  cbn [filter]. rewrite Hn. cbn [negb]. now apply IH.
Qed.

Lemma getitem_missing df names n :
  In n names -> column df n = None ->
  exists missing, getitem df names = Raise (KeyError missing) /\ In n missing.
Proof.
  intros Hin Hn. unfold getitem.
  assert (Hm : In n (filter (fun n => negb (has_column df n)) names)).
  { apply filter_In. split; [assumption|].
    apply negb_true_iff. now apply has_column_false. }
  destruct (filter (fun n => negb (has_column df n)) names) as [|m ms];
    [destruct Hm|].
  exists (m :: ms). now split.
Qed.

Lemma getitem_inv df names d :
  getitem df names = Ok d ->
  forallb (has_column df) names = true
  /\ d = {| index := index df;
            columns := map (fun n => (n, match column df n with
                                         | Some v => v
                                         | None => []
                                         end)) names |}.
Proof.
  intros H.
  destruct (forallb (has_column df) names) eqn:E.
  - rewrite getitem_ok in H by assumption. injection H as <-. now split.
  - exfalso.
    assert (Hex : exists n, In n names /\ has_column df n = false).
    { clear H. induction names as [|n names IH]; [discriminate|].
      cbn [forallb] in E. destruct (has_column df n) eqn:En.
      - destruct (IH E) as [n' [? ?]]. exists n'. split; [now right|assumption].
      - exists n. split; [now left|assumption]. }
    destruct Hex as [n [Hin Hn]].
    apply has_column_false in Hn.
    destruct (getitem_missing df names n Hin Hn) as [ms [Hr _]]. congruence.
Qed.

(** ** Forward fill *)

Lemma ffill_from_length last s :
  List.length (ffill_from last s) = List.length s.
Proof.
  revert last. induction s as [|v s IH]; intros last; [reflexivity|].
  cbn [ffill_from]. destruct (isna v); [destruct last|]; cbn [List.length];
    now rewrite IH.
Qed.

Lemma ffill_from_valid s : forall last i,
  isna (nth i s NaN) = false -> nth i (ffill_from last s) NaN = nth i s NaN.
Proof.
  induction s as [|v s IH]; intros last i H; [now destruct i|].
  cbn [ffill_from]. destruct i as [|i]; cbn [nth] in *.
  - rewrite H. reflexivity.
  - destruct (isna v); [destruct last|]; cbn [nth]; now apply IH.
Qed.

(** Below a run of missing values the fill is the value carried into it. *)
Lemma ffill_from_blank s : forall last i,
  i < List.length s ->
  (forall k, k <= i -> isna (nth k s NaN) = true) ->
  nth i (ffill_from last s) NaN
  = match last with
    | Some w => w
    | None => nth i s NaN
    end.
Proof.
  induction s as [|v s IH]; intros last i Hi H; [cbn in Hi; lia|].
  cbn [ffill_from]. pose proof (H 0 (Nat.le_0_l i)) as H0. cbn [nth] in H0.
  rewrite H0. cbn [List.length] in Hi.
  assert (Hs : forall i', S i' = i -> forall k, k <= i' -> isna (nth k s NaN) = true).
  { intros i' <- k Hk. apply (H (S k)). lia. }
  destruct last as [w|]; destruct i as [|i]; cbn [nth]; try reflexivity.
  - rewrite IH; [reflexivity|lia|now apply Hs].
  - rewrite IH; [reflexivity|lia|now apply Hs].
Qed.

Lemma ffill_from_nearest s : forall last i j,
  i < List.length s -> j < i ->
  isna (nth j s NaN) = false ->
  (forall k, j < k -> k <= i -> isna (nth k s NaN) = true) ->
  nth i (ffill_from last s) NaN = nth j s NaN.
Proof.
  induction s as [|v s IH]; intros last i j Hi Hj Hv Hb; [cbn in Hi; lia|].
  cbn [List.length] in Hi.
  destruct i as [|i]; [lia|]. destruct j as [|j]; cbn [nth] in *.
  - cbn [ffill_from]. rewrite Hv. cbn [nth].
    rewrite ffill_from_blank; [reflexivity|lia|].
    intros k Hk. apply (Hb (S k)); lia.
  - assert (E : forall last', nth i (ffill_from last' s) NaN = nth j s NaN).
    { intros last'. apply IH; [lia|lia|assumption|].
      intros k Hjk Hki. apply (Hb (S k)); lia. }
    cbn [ffill_from]. destruct (isna v); [destruct last|]; cbn [nth]; apply E.
Qed.

Lemma ffill_forward_filled s : forward_filled s (ffill s).
Proof.
  split; [apply ffill_from_length|].
  intros i Hi. repeat split.
  - apply ffill_from_valid.
  - intros Hna j Hj Hv Hb. apply ffill_from_nearest; try assumption.
    intros k Hjk Hki. destruct (Nat.eq_dec k i) as [->|]; [assumption|].
    apply Hb; lia.
  - intros Hna Hb. unfold ffill. rewrite ffill_from_blank; [reflexivity|assumption|].
    intros k Hk. destruct (Nat.eq_dec k i) as [->|]; [assumption|].
    apply Hb; lia.
Qed.

(** A forward fill is determined by its source. *)
Lemma forward_filled_unique s out : forward_filled s out -> out = ffill s.
Proof.
  intros [Hlen H]. destruct (ffill_forward_filled s) as [Hlen' H'].
  apply (nth_ext _ _ NaN NaN); [congruence|].
  intros i Hi. rewrite Hlen in Hi.
  destruct (H i Hi) as [Hv [Hn Hb]]. destruct (H' i Hi) as [Hv' [Hn' Hb']].
  destruct (isna (nth i s NaN)) eqn:Ei; [|now rewrite Hv, Hv'].
  (* the nearest value above [i], if any *)
  assert (Hcase :
    forall n, n <= i ->
      (exists j, i - n <= j /\ j < i /\ isna (nth j s NaN) = false
                 /\ forall k, j < k -> k < i -> isna (nth k s NaN) = true)
      \/ (forall j, i - n <= j -> j < i -> isna (nth j s NaN) = true)).
  { induction n as [|n IHn]; intros Hle.
    - right. intros j ? ?. lia.
    - destruct IHn as [[j Hj]|Hall]; [lia|left; exists j; intuition lia|].
      destruct (isna (nth (i - S n) s NaN)) eqn:E.
      + right. intros j Hlo Hhi.
        destruct (Nat.eq_dec j (i - S n)) as [->|]; [assumption|].
        apply Hall; lia.
      + left. exists (i - S n). repeat split; try lia; [assumption|].
        intros k ? ?. apply Hall; lia. }
  destruct (Hcase i (Nat.le_refl i)) as [[j (_ & Hj & Hjv & Hjb)]|Hall].
  - now rewrite (Hn eq_refl j Hj Hjv Hjb), (Hn' eq_refl j Hj Hjv Hjb).
  - assert (Hall' : forall j, j < i -> isna (nth j s NaN) = true)
      by (intros j ?; apply Hall; lia).
    now rewrite (Hb eq_refl Hall'), (Hb' eq_refl Hall').
Qed.

(** ** Masks and first occurrences *)

Lemma value_eqb_eq a b : value_eqb a b = true <-> a = b.
Proof.
  unfold value_eqb. destruct (value_eq_dec a b); split; congruence.
Qed.

Lemma seen_In k seen : existsb (value_eqb k) seen = true <-> In k seen.
Proof.
  rewrite existsb_exists. split.
  - intros [x [Hin Hx]]. apply value_eqb_eq in Hx. now subst.
  - intros Hin. exists k. split; [assumption|now apply value_eqb_eq].
Qed.

Lemma not_seen_In k seen : negb (existsb (value_eqb k) seen) = true <-> ~ In k seen.
Proof.
  rewrite negb_true_iff, <- seen_In. now destruct (existsb (value_eqb k) seen).
Qed.

Lemma first_mask_from_length seen keys :
  List.length (first_mask_from seen keys) = List.length keys.
Proof.
  revert seen. induction keys as [|k keys IH]; intros seen; [reflexivity|].
  cbn [first_mask_from List.length]. now rewrite IH.
Qed.

Lemma first_mask_from_nth keys : forall seen i,
  i < List.length keys ->
  (nth i (first_mask_from seen keys) false = true <->
   ~ In (nth i keys NaN) seen
   /\ forall j, j < i -> nth j keys NaN <> nth i keys NaN).
Proof.
  induction keys as [|k keys IH]; intros seen i Hi; [cbn in Hi; lia|].
  cbn [List.length] in Hi. cbn [first_mask_from].
  destruct i as [|i]; cbn [nth].
  - rewrite not_seen_In. split; [intros H; split; [assumption|intros; lia]|tauto].
  - rewrite IH by lia. cbn [In]. split.
    + intros [Hs Hj]. split; [tauto|].
      intros [|j] Hlt; cbn [nth]; [intros E; apply Hs; now left|apply Hj; lia].
    + intros [Hs Hj]. split.
      * intros [E|Hin]; [|tauto]. apply (Hj 0); [lia|exact E].
      * intros j Hlt. apply (Hj (S j)). lia.
Qed.

Lemma first_mask_marks_first keys : marks_first keys (first_mask keys).
Proof.
  split; [apply first_mask_from_length|].
  intros i Hi. unfold first_mask. rewrite first_mask_from_nth by assumption.
  cbn [In]. tauto.
Qed.

Lemma keep_first_mask_from keys : forall seen,
  NoDup (keep (first_mask_from seen keys) keys)
  /\ forall k, In k (keep (first_mask_from seen keys) keys)
               <-> In k keys /\ ~ In k seen.
Proof.
  induction keys as [|k keys IH]; intros seen.
  - split; [constructor|]. cbn. tauto.
  - cbn [first_mask_from keep].
    destruct (IH (k :: seen)) as [Hnd Hin].
    destruct (negb (existsb (value_eqb k) seen)) eqn:E.
    + apply not_seen_In in E. split.
      * constructor; [|assumption]. rewrite Hin. cbn [In]. tauto.
      * intros x. cbn [In]. rewrite Hin. cbn [In].
        destruct (value_eq_dec k x) as [->|]; tauto.
    + apply negb_false_iff, seen_In in E. split; [assumption|].
      intros x. rewrite Hin. cbn [In].
      destruct (value_eq_dec k x) as [->|]; tauto.
Qed.

Lemma keep_length {A B} (mask : list bool) : forall (l : list A) (l' : list B),
  List.length l = List.length l' ->
  List.length (keep mask l) = List.length (keep mask l').
Proof.
  induction mask as [|b mask IH]; intros [|x l] [|y l'] H;
    try reflexivity; try discriminate.
  cbn [keep]. injection H as H.
  destruct b; cbn [List.length]; now rewrite (IH l l').
Qed.

Lemma same_elements_length {A} (l l' : list A) :
  NoDup l -> NoDup l' -> (forall x, In x l <-> In x l') ->
  List.length l = List.length l'.
Proof.
  intros Hl Hl' H. apply Nat.le_antisymm; apply NoDup_incl_length;
    try assumption; intros x; apply H.
Qed.

Lemma lookup_map_snd (f : Series -> Series) m cols :
  lookup m (map (fun c => (fst c, f (snd c))) cols)
  = option_map f (lookup m cols).
Proof.
  induction cols as [|[n w] cols IH]; cbn [map lookup fst snd]; [reflexivity|].
  destruct (String.eqb n m); [reflexivity|apply IH].
Qed.

Lemma column_select mask df m :
  column (select mask df) m = option_map (keep mask) (column df m).
Proof. apply lookup_map_snd. Qed.

End FrameFacts.

(* ------------------------------------------------------------------ *)
(** * Facts about [process_report] *)

Module ReportFacts.

Import FrameFacts.

(** Decides the comparisons of two labels of the source. *)
Ltac labels :=
  repeat match goal with
         | |- context [String.eqb ?a ?b] =>
             first [ change (String.eqb a b) with true
                   | change (String.eqb a b) with false ]
         | H : context [String.eqb ?a ?b] |- _ =>
             first [ change (String.eqb a b) with true in H
                   | change (String.eqb a b) with false in H ]
         end.

Ltac columns :=
  repeat (rewrite ?column_setcol, ?column_drop;
          cbn [existsb orb]; labels; cbv iota).

Lemma insert_inv loc name v df df' :
  insert loc name v df = Ok df' ->
  column df name = None
  /\ index df' = index df
  /\ forall m, column df' m = if String.eqb name m then Some v else column df m.
Proof.
  unfold insert. destruct (has_column df name) eqn:E; [discriminate|].
  apply has_column_false in E.
  destruct (loc <=? List.length (columns df)); [|discriminate].
  intros H. injection H as <-. repeat split; [assumption|].
  intros m. now apply lookup_insert.
Qed.

Lemma insert_ok name v df :
  column df name = None -> columns df <> [] ->
  exists df', insert 1 name v df = Ok df'.
Proof.
  intros Hn Hne. unfold insert.
  apply has_column_false in Hn. rewrite Hn.
  destruct (columns df) as [|c cols] eqn:E; [congruence|].
  cbn [List.length Nat.leb]. eauto.
Qed.

Lemma getcol_inv df name v : getcol df name = Ok v -> column df name = Some v.
Proof.
  unfold getcol. destruct (column df name); [|discriminate]. congruence.
Qed.

(** Line 87 asks for the [OR No] column and for nothing else. *)
Lemma transactions_ok rec keys :
  column rec "OR No" = Some keys ->
  transactions rec
  = Ok (drop ["Dishes"; "Dish Quantities"]%string (select (first_mask keys) rec)).
Proof.
  intros H. unfold transactions, drop_duplicates, getcol. now rewrite H.
Qed.

Lemma transactions_missing rec :
  column rec "OR No" = None ->
  transactions rec = Raise (KeyError ["OR No"%string]).
Proof.
  intros H. unfold transactions, drop_duplicates, getcol. now rewrite H.
Qed.

Lemma transactions_first_rows rec keys :
  column rec "OR No" = Some keys ->
  List.length keys = nrows rec ->
  first_rows_by_key rec
    (drop ["Dishes"; "Dish Quantities"]%string (select (first_mask keys) rec)) keys.
Proof.
  intros Hk Hlen. exists (first_mask keys).
  destruct (keep_first_mask_from keys []) as [Hnd Hin].
  fold (first_mask keys) in Hnd, Hin.
  assert (Hcol : forall n,
    column (drop ["Dishes"; "Dish Quantities"]%string (select (first_mask keys) rec)) n
    = if existsb (String.eqb n) ["Dishes"; "Dish Quantities"]%string then None
      else option_map (keep (first_mask keys)) (column rec n)).
  { intros n. now rewrite column_drop, column_select. }
  split; [apply first_mask_marks_first|].
  split; [reflexivity|].
  split; [exact Hcol|].
  split; [now rewrite Hcol, Hk|].
  split; [exact Hnd|].
  split; [intros k; rewrite Hin; cbn [In]; tauto|].
  unfold nrows. cbn [drop select index].
  rewrite (keep_length (first_mask keys) (index rec) keys) by (symmetry; exact Hlen).
  apply same_elements_length; [exact Hnd|apply NoDup_nodup|].
  intros k. rewrite Hin, nodup_In. cbn [In]. tauto.
Qed.

Section WithToDatetime.

Variable to_datetime : ToDatetime.

Lemma pd_to_datetime_inv col stamps :
  pd_to_datetime to_datetime col = Ok stamps ->
  stamps = to_timestamps to_datetime col.
Proof.
  unfold pd_to_datetime.
  destruct (forallb is_date_or_missing col); [congruence|].
  destruct (raises_on to_datetime col); [discriminate|congruence].
Qed.

(** On a column of dates and missing values [pd.to_datetime] returns. *)
Lemma pd_to_datetime_dates col :
  forallb is_date_or_missing col = true ->
  pd_to_datetime to_datetime col = Ok (to_timestamps to_datetime col).
Proof. unfold pd_to_datetime. now intros ->. Qed.

(** What [reconcile] returns, column by column. *)
Lemma reconcile_inv df rec :
  reconcile to_datetime df = Ok rec ->
  exists d p c t,
    column df "Date" = Some d
    /\ column df "POS Name" = Some p
    /\ column df "Cashier Name" = Some c
    /\ column df "Transaction No" = Some t
    /\ column df "DateTime" = None
    /\ index rec = index df
    /\ forall m,
         column rec m =
           if String.eqb "Dishes" m
           then option_map (map (fun v => Str (clean_dish_name v))) (column df "Dishes")
           else if String.eqb "Date" m
           then Some (map dt_date (to_timestamps to_datetime (ffill d)))
           else if String.eqb "DateTime" m
           then Some (to_timestamps to_datetime (ffill d))
           else if String.eqb "No data found" m then None
           else if String.eqb "Transaction No" m then Some (ffill t)
           else if String.eqb "Cashier Name" m then Some (ffill c)
           else if String.eqb "POS Name" m then Some (ffill p)
           else column df m.
Proof.
  unfold reconcile. intros H.
  destruct (getitem df fields_to_fill) as [filled|] eqn:Eg; [|discriminate].
  apply getitem_inv in Eg as [Hall ->].
  cbn [forallb fields_to_fill] in Hall.
  repeat (apply andb_prop in Hall as [?%has_column_true Hall]).
  destruct H0 as [d Hd], H1 as [p Hp], H2 as [c Hc], H3 as [t Ht].
  cbn [bind] in H. unfold setitem, ffill_frame, fields_to_fill in H.
  cbn [map fold_left Frame.columns fst snd] in H.
  rewrite Hd, Hp, Hc, Ht in H.
  cbn [bind] in H.
  destruct (getcol _ "Date") as [date|] eqn:E1; [|discriminate].
  apply getcol_inv in E1. revert E1. columns. intros E1.
  injection E1 as <-. cbn [bind] in H.
  destruct (pd_to_datetime to_datetime (ffill d)) as [stamps|] eqn:P1;
    [|discriminate].
  apply pd_to_datetime_inv in P1 as ->. cbn [bind] in H.
  destruct (insert 1 "DateTime" _ _) as [df3|] eqn:E2; [|discriminate].
  apply insert_inv in E2 as (Hdt & Hidx & Hcol). revert Hdt. columns. intros Hdt.
  cbn [bind] in H.
  destruct (getcol df3 "Date") as [date|] eqn:E3; [|discriminate].
  apply getcol_inv in E3. rewrite Hcol in E3. revert E3. columns. intros E3.
  injection E3 as <-. cbn [bind] in H.
  destruct (pd_to_datetime to_datetime (ffill d)) as [stamps|] eqn:P2;
    [|discriminate].
  apply pd_to_datetime_inv in P2 as ->. cbn [bind] in H.
  exists d, p, c, t. repeat (split; [assumption|]).
  injection H as <-.
  rewrite column_setcol, Hcol. columns.
  split.
  - destruct (column df "Dishes"); cbn [setcol index]; exact Hidx.
  - intros m. destruct (column df "Dishes") as [dishes|] eqn:Edishes.
    + rewrite column_setcol. cbn [option_map].
      destruct (String.eqb "Dishes" m); [reflexivity|].
      rewrite column_setcol, Hcol. columns.
      rewrite orb_false_r, (String.eqb_sym m).
      destruct (String.eqb "Date" m); reflexivity.
    + cbn [option_map]. rewrite column_setcol, Hcol. columns.
      rewrite orb_false_r, (String.eqb_sym m).
      destruct (String.eqb_spec "Dishes" m) as [<-|].
      * labels. cbv iota. assumption.
      * destruct (String.eqb "Date" m); reflexivity.
Qed.

Lemma reconcile_missing df f :
  In f fields_to_fill -> column df f = None ->
  exists missing,
    reconcile to_datetime df = Raise (KeyError missing) /\ In f missing.
Proof.
  intros Hin Hf. unfold reconcile.
  destruct (getitem_missing df fields_to_fill f Hin Hf) as [missing [-> Hm]].
  exists missing. now split.
Qed.

(** A table on which [reconcile] returns is one on whose filled [Date]
    column [pd.to_datetime] returns. *)
Lemma reconcile_converts df rec :
  reconcile to_datetime df = Ok rec -> date_column_converts to_datetime df.
Proof.
  unfold reconcile. intros H d0 Hd0.
  destruct (getitem df fields_to_fill) as [filled|] eqn:Eg; [|discriminate].
  apply getitem_inv in Eg as [Hall ->].
  cbn [forallb fields_to_fill] in Hall.
  repeat (apply andb_prop in Hall as [?%has_column_true Hall]).
  destruct H0 as [d Hd], H1 as [p Hp], H2 as [c Hc], H3 as [t Ht].
  cbn [bind] in H. unfold setitem, ffill_frame, fields_to_fill in H.
  cbn [map fold_left Frame.columns fst snd] in H.
  rewrite Hd, Hp, Hc, Ht in H.
  destruct (getcol _ "Date") as [date|] eqn:E1; [|discriminate].
  apply getcol_inv in E1. revert E1. columns. intros E1.
  injection E1 as <-. cbn [bind] in H.
  assert (d0 = d) by congruence. subst d0.
  destruct (pd_to_datetime to_datetime (ffill d)) as [stamps|]; [|discriminate].
  now exists stamps.
Qed.

(** With the four header columns, no [DateTime] column and a [Date] column
    that [pd.to_datetime] accepts, [reconcile] returns, whatever other
    columns there are. *)
Lemma reconcile_ok df :
  (forall f, In f fields_to_fill -> column df f <> None) ->
  column df "DateTime" = None ->
  date_column_converts to_datetime df ->
  exists rec, reconcile to_datetime df = Ok rec.
Proof.
  intros Hall Hdt Hconv. unfold reconcile.
  assert (Hf : forallb (has_column df) fields_to_fill = true).
  { apply forallb_forall. intros f Hf. specialize (Hall f Hf).
    unfold has_column. now destruct (column df f). }
  rewrite (getitem_ok _ _ Hf).
  cbn [forallb fields_to_fill] in Hf.
  repeat (apply andb_prop in Hf as [?%has_column_true Hf]).
  destruct H as [d Hd], H0 as [p Hp], H1 as [c Hc], H2 as [t Ht].
  cbn [bind]. unfold setitem, ffill_frame, fields_to_fill.
  cbn [map fold_left Frame.columns fst snd].
  rewrite Hd, Hp, Hc, Ht.
  set (df2 := drop _ _).
  assert (Hdate : column df2 "Date" = Some (ffill d)) by (unfold df2; now columns).
  assert (Hdt2 : column df2 "DateTime" = None) by (unfold df2; now columns).
  unfold getcol at 1. rewrite Hdate. cbn [bind].
  destruct (Hconv d Hd) as [stamps Hs]. rewrite Hs. cbn [bind].
  destruct (@insert_ok "DateTime" stamps df2 Hdt2) as [df3 E3].
  { unfold column in Hdate. now destruct (Frame.columns df2). }
  rewrite E3. cbn [bind].
  apply insert_inv in E3 as (_ & _ & Hcol).
  unfold getcol. rewrite Hcol. labels. cbv iota. rewrite Hdate. cbn [bind].
  rewrite Hs. cbn [bind]. eauto.
Qed.

Lemma process_report_inv df rec tx it :
  process_report to_datetime df = Ok (rec, tx, it) ->
  reconcile to_datetime df = Ok rec
  /\ transactions rec = Ok tx
  /\ dishes rec = Ok it.
Proof.
  unfold process_report. intros H.
  destruct (reconcile to_datetime df) as [rec'|]; [|discriminate]. cbn [bind] in H.
  destruct (transactions rec') as [tx'|] eqn:Et; [|discriminate]. cbn [bind] in H.
  destruct (dishes rec') as [it'|] eqn:Ei; [|discriminate]. cbn [bind] in H.
  injection H as -> -> ->. repeat split; assumption.
Qed.

(** [process_report] returns on every table that has the seven columns it
    reads, no [DateTime] column yet, and a [Date] column that
    [pd.to_datetime] accepts. *)
Lemma process_report_ok df :
  (forall n, In n ["Date"; "POS Name"; "Cashier Name"; "Transaction No";
                   "OR No"; "Dishes"; "Dish Quantities"]%string ->
             column df n <> None) ->
  column df "DateTime" = None ->
  date_column_converts to_datetime df ->
  exists rec tx it, process_report to_datetime df = Ok (rec, tx, it).
Proof.
  intros Hall Hdt Hconv.
  destruct (@reconcile_ok df) as [rec Hrec]; [|assumption|assumption|].
  { intros f Hf. apply Hall. cbn [In fields_to_fill] in *. tauto. }
  pose proof (reconcile_inv _ Hrec)
    as (d & p & c & t & Hd & Hp & Hc & Ht & _ & _ & Hcol).
  assert (Hor : column df "OR No" <> None) by (apply Hall; cbn; tauto).
  assert (Hdi : column df "Dishes" <> None) by (apply Hall; cbn; tauto).
  assert (Hdq : column df "Dish Quantities" <> None) by (apply Hall; cbn; tauto).
  destruct (column df "OR No") as [keys|] eqn:Ekeys; [|congruence].
  destruct (column df "Dishes") as [names|] eqn:Enames; [|congruence].
  destruct (column df "Dish Quantities") as [qty|] eqn:Eqty; [|congruence].
  assert (Hk : column rec "OR No" = Some keys)
    by (rewrite Hcol; labels; cbv iota; assumption).
  assert (Hit : forallb (has_column rec) dish_columns = true).
  { unfold has_column. cbn [forallb dish_columns]. rewrite !Hcol. labels.
    cbv iota. now rewrite Ekeys, Eqty. }
  unfold process_report. rewrite Hrec. cbn [bind].
  rewrite (transactions_ok _ Hk). cbn [bind].
  unfold dishes. rewrite (getitem_ok _ _ Hit). cbn [bind]. eauto.
Qed.

(** An exception of [process_report] ends the run: nothing more is printed
    and no workbook is written. *)
Lemma main_aborts folder out df e :
  valid folder = true ->
  merge_files (glob_xls folder) = (out, Ok df) ->
  empty df = false ->
  process_report to_datetime df = Raise e ->
  main to_datetime folder = {| stdout := out; written := None; raised := Some e |}.
Proof.
  unfold valid, main. intros Hv Hm He Hp.
  apply andb_prop in Hv as [-> ->]. cbn [negb orb].
  now rewrite Hm, He, Hp.
Qed.

End WithToDatetime.

End ReportFacts.

(* ------------------------------------------------------------------ *)
(** * Facts about [merge_files] *)

Module IngestFacts.

(** As long as no retry fails, every file is either read or logged and
    skipped, and the loop runs to its end. *)
Lemma merge_loop_isolates files : forall all_dfs out,
  forallb (fun file => negb (retry_fails file)) files = true ->
  merge_loop files all_dfs out
  = (out ++ skipped_lines files, Ok (all_dfs ++ parsed_tables files)).
Proof.
  induction files as [|file files IH]; intros all_dfs out H.
  - cbn. now rewrite !app_nil_r.
  - cbn [forallb] in H. apply andb_prop in H as [Hf H].
    unfold retry_fails in Hf.
    cbn [merge_loop skipped_lines parsed_tables flat_map].
    fold (skipped_lines files). fold (parsed_tables files).
    destruct (read_csv file gbk) as [df|e].
    + rewrite IH by assumption. now rewrite <- app_assoc.
    + destruct e; try (rewrite IH by assumption; now rewrite <- app_assoc, ?app_nil_r).
      destruct (read_csv file utf8) as [df|e']; [|discriminate].
      rewrite IH by assumption. now rewrite <- app_assoc.
Qed.

(** The first file whose retry fails ends the loop with the exception of
    the retry. *)
Lemma merge_loop_retry_fails files : forall all_dfs out,
  forallb (fun file => negb (retry_fails file)) files = false ->
  exists out' e, merge_loop files all_dfs out = (out', Raise e).
Proof.
  induction files as [|file files IH]; intros all_dfs out H; [discriminate|].
  cbn [forallb] in H. cbn [merge_loop]. unfold retry_fails in H.
  destruct (read_csv file gbk) as [df|e]; [now apply IH|].
  destruct e; try (now apply IH).
  destruct (read_csv file utf8) as [df|e']; [now apply IH|eauto].
Qed.

Lemma parsed_tables_nil files :
  forallb (fun file => negb (parses file)) files = true ->
  parsed_tables files = [].
Proof.
  induction files as [|file files IH]; intros H; [reflexivity|].
  cbn [forallb] in H. apply andb_prop in H as [Hf H].
  cbn [parsed_tables flat_map]. fold (parsed_tables files).
  rewrite (IH H), app_nil_r. unfold parses in Hf.
  destruct (read_csv file gbk) as [df|e]; [discriminate|].
  destruct e; try reflexivity.
  destruct (read_csv file utf8); [discriminate|reflexivity].
Qed.

(** When every file is skipped by the handler of line 40, the table is
    empty, and [main] warns and writes nothing. *)
Lemma all_skipped_warns to_datetime folder :
  valid folder = true ->
  forallb (fun file => negb (parses file)) (glob_xls folder) = true ->
  forallb (fun file => negb (retry_fails file)) (glob_xls folder) = true ->
  merge_files (glob_xls folder) = (skipped_lines (glob_xls folder), Ok empty_frame)
  /\ main to_datetime folder
     = {| stdout := skipped_lines (glob_xls folder) ++ [no_valid_files];
          written := None; raised := None |}.
Proof.
  intros Hv Hp Hr.
  assert (Hm : merge_files (glob_xls folder)
               = (skipped_lines (glob_xls folder), Ok empty_frame)).
  { unfold merge_files. rewrite (merge_loop_isolates _ [] [] Hr).
    cbn [app bind]. now rewrite (parsed_tables_nil _ Hp). }
  split; [exact Hm|].
  unfold valid in Hv. apply andb_prop in Hv as [Hv1 Hv2].
  unfold main. rewrite Hv1, Hv2, Hm. reflexivity.
Qed.

End IngestFacts.

(* ------------------------------------------------------------------ *)
(** * Facts about the Text Normalizer on Unicode strings *)

Module UnicodeFacts.

Import Unicode.

(** A property checked on every code point below [n] holds below [n]. *)
Lemma below_forallb (P : N -> bool) (n : nat) :
  forallb P (map N.of_nat (seq 0 n)) = true ->
  forall c, (c < N.of_nat n)%N -> P c = true.
Proof.
  intros H c Hc. rewrite forallb_forall in H. apply H.
  apply in_map_iff. exists (N.to_nat c). split; [apply N2Nat.id|].
  apply in_seq. lia.
Qed.

(** ** [replace] *)

Lemma unicode_replace_from_Forall (P : N -> Prop) key val :
  Forall P val ->
  forall text skip, Forall P text -> Forall P (replace_from key val skip text).
Proof.
  intros Hval text. induction text as [|c text IH]; intros skip Ht; simpl.
  - constructor.
  - inversion Ht as [|? ? Hc Ht']; subst.
    destruct skip as [|k]; [|now apply IH].
    destruct (starts_with key (c :: text)).
    + apply Forall_app. split; [assumption|now apply IH].
    + constructor; [assumption|now apply IH].
Qed.

Lemma unicode_replace_absent key val text :
  occurs key text = false -> replace key val text = text.
Proof.
  unfold replace. induction text as [|c text IH]; simpl; intros H.
  - reflexivity.
  - apply orb_false_iff in H as [H1 H2].
    simpl in H1. rewrite H1. now rewrite IH.
Qed.

Lemma unicode_starts_with_inv key text :
  starts_with key text = true -> text = key ++ skipn (List.length key) text.
Proof.
  revert text. induction key as [|k key IH]; intros text H; simpl.
  - reflexivity.
  - destruct text as [|c text]; simpl in H; [discriminate|].
    apply andb_prop in H as [Hk H]. apply N.eqb_eq in Hk. subst c.
    f_equal. now apply IH.
Qed.

Lemma unicode_starts_with_In key : forall text k,
  starts_with key text = true -> In k key -> In k text.
Proof.
  induction key as [|k0 key IH]; intros text k H Hin; [destruct Hin|].
  destruct text as [|c text]; [discriminate|].
  cbn [starts_with] in H. apply andb_prop in H as [Hk H].
  apply N.eqb_eq in Hk. subst c.
  destruct Hin as [<-|Hin]; [now left|right; now apply IH].
Qed.

Lemma unicode_occurs_In key text k :
  occurs key text = true -> In k key -> In k text.
Proof.
  induction text as [|c text IH]; cbn [occurs]; intros H Hin.
  - rewrite orb_false_r in H. exact (unicode_starts_with_In _ _ _ H Hin).
  - apply orb_prop in H as [H|H]; [exact (unicode_starts_with_In _ _ _ H Hin)|].
    right. now apply IH.
Qed.

Lemma unicode_replace_from_skip key val skip text :
  replace_from key val skip text = replace_from key val 0 (skipn skip text).
Proof.
  revert skip. induction text as [|c text IH]; intros [|k]; simpl; try reflexivity.
  apply IH.
Qed.

Lemma unicode_replace_hit k key val text :
  starts_with (k :: key) text = true ->
  replace (k :: key) val text
  = val ++ replace (k :: key) val (skipn (List.length (k :: key)) text).
Proof.
  unfold replace. intros H. destruct text as [|c text]; [discriminate|].
  cbn [replace_from]. rewrite H. f_equal.
  cbn [List.length skipn]. rewrite Nat.sub_succ, Nat.sub_0_r.
  apply unicode_replace_from_skip.
Qed.

Lemma unicode_replace_miss key val c text :
  starts_with key (c :: text) = false ->
  replace key val (c :: text) = c :: replace key val text.
Proof. unfold replace. intros H. cbn [replace_from]. now rewrite H. Qed.

(** ** Counting characters *)

Lemma unicode_count_app c s s' : count c (s ++ s') = count c s + count c s'.
Proof. apply count_occ_app. Qed.

Lemma unicode_count_cons c c' s :
  count c (c' :: s) = (if N.eq_dec c' c then 1 else 0) + count c s.
Proof. unfold count. cbn [count_occ]. now destruct (N.eq_dec c' c). Qed.

Lemma unicode_occurs_nil key : key <> [] -> occurs key [] = false.
Proof. destruct key; [congruence|reflexivity]. Qed.

Lemma unicode_replace_count key val c :
  key <> [] ->
  forall text,
  exists k,
    count c (replace key val text) + k * count c key
    = count c text + k * count c val
    /\ (occurs key text = true -> 0 < k).
Proof.
  intros Hkey text.
  remember (List.length text) as n eqn:Hn. revert text Hn.
  induction n as [n IH] using lt_wf_ind. intros text Hn.
  destruct text as [|c0 text].
  - exists 0. split; [reflexivity|]. now rewrite unicode_occurs_nil.
  - destruct (starts_with key (c0 :: text)) eqn:E.
    + destruct key as [|k0 key]; [congruence|].
      pose proof (unicode_starts_with_inv _ _ E) as Hs.
      set (rest := skipn (List.length (k0 :: key)) (c0 :: text)) in *.
      pose proof (f_equal (@List.length N) Hs) as Hl.
      pose proof (f_equal (count c) Hs) as Hcnt.
      rewrite length_app in Hl. rewrite unicode_count_app in Hcnt.
      assert (Hlen : List.length rest < n) by (cbn [List.length] in *; lia).
      destruct (IH _ Hlen rest eq_refl) as [k [Hk _]].
      exists (S k). split; [|lia].
      rewrite (unicode_replace_hit _ _ _ _ E). fold rest.
      rewrite unicode_count_app. lia.
    + assert (Hlen : List.length text < n) by (subst n; cbn; lia).
      destruct (IH _ Hlen text eq_refl) as [k [Hk Hpos]].
      exists k. split.
      * rewrite (unicode_replace_miss _ _ _ _ E), !unicode_count_cons. lia.
      * cbn [occurs]. rewrite E. exact Hpos.
Qed.

Lemma unicode_join_Forall (P : N -> Prop) sep ws :
  Forall P sep -> Forall (Forall P) ws -> Forall P (join sep ws).
Proof.
  intros Hsep. induction 1 as [|w ws Hw Hws IH]; [constructor|].
  destruct ws as [|w' ws']; [assumption|].
  change (join sep (w :: w' :: ws')) with (w ++ sep ++ join sep (w' :: ws')).
  repeat (apply Forall_app; split); assumption.
Qed.

Section WithDatabase.

Variable ucd : Database.

(** ** Characters *)

Lemma unicode_settled_upper c : settled ucd c = true -> upper_char ucd c = [c].
Proof.
  unfold settled. intros H. apply andb_prop in H as [_ H].
  destruct (upper_char ucd c) as [|u [|? ?]]; try discriminate.
  apply N.eqb_eq in H. now subst.
Qed.

Lemma unicode_settled_digit c : settled ucd c = true -> negb (isdigit ucd c) = true.
Proof.
  unfold settled. intros H.
  apply andb_prop in H as [H _]. now apply andb_prop in H as [H _].
Qed.

Lemma unicode_settled_symbol c ch :
  settled ucd c = true -> In ch symbols -> negb (N.eqb c ch) = true.
Proof.
  unfold settled. intros H Hin.
  apply andb_prop in H as [H _]. apply andb_prop in H as [_ H].
  apply negb_true_iff in H. apply negb_true_iff.
  destruct (N.eqb c ch) eqn:E; [|reflexivity].
  rewrite <- H. symmetry. apply existsb_exists. now exists ch.
Qed.

Lemma unicode_settled_not_n c : settled ucd c = true -> N.eqb 110 c = false.
Proof.
  intros H. destruct (N.eqb_spec 110 c) as [<-|]; [|reflexivity].
  vm_compute in H. discriminate.
Qed.

(** On the ASCII range the upper case of a character that is neither a
    digit nor a symbol is settled, whatever the database. *)
Lemma ascii_upper_settled c :
  (c < 128)%N ->
  isdigit ucd c = false -> existsb (N.eqb c) symbols = false ->
  forallb (settled ucd) (upper_char ucd c) = true.
Proof.
  intros Hc Hd Hs.
  set (P := fun c => implb (negb (isdigit ucd c) && negb (existsb (N.eqb c) symbols))
                          (forallb (settled ucd) (upper_char ucd c))).
  assert (E : forallb P (map N.of_nat (seq 0 128)) = true)
    by (vm_compute; reflexivity).
  pose proof (@below_forallb P 128 E c Hc) as H.
  unfold P in H. now rewrite Hd, Hs in H.
Qed.

Hypothesis Hdb : upper_settles ucd.

Lemma unicode_upper_char_settled c :
  isdigit ucd c = false -> existsb (N.eqb c) symbols = false ->
  Forall (fun u => settled ucd u = true) (upper_char ucd c).
Proof.
  intros Hd Hs. destruct (N.ltb_spec c 128) as [Hc|Hc].
  - apply Forall_forall. apply forallb_forall. now apply ascii_upper_settled.
  - unfold upper_char, isdigit in *.
    destruct (N.ltb_spec c 128) as [Hc'|_]; [lia|]. now apply Hdb.
Qed.

Lemma unicode_upper_settled text :
  Forall (fun c => settled ucd c = true) text -> upper ucd text = text.
Proof.
  unfold upper. induction 1 as [|c text Hc _ IH]; [reflexivity|].
  cbn [flat_map]. now rewrite unicode_settled_upper, IH.
Qed.

(** ** [split] and [join] *)

Lemma unicode_split_space c text :
  isspace ucd c = true -> split ucd (c :: text) = split ucd text.
Proof. intros H. simpl. now rewrite H. Qed.

Lemma unicode_split_Forall (P : N -> Prop) text :
  Forall P text -> Forall (Forall P) (split ucd text).
Proof.
  induction 1 as [|c text Hc Ht IH]; [constructor|].
  cbn [split]. destruct (isspace ucd c); [assumption|].
  destruct text as [|c' text']; [repeat constructor; assumption|].
  destruct (isspace ucd c'); [constructor; [repeat constructor|]; assumption|].
  destruct (split ucd (c' :: text')) as [|w ws].
  - repeat constructor; assumption.
  - inversion IH; subst. constructor; [constructor|]; assumption.
Qed.

Lemma unicode_split_words text : Forall (word ucd) (split ucd text).
Proof.
  induction text as [|c text IH]; [constructor|].
  cbn [split]. destruct (isspace ucd c) eqn:Ec; [assumption|].
  assert (Hc : word ucd [c])
    by (split; [discriminate|repeat constructor; assumption]).
  destruct text as [|c' text']; [constructor; [exact Hc|constructor]|].
  destruct (isspace ucd c'); [constructor; assumption|].
  destruct (split ucd (c' :: text')) as [|w ws];
    [constructor; [exact Hc|constructor]|].
  inversion IH as [|? ? [_ Hw] Hws]; subst.
  constructor; [|assumption].
  split; [discriminate|constructor; assumption].
Qed.

Lemma unicode_split_word w : word ucd w -> split ucd w = [w].
Proof.
  intros [Hne Hw]. induction Hw as [|c w Hc Hw IH]; [congruence|].
  cbn [split]. rewrite Hc.
  destruct w as [|c' w']; [reflexivity|].
  inversion Hw as [|? ? Hc' _]; subst. rewrite Hc'.
  rewrite IH by discriminate. reflexivity.
Qed.

Lemma unicode_split_word_space w rest :
  word ucd w -> split ucd (w ++ 32%N :: rest) = w :: split ucd rest.
Proof.
  intros [Hne Hw]. induction Hw as [|c w Hc Hw IH]; [congruence|].
  cbn [app split]. rewrite Hc.
  destruct w as [|c' w'].
  - cbn [app]. change (isspace ucd 32) with true. cbv iota.
    now rewrite unicode_split_space.
  - inversion Hw as [|? ? Hc' _]; subst.
    cbn [app] in *. rewrite Hc'.
    rewrite IH by discriminate. reflexivity.
Qed.

Lemma unicode_split_join ws :
  Forall (word ucd) ws -> split ucd (join (ulit " ") ws) = ws.
Proof.
  induction 1 as [|w ws Hw Hws IH]; [reflexivity|].
  destruct ws as [|w' ws'].
  - now apply unicode_split_word.
  - change (join (ulit " ") (w :: w' :: ws'))
      with (w ++ 32%N :: join (ulit " ") (w' :: ws')).
    rewrite unicode_split_word_space by assumption. now rewrite IH.
Qed.

Lemma unicode_count_join c ws :
  isspace ucd c = false -> count c (join (ulit " ") ws) = count c (List.concat ws).
Proof.
  intros Hc. induction ws as [|w ws IH]; [reflexivity|].
  destruct ws as [|w' ws'].
  - cbn [join List.concat]. now rewrite app_nil_r.
  - change (join (ulit " ") (w :: w' :: ws'))
      with (w ++ 32%N :: join (ulit " ") (w' :: ws')).
    change (List.concat (w :: w' :: ws')) with (w ++ List.concat (w' :: ws')).
    rewrite !unicode_count_app, unicode_count_cons, IH.
    destruct (N.eq_dec 32 c) as [<-|]; [discriminate|reflexivity].
Qed.

Lemma unicode_count_split c text :
  isspace ucd c = false -> count c (List.concat (split ucd text)) = count c text.
Proof.
  intros Hc. induction text as [|c0 text IH]; [reflexivity|].
  rewrite unicode_count_cons. cbn [split].
  destruct (isspace ucd c0) eqn:E0.
  - rewrite IH. destruct (N.eq_dec c0 c) as [->|]; [congruence|reflexivity].
  - destruct text as [|c' text'].
    + cbn [List.concat app]. now rewrite unicode_count_cons.
    + destruct (isspace ucd c').
      * cbn [List.concat app]. now rewrite unicode_count_cons, IH.
      * destruct (split ucd (c' :: text')) as [|w ws];
          cbn [List.concat app] in *; now rewrite unicode_count_cons, <- IH.
Qed.

Lemma unicode_count_split_join c text :
  isspace ucd c = false ->
  count c (join (ulit " ") (split ucd text)) = count c text.
Proof. intros Hc. now rewrite unicode_count_join, unicode_count_split. Qed.

(** ** The normalizer *)

Lemma unicode_remove_symbols_spec text :
  Forall (fun c => existsb (N.eqb c) symbols = false) (remove_symbols text).
Proof.
  unfold remove_symbols, remove_char.
  change symbols with [40; 41; 46; 64]%N. cbn [fold_left].
  apply Forall_forall. intros c Hc.
  repeat (apply filter_In in Hc; destruct Hc as [Hc ?]).
  cbn [existsb].
  repeat match goal with
         | H : negb (N.eqb c _) = true |- _ =>
             apply negb_true_iff in H; rewrite H; clear H
         end.
  reflexivity.
Qed.

Lemma unicode_apply_replacements_Forall (P : N -> Prop) text :
  Forall (fun kv => Forall P (snd kv)) replacements ->
  Forall P text -> Forall P (apply_replacements text).
Proof.
  unfold apply_replacements. generalize replacements.
  intros l Hl. revert text.
  induction Hl as [|kv l Hkv _ IH]; intros text Ht; [exact Ht|].
  cbn [fold_left]. apply IH. now apply unicode_replace_from_Forall.
Qed.

Lemma unicode_clean_text_normalized text : normalized ucd (clean_text ucd text).
Proof.
  unfold clean_text.
  set (u := upper ucd (remove_digits ucd (apply_replacements (remove_symbols text)))).
  assert (Hu : Forall (fun c => settled ucd c = true) u).
  { unfold u, upper. apply Forall_flat_map.
    assert (H : Forall (fun c => negb (isdigit ucd c) = true
                                 /\ existsb (N.eqb c) symbols = false)
                  (remove_digits ucd (apply_replacements (remove_symbols text)))).
    { unfold remove_digits.
      apply Forall_and; [apply TextFacts.Forall_filter_true|].
      apply TextFacts.Forall_filter. apply unicode_apply_replacements_Forall.
      - repeat constructor.
      - apply unicode_remove_symbols_spec. }
    eapply Forall_impl; [|exact H]. cbv beta. intros c [Hd Hs].
    apply unicode_upper_char_settled; [now apply negb_true_iff|assumption]. }
  split.
  - apply unicode_join_Forall; [repeat constructor|]. now apply unicode_split_Forall.
  - exists (split ucd u). split; [apply unicode_split_words|reflexivity].
Qed.

Lemma unicode_occurs_backslash_n text :
  Forall (fun c => settled ucd c = true) text -> occurs (ulit "\n") text = false.
Proof.
  change (ulit "\n") with [92; 110]%N.
  induction 1 as [|c text Hc Ht IH]; [reflexivity|].
  cbn [occurs]. rewrite IH, orb_false_r.
  cbn [starts_with].
  destruct text as [|c' text']; [now rewrite andb_false_r|].
  inversion Ht as [|? ? Hc' _]; subst.
  now rewrite (unicode_settled_not_n _ Hc'), andb_false_r.
Qed.

Lemma remove_symbols_settled text :
  Forall (fun c => settled ucd c = true) text -> remove_symbols text = text.
Proof.
  intros Hs. unfold remove_symbols, remove_char.
  change symbols with [40; 41; 46; 64]%N. cbn [fold_left].
  assert (E : forall ch, In ch symbols ->
            filter (fun c => negb (N.eqb c ch)) text = text).
  { intros ch Hin. apply TextFacts.filter_all.
    eapply Forall_impl; [|exact Hs]. intros c Hc. now apply unicode_settled_symbol. }
  rewrite (E 40%N), (E 41%N), (E 46%N), (E 64%N);
    solve [reflexivity | vm_compute; tauto].
Qed.

(** On a normalized text only the replacements and the split act. *)
Lemma unicode_clean_text_settled text :
  Forall (fun c => settled ucd c = true) text ->
  clean_text ucd text = join (ulit " ") (split ucd (apply_replacements text)).
Proof.
  intros Hs. unfold clean_text. rewrite (remove_symbols_settled Hs).
  assert (Hr : Forall (fun c => settled ucd c = true) (apply_replacements text)).
  { apply unicode_apply_replacements_Forall; [repeat constructor|assumption]. }
  assert (E3 : remove_digits ucd (apply_replacements text) = apply_replacements text).
  { unfold remove_digits. apply TextFacts.filter_all.
    eapply Forall_impl; [|exact Hr]. apply unicode_settled_digit. }
  now rewrite E3, (unicode_upper_settled Hr).
Qed.

(** A normalized text without live keys is a fixed point. *)
Lemma unicode_normalized_fixed text :
  normalized ucd text -> key_free text = true -> clean_text ucd text = text.
Proof.
  intros [Hs [ws [Hws Heq]]] Hk.
  unfold key_free in Hk. cbn [forallb live_keys] in Hk.
  repeat (apply andb_prop in Hk as [?%negb_true_iff Hk]).
  rewrite (unicode_clean_text_settled Hs).
  assert (E2 : apply_replacements text = text).
  { unfold apply_replacements. cbn [fold_left replacements fst snd].
    now rewrite (@unicode_replace_absent _ _ _ H), (@unicode_replace_absent _ _ _ H0),
      (@unicode_replace_absent _ _ _ H1), (@unicode_replace_absent _ _ _ (unicode_occurs_backslash_n Hs)),
      (@unicode_replace_absent _ _ _ H2). }
  rewrite E2, Heq. now rewrite unicode_split_join.
Qed.

Ltac count_step c T :=
  match type of T with
  | ?t' = replace ?key ?val ?text =>
      let k := fresh "k" in
      let Hk := fresh "Hk" in
      let Hpos := fresh "Hpos" in
      destruct (@unicode_replace_count key val c ltac:(vm_compute; discriminate) text)
        as [k [Hk Hpos]];
      rewrite <- T in Hk;
      let n := eval vm_compute in (count c key) in
      change (count c key) with n in Hk;
      let m := eval vm_compute in (count c val) in
      change (count c val) with m in Hk
  end.

(** A normalized text that contains a live key is moved: the replacements
    change the number of [/], of [&], of [H] or of [P] in it. *)
Lemma unicode_normalized_moves text :
  normalized ucd text -> key_free text = false -> clean_text ucd text <> text.
Proof.
  intros [Hs _] Hk Heq.
  rewrite (unicode_clean_text_settled Hs) in Heq.
  assert (Hc : forall c, isspace ucd c = false ->
                 count c (apply_replacements text) = count c text).
  { intros c Hc. rewrite <- Heq at 2. symmetry. now apply unicode_count_split_join. }
  clear Heq. unfold apply_replacements in Hc.
  cbn [fold_left replacements fst snd] in Hc.
  remember (replace (ulit "W/") (ulit "WITH") text) as t1 eqn:T1.
  remember (replace (ulit "&") (ulit "AND") t1) as t2 eqn:T2.
  remember (replace (ulit " WIT ") (ulit " WITH ") t2) as t3 eqn:T3.
  remember (replace (ulit "\n") (ulit " ") t3) as t4 eqn:T4.
  remember (replace (ulit "PCS") (ulit "") t4) as t5 eqn:T5.
  unfold key_free in Hk. cbn [forallb live_keys] in Hk.
  destruct (occurs (ulit "W/") text) eqn:K1.
  { specialize (Hc 47%N eq_refl).
    count_step 47%N T1. count_step 47%N T2. count_step 47%N T3.
    count_step 47%N T4. count_step 47%N T5.
    specialize (Hpos K1). lia. }
  assert (E1 : t1 = text) by (rewrite T1; now apply unicode_replace_absent).
  destruct (occurs (ulit "&") text) eqn:K2.
  { specialize (Hc 38%N eq_refl).
    count_step 38%N T2. count_step 38%N T3.
    count_step 38%N T4. count_step 38%N T5.
    rewrite E1 in *. specialize (Hpos K2). lia. }
  assert (E2 : t2 = text) by (rewrite T2, E1; now apply unicode_replace_absent).
  destruct (occurs (ulit " WIT ") text) eqn:K3.
  { specialize (Hc 72%N eq_refl).
    count_step 72%N T3. count_step 72%N T4. count_step 72%N T5.
    rewrite E2 in *. specialize (Hpos K3). lia. }
  assert (E3 : t3 = text) by (rewrite T3, E2; now apply unicode_replace_absent).
  assert (E4 : t4 = text).
  { rewrite T4, E3. apply unicode_replace_absent. now apply unicode_occurs_backslash_n. }
  destruct (occurs (ulit "PCS") text) eqn:K4; [|discriminate].
  specialize (Hc 80%N eq_refl).
  count_step 80%N T5.
  rewrite E4 in *. specialize (Hpos K4). lia.
Qed.

(** The normalizer leaves a normalized text alone exactly when the text has
    no live key in it. *)
Lemma unicode_normalized_fixed_iff text :
  normalized ucd text -> (clean_text ucd text = text <-> key_free text = true).
Proof.
  intros Hn. split.
  - intros Heq. destruct (key_free text) eqn:E; [reflexivity|].
    now destruct (unicode_normalized_moves Hn E).
  - now apply unicode_normalized_fixed.
Qed.

End WithDatabase.

(** The sample database has the property the proofs need. *)
Lemma latin1_upper_settles : upper_settles latin1.
Proof.
  intros c Hc Hd. apply Forall_forall, forallb_forall.
  destruct (N.ltb_spec 255 c) as [Hbig|Hsmall].
  - cbn [latin1 db_upper]. rewrite (proj2 (N.ltb_lt 255 c) Hbig).
    cbn [forallb]. rewrite andb_true_r.
    unfold settled, isdigit, upper_char.
    destruct (N.ltb_spec c 128) as [|_]; [lia|].
    rewrite Hd. cbn [latin1 db_upper]. rewrite (proj2 (N.ltb_lt 255 c) Hbig).
    rewrite N.eqb_refl, andb_true_r. cbn [negb andb].
    change symbols with [40; 41; 46; 64]%N. cbn [existsb].
    repeat match goal with
           | |- context [N.eqb c ?k] =>
               rewrite (proj2 (N.eqb_neq c k)) by lia
           end.
    reflexivity.
  - set (P := fun c => implb ((128 <=? c)%N && negb (db_isdigit latin1 c))
                             (forallb (settled latin1) (db_upper latin1 c))).
    assert (E : forallb P (map N.of_nat (seq 0 256)) = true)
      by (vm_compute; reflexivity).
    assert (H : P c = true) by (apply (@below_forallb P 256 E); lia).
    unfold P in H. rewrite (proj2 (N.leb_le 128 c) Hc), Hd in H. exact H.
Qed.

(** ** The two readings of a text agree on ASCII *)

Lemma code_inj a b : code a = code b -> a = b.
Proof.
  unfold code. intros H.
  rewrite <- (ascii_N_embedding a), <- (ascii_N_embedding b). now rewrite H.
Qed.

Lemma eqb_code a b : N.eqb (code a) (code b) = Ascii.eqb a b.
Proof.
  destruct (Ascii.eqb_spec a b) as [->|Hab]; [apply N.eqb_refl|].
  apply N.eqb_neq. intros H. apply Hab. now apply code_inj.
Qed.

Lemma of_str_filter (f : ascii -> bool) (g : N -> bool) s :
  Forall (fun a => g (code a) = f a) s ->
  filter g (of_str s) = of_str (filter f s).
Proof.
  unfold of_str. induction 1 as [|a s Ha _ IH]; [reflexivity|].
  cbn [map filter]. rewrite Ha, IH. now destruct (f a).
Qed.

Lemma of_str_remove_char ch s :
  remove_char (code ch) (of_str s) = of_str (Text.remove_char ch s).
Proof.
  apply of_str_filter. apply Forall_forall. intros a _. now rewrite eqb_code.
Qed.

Lemma of_str_starts_with key : forall s,
  starts_with (of_str key) (of_str s) = Text.starts_with key s.
Proof.
  induction key as [|k key IH]; intros [|c s]; try reflexivity.
  cbn [of_str map starts_with Text.starts_with].
  rewrite eqb_code. f_equal. apply IH.
Qed.

Lemma of_str_replace_from key val s : forall skip,
  replace_from (of_str key) (of_str val) skip (of_str s)
  = of_str (Text.replace_from key val skip s).
Proof.
  pose proof (of_str_starts_with key) as Hsw.
  unfold of_str in *.
  induction s as [|c s IH]; intros skip; [reflexivity|].
  cbn [map replace_from Text.replace_from].
  destruct skip as [|k]; [|apply IH].
  rewrite <- (Hsw (c :: s)). cbn [map].
  destruct (starts_with (map code key) (code c :: map code s)).
  - rewrite map_app, length_map. f_equal. apply IH.
  - cbn [map]. f_equal. apply IH.
Qed.

Lemma of_str_join sep ws :
  join (of_str sep) (map of_str ws) = of_str (Text.join sep ws).
Proof.
  induction ws as [|w ws IH]; [reflexivity|].
  destruct ws as [|w' ws']; [reflexivity|].
  change (join (of_str sep) (map of_str (w :: w' :: ws')))
    with (of_str w ++ of_str sep ++ join (of_str sep) (map of_str (w' :: ws'))).
  change (Text.join sep (w :: w' :: ws'))
    with (w ++ sep ++ Text.join sep (w' :: ws')).
  rewrite IH. unfold of_str. now rewrite !map_app.
Qed.

Lemma of_str_remove_symbols s :
  remove_symbols (of_str s) = of_str (Text.remove_symbols s).
Proof.
  unfold remove_symbols, Text.remove_symbols, symbols, Text.symbols.
  cbn [of_str map fold_left].
  now rewrite !of_str_remove_char.
Qed.

Lemma of_str_apply_replacements s :
  apply_replacements (of_str s) = of_str (Text.apply_replacements s).
Proof.
  unfold apply_replacements, Text.apply_replacements, replacements,
    Text.replacements, replace, Text.replace, ulit.
  cbn [fold_left fst snd].
  now rewrite !of_str_replace_from.
Qed.

Lemma upper_char_ascii a :
  is_ascii a = true -> is_ascii (Text.upper_char a) = true.
Proof. destruct a as [[] [] [] [] [] [] [] []]; vm_compute; auto. Qed.

Section WithDatabase.

Variable ucd : Database.

Lemma ascii_code a :
  is_ascii a = true ->
  isdigit ucd (code a) = Text.isdigit a
  /\ isspace ucd (code a) = Text.isspace a
  /\ upper_char ucd (code a) = [code (Text.upper_char a)].
Proof.
  unfold is_ascii, isdigit, isspace, upper_char. intros ->.
  unfold code. now rewrite ascii_N_embedding.
Qed.

Lemma of_str_remove_digits s :
  Forall (fun a => is_ascii a = true) s ->
  remove_digits ucd (of_str s) = of_str (Text.remove_digits s).
Proof.
  intros H. apply of_str_filter.
  eapply Forall_impl; [|exact H]. cbv beta. intros a Ha.
  now rewrite (proj1 (ascii_code a Ha)).
Qed.

Lemma of_str_upper s :
  Forall (fun a => is_ascii a = true) s ->
  upper ucd (of_str s) = of_str (Text.upper s).
Proof.
  unfold upper, Text.upper, of_str.
  induction 1 as [|a s Ha _ IH]; [reflexivity|].
  cbn [map flat_map]. rewrite IH.
  now rewrite (proj2 (proj2 (ascii_code a Ha))).
Qed.

Lemma of_str_split s :
  Forall (fun a => is_ascii a = true) s ->
  split ucd (of_str s) = map of_str (Text.split s).
Proof.
  induction 1 as [|a s Ha Hs IH]; [reflexivity|].
  cbn [of_str map split Text.split].
  rewrite (proj1 (proj2 (ascii_code a Ha))).
  destruct (Text.isspace a); [exact IH|].
  destruct s as [|a' s']; [reflexivity|].
  inversion Hs as [|? ? Ha' _]; subst.
  cbn [map]. rewrite (proj1 (proj2 (ascii_code a' Ha'))).
  change (code a' :: map code s') with (of_str (a' :: s')) in *.
  rewrite IH.
  destruct (Text.isspace a'); [reflexivity|].
  now destruct (Text.split (a' :: s')).
Qed.

(** On an ASCII text the normalizer gives the same text under both
    readings, whatever the database says of the other characters. *)
Lemma clean_text_ascii s :
  ascii_only s = true ->
  clean_text ucd (of_str s) = of_str (Text.clean_text s).
Proof.
  intros H.
  assert (H0 : Forall (fun a => is_ascii a = true) s).
  { apply Forall_forall. now apply forallb_forall. }
  assert (H1 : Forall (fun a => is_ascii a = true) (Text.remove_symbols s)).
  { unfold Text.remove_symbols, Text.symbols, Text.remove_char. cbn [fold_left].
    now repeat apply TextFacts.Forall_filter. }
  assert (H2 : Forall (fun a => is_ascii a = true)
                 (Text.apply_replacements (Text.remove_symbols s))).
  { apply TextFacts.apply_replacements_Forall; [repeat constructor|assumption]. }
  assert (H3 : Forall (fun a => is_ascii a = true)
                 (Text.remove_digits
                    (Text.apply_replacements (Text.remove_symbols s)))).
  { now apply TextFacts.Forall_filter. }
  assert (H4 : Forall (fun a => is_ascii a = true)
                 (Text.upper
                    (Text.remove_digits
                       (Text.apply_replacements (Text.remove_symbols s))))).
  { unfold Text.upper. apply Forall_map.
    eapply Forall_impl; [|exact H3]. apply upper_char_ascii. }
  unfold clean_text, Text.clean_text.
  rewrite of_str_remove_symbols, of_str_apply_replacements,
    (of_str_remove_digits H2), (of_str_upper H3), (of_str_split H4).
  apply of_str_join.
Qed.

End WithDatabase.

End UnicodeFacts.

(* ------------------------------------------------------------------ *)
(** * The properties of the specification *)

Import TextFacts FrameFacts ReportFacts IngestFacts.

(** ** The Text Normalizer *)

(** C1, as stated: normalizing twice gives the same as normalizing once, for
    every string.  It fails at ["w/"]: the first pass only upper-cases it to
    ["W/"], which the second pass replaces by ["WITH"]. *)
Lemma clean_dish_name_twice_differs :
  clean_dish_name (Str (lit "w/")) = lit "W/"
  /\ clean_dish_name (Str (clean_dish_name (Str (lit "w/")))) = lit "WITH"
  /\ clean_dish_name (Str (clean_dish_name (Str (lit "w/"))))
     <> clean_dish_name (Str (lit "w/")).
Proof. repeat split. vm_compute. discriminate. Qed.

(** C1, amended: for every string [s], normalizing twice gives the same as
    normalizing once exactly when the normalized [s] contains none of the
    keys ["W/"], ["&"], [" WIT "] and ["PCS"].

    The string is any sequence of Unicode code points, and the normalizer
    is lines 59-64 read on such sequences ([Unicode.clean_text], which on an
    ASCII text is [clean_dish_name], by [UnicodeFacts.clean_text_ascii]).
    Of the character database the proof uses one fact, [upper_settles]:
    upper-casing a character that is no digit gives characters that are no
    digits, none of [( ) . @], and their own upper case. *)
Theorem clean_dish_name_idempotent_iff (ucd : Unicode.Database) (s : Unicode.ustr) :
  Unicode.upper_settles ucd ->
  (Unicode.clean_text ucd (Unicode.clean_text ucd s) = Unicode.clean_text ucd s
   <-> Unicode.key_free (Unicode.clean_text ucd s) = true).
Proof.
  intros Hdb.
  apply UnicodeFacts.unicode_normalized_fixed_iff, UnicodeFacts.unicode_clean_text_normalized.
  exact Hdb.
Qed.

Lemma clean_dish_name_idempotent_iff_witness :
  Unicode.upper_settles Unicode.latin1
  /\ Unicode.key_free (Unicode.clean_text Unicode.latin1 Unicode.creme_brulee) = false
  /\ Unicode.clean_text Unicode.latin1
       (Unicode.clean_text Unicode.latin1 Unicode.creme_brulee)
     <> Unicode.clean_text Unicode.latin1 Unicode.creme_brulee.
Proof.
  split; [exact UnicodeFacts.latin1_upper_settles|].
  split; [reflexivity|].
  intros H.
  apply (clean_dish_name_idempotent_iff Unicode.creme_brulee
           UnicodeFacts.latin1_upper_settles) in H.
  discriminate H.
Defined.

(** C2, as stated: the normalizer maps
    ["Burger W/ Cheese & Fries (2) PCS 3"] to
    ["BURGER WITH CHEESE AND FRIES FRIES"].  It does not. *)
Lemma burger_is_not_fries_fries :
  clean_dish_name (Str (lit "Burger W/ Cheese & Fries (2) PCS 3"))
  <> lit "BURGER WITH CHEESE AND FRIES FRIES".
Proof. vm_compute. discriminate. Qed.

(** C2, amended: the normalizer maps
    ["Burger W/ Cheese & Fries (2) PCS 3"] to
    ["BURGER WITH CHEESE AND FRIES"]. *)
Theorem burger_normalized :
  clean_dish_name (Str (lit "Burger W/ Cheese & Fries (2) PCS 3"))
  = lit "BURGER WITH CHEESE AND FRIES".
Proof. reflexivity. Qed.

(** C4: on every value that is not a string the normalizer returns the empty
    string.  ([clean_dish_name] is a total function: there is no input on
    which it raises.) *)
Theorem clean_dish_name_non_string (v : value) :
  is_str v = false -> clean_dish_name v = lit "".
Proof. destruct v; intros H; try reflexivity. discriminate. Qed.

Lemma clean_dish_name_non_string_witness :
  is_str NaN = false /\ clean_dish_name NaN = lit "".
Proof.
  split; [reflexivity|]. apply (clean_dish_name_non_string NaN). reflexivity.
Defined.

(** ** The File Ingestor *)

(** C3: a file that fails in the retry is not skipped.  With a file that is
    text in neither encoding before a valid one, [merge_files] raises the
    [UnicodeDecodeError] of the retry, prints nothing and reads no further
    file; whereas a file that fails in the first attempt with another
    exception is logged and skipped. *)
Theorem retry_failure_ends_ingestion :
  merge_files [binary_file; valid_file]
  = ([], Raise (UnicodeDecodeError
       "'utf-8' codec can't decode byte 0xff in position 0: invalid start byte"))
  /\ merge_files [malformed_file; valid_file]
     = (["[ERROR] Could not read 'malformed.xls': No columns to parse from file"%string],
        Ok five_rows).
Proof. split; reflexivity. Qed.

(** C9: with a single file that is text in neither encoding, no file parses,
    yet [merge_files] does not return the empty table: the run ends with the
    exception of the retry, without the warning (and without a workbook). *)
Theorem no_file_parses_yet_no_warning :
  forallb (fun file => negb (parses file)) [binary_file] = true
  /\ merge_files [binary_file]
     = ([], Raise (UnicodeDecodeError
          "'utf-8' codec can't decode byte 0xff in position 0: invalid start byte"))
  /\ main iso_to_datetime (folder_of [binary_file])
     = {| stdout := [];
          written := None;
          raised := Some (UnicodeDecodeError
            "'utf-8' codec can't decode byte 0xff in position 0: invalid start byte") |}.
Proof. repeat split. Qed.

(** ** The Reconciliation and Derivation Engine *)

(** Whatever [to_datetime] makes of the text ["garbage"], the [Date] column
    of a Reconciled Table of [garbage_date] holds dates or [NaT], not the
    text that the forward fill carried down. *)
Lemma garbage_date_not_filled to_datetime rec tx it :
  process_report to_datetime garbage_date = Ok (rec, tx, it) ->
  ~ header_forward_filled garbage_date rec.
Proof.
  intros E.
  intros H. destruct (H "Date"%string) as (src & out & Hsrc & Hout & _ & Hfill);
    [now left|].
  apply process_report_inv in E as (Hrec & _ & _).
  apply reconcile_inv in Hrec as (d & p & c & t & Hd & _ & _ & _ & _ & _ & Hcol).
  rewrite Hcol in Hout. revert Hout. labels. cbv iota. intros Hout.
  rewrite Hd in Hsrc. injection Hsrc as Hsrc. injection Hout as Hout.
  vm_compute in Hd. injection Hd as Hd. subst d src out.
  destruct (Hfill 0) as [Hkeep _]; [cbn; lia|].
  specialize (Hkeep eq_refl).
  cbn [ffill ffill_from isna to_timestamps map nth dt_date] in Hkeep.
  destruct (cell to_datetime _ _); discriminate.
Qed.

(** C5, as stated: in the Reconciled Table each of the four header columns,
    [Date] included, is the forward fill of the column of the Unified Table.
    It fails for [Date]: with the dates [["garbage"; blank]] the fill
    carries ["garbage"] down, line 80 then replaces the column by the
    calendar dates, and both rows of the Reconciled Table are blank. *)
Lemma date_column_not_forward_filled :
  exists rec tx it,
    process_report iso_to_datetime garbage_date = Ok (rec, tx, it)
    /\ column garbage_date "Date" = Some [Str (lit "garbage"); NaN]
    /\ column rec "Date" = Some [NaT; NaT]
    /\ ~ header_forward_filled garbage_date rec.
Proof.
  destruct (process_report iso_to_datetime garbage_date) as [[[rec tx] it]|e] eqn:E;
    [|vm_compute in E; discriminate].
  exists rec, tx, it. split; [reflexivity|]. split; [reflexivity|].
  split; [|exact (@garbage_date_not_filled iso_to_datetime rec tx it E)].
  vm_compute in E. injection E as <- _ _. reflexivity.
Qed.

(** C5, amended: in the Reconciled Table the columns [POS Name],
    [Cashier Name] and [Transaction No] are the forward fill of the columns
    of the Unified Table: a blank takes the nearest value above it that is
    not blank, and stays blank when there is none; [A, blank, blank, B,
    blank] gives [A, A, A, B, B].  The [Date] column is forward-filled in the
    same way and then replaced by the calendar dates of its values. *)
Theorem header_columns_forward_filled
    (to_datetime : ToDatetime) (df rec tx it : DataFrame) :
  process_report to_datetime df = Ok (rec, tx, it) ->
  (forall f, In f ["POS Name"; "Cashier Name"; "Transaction No"]%string ->
     exists src out,
       column df f = Some src /\ column rec f = Some out
       /\ forward_filled src out
       /\ forall A B, isna A = false -> isna B = false ->
            src = [A; NaN; NaN; B; NaN] -> out = [A; A; A; B; B])
  /\ (exists src filled,
        column df "Date" = Some src
        /\ forward_filled src filled
        /\ column rec "Date"
           = Some (map dt_date (to_timestamps to_datetime filled))).
Proof.
  intros H. apply process_report_inv in H as (Hrec & _ & _).
  apply reconcile_inv in Hrec as (d & p & c & t & Hd & Hp & Hc & Ht & _ & _ & Hcol).
  assert (Hex : forall A B, isna A = false -> isna B = false ->
            ffill [A; NaN; NaN; B; NaN] = [A; A; A; B; B]).
  { intros A B HA HB. unfold ffill. cbn [ffill_from isna]. now rewrite HA, HB. }
  assert (Hfill : forall src,
            forward_filled src (ffill src)
            /\ forall A B, isna A = false -> isna B = false ->
                 src = [A; NaN; NaN; B; NaN] -> ffill src = [A; A; A; B; B]).
  { intros src. split; [apply ffill_forward_filled|].
    intros A B HA HB ->. now apply Hex. }
  split.
  - intros f [<-|[<-|[<-|[]]]].
    + exists p, (ffill p). rewrite Hcol. labels. cbv iota.
      split; [assumption|]. split; [reflexivity|]. apply Hfill.
    + exists c, (ffill c). rewrite Hcol. labels. cbv iota.
      split; [assumption|]. split; [reflexivity|]. apply Hfill.
    + exists t, (ffill t). rewrite Hcol. labels. cbv iota.
      split; [assumption|]. split; [reflexivity|]. apply Hfill.
  - exists d, (ffill d). rewrite Hcol. labels. cbv iota.
    split; [assumption|]. split; [apply ffill_forward_filled|reflexivity].
Qed.

Lemma header_columns_forward_filled_witness :
  exists rec tx it,
    process_report iso_to_datetime five_rows = Ok (rec, tx, it)
    /\ column rec "POS Name"
       = Some [text "POS1"; text "POS1"; text "POS1"; text "POS2"; text "POS2"].
Proof.
  destruct (process_report iso_to_datetime five_rows) as [[[rec tx] it]|e] eqn:E;
    [|vm_compute in E; discriminate].
  exists rec, tx, it. split; [reflexivity|].
  destruct (header_columns_forward_filled iso_to_datetime five_rows E) as [H _].
  destruct (H "POS Name"%string) as (src & out & Hsrc & Hout & _ & Hex);
    [now left|].
  rewrite Hout. f_equal.
  apply (Hex (text "POS1") (text "POS2")); try reflexivity.
  vm_compute in Hsrc. now injection Hsrc as <-.
Defined.

(** C6: the Transaction View has exactly one row for every distinct [OR No]
    of the Reconciled Table, the first row with that key, without the
    columns [Dishes] and [Dish Quantities]; line 87 needs the [OR No] column
    only, so it returns also when the two item columns are absent; the keys
    [1, 1, 2, 2, 3] give 3 rows. *)
Theorem transaction_view_first_row_per_key
    (to_datetime : ToDatetime) (df rec tx it : DataFrame) :
  wf df ->
  process_report to_datetime df = Ok (rec, tx, it) ->
  (exists keys,
     column rec "OR No" = Some keys
     /\ first_rows_by_key rec tx keys
     /\ (keys = [Int 1; Int 1; Int 2; Int 2; Int 3] -> nrows tx = 3))
  /\ (forall rec' keys',
        column rec' "OR No" = Some keys' ->
        exists tx', transactions rec' = Ok tx'
                    /\ column tx' "Dishes" = None
                    /\ column tx' "Dish Quantities" = None).
Proof.
  intros Hwf H. apply process_report_inv in H as (Hrec & Htx & _).
  split.
  - destruct (column rec "OR No") as [keys|] eqn:Hk;
      [|rewrite (transactions_missing _ Hk) in Htx; discriminate].
    rewrite (transactions_ok _ Hk) in Htx. injection Htx as <-.
    apply reconcile_inv in Hrec
      as (d & p & c & t & _ & _ & _ & _ & _ & Hidx & Hcol).
    assert (Hlen : List.length keys = nrows rec).
    { rewrite Hcol in Hk. revert Hk. labels. cbv iota. intros Hk.
      unfold nrows. rewrite Hidx.
      apply lookup_Some_In in Hk.
      unfold wf in Hwf. rewrite Forall_forall in Hwf.
      exact (Hwf _ Hk). }
    pose proof (transactions_first_rows _ Hk Hlen) as Hfirst.
    exists keys. repeat split; try assumption.
    intros ->. destruct Hfirst as (mask & _ & _ & _ & _ & _ & _ & ->).
    reflexivity.
  - intros rec' keys' Hk. rewrite (transactions_ok _ Hk).
    eexists. split; [reflexivity|]. now rewrite !column_drop.
Qed.

Lemma transaction_view_first_row_per_key_witness :
  exists rec tx it,
    process_report iso_to_datetime five_rows = Ok (rec, tx, it)
    /\ nrows tx = 3.
Proof.
  destruct (process_report iso_to_datetime five_rows) as [[[rec tx] it]|e] eqn:E;
    [|vm_compute in E; discriminate].
  exists rec, tx, it. split; [reflexivity|].
  assert (Hwf : wf five_rows) by (repeat constructor).
  destruct (transaction_view_first_row_per_key iso_to_datetime Hwf E)
    as [(keys & Hk & _ & Hex) _].
  apply Hex. vm_compute in E. injection E as <- _ _.
  vm_compute in Hk. now injection Hk as <-.
Defined.

(** C7: whenever [process_report] returns, the Item View has the rows of the
    Reconciled Table, one for one: the same row labels, hence the same
    number of rows, and in each of its eight columns the values of the
    column of that name of the Reconciled Table. *)
Theorem item_view_row_for_row
    (to_datetime : ToDatetime) (df rec tx it : DataFrame) :
  process_report to_datetime df = Ok (rec, tx, it) ->
  nrows it = nrows rec
  /\ index it = index rec
  /\ labels it = dish_columns
  /\ forall n, In n dish_columns ->
       exists v, column rec n = Some v /\ column it n = Some v.
Proof.
  intros H. apply process_report_inv in H as (_ & _ & Hit).
  unfold dishes in Hit. apply getitem_inv in Hit as [Hall ->].
  split; [reflexivity|]. split; [reflexivity|]. split.
  - unfold labels. cbn [Frame.columns]. rewrite map_map. cbn [fst]. apply map_id.
  - intros n Hn. rewrite forallb_forall in Hall.
    destruct (has_column_true _ _ (Hall n Hn)) as [v Hv].
    exists v. split; [assumption|].
    unfold column at 1. cbn [Frame.columns].
    rewrite (lookup_names (fun n => match column rec n with
                                    | Some v => v
                                    | None => []
                                    end)).
    replace (existsb (String.eqb n) dish_columns) with true.
    + now rewrite Hv.
    + symmetry. apply existsb_exists. exists n. split; [assumption|].
      apply String.eqb_refl.
Qed.

Lemma item_view_row_for_row_witness :
  exists rec tx it,
    process_report iso_to_datetime five_rows = Ok (rec, tx, it)
    /\ nrows it = nrows rec.
Proof.
  destruct (process_report iso_to_datetime five_rows) as [[[rec tx] it]|e] eqn:E;
    [|vm_compute in E; discriminate].
  exists rec, tx, it. split; [reflexivity|].
  apply (item_view_row_for_row iso_to_datetime five_rows E).
Defined.

(** C8: when one of the eight columns of the Item View is missing from the
    Reconciled Table, [process_report] raises a [KeyError]; [main] does not
    catch it, so the run ends with it and no workbook is written. *)
Theorem item_view_missing_column_aborts
    (to_datetime : ToDatetime) (df rec : DataFrame) (n : string) :
  reconcile to_datetime df = Ok rec ->
  In n dish_columns ->
  column rec n = None ->
  exists missing,
    process_report to_datetime df = Raise (KeyError missing)
    /\ forall folder out,
         valid folder = true ->
         merge_files (glob_xls folder) = (out, Ok df) ->
         empty df = false ->
         main to_datetime folder
         = {| stdout := out; written := None; raised := Some (KeyError missing) |}.
Proof.
  intros Hrec Hn Hmiss.
  assert (Hp : exists missing,
             process_report to_datetime df = Raise (KeyError missing)).
  { unfold process_report. rewrite Hrec. cbn [bind].
    destruct (column rec "OR No") as [keys|] eqn:Hk.
    - rewrite (transactions_ok _ Hk). cbn [bind]. unfold dishes.
      destruct (getitem_missing rec dish_columns n Hn Hmiss) as [missing [-> _]].
      now exists missing.
    - rewrite (transactions_missing _ Hk). now eexists. }
  destruct Hp as [missing Hp]. exists missing. split; [exact Hp|].
  intros folder out Hv Hm He. now apply main_aborts with (df := df).
Qed.

Lemma item_view_missing_column_aborts_witness :
  exists missing,
    process_report iso_to_datetime no_dishes = Raise (KeyError missing).
Proof.
  destruct (reconcile iso_to_datetime no_dishes) as [rec|e] eqn:E;
    [|vm_compute in E; discriminate].
  destruct (@item_view_missing_column_aborts iso_to_datetime no_dishes rec
              "Dishes"%string E) as [missing [H _]].
  - cbn. tauto.
  - vm_compute in E. injection E as <-. reflexivity.
  - now exists missing.
Defined.

(** C10: when one of the four header columns is missing from the Unified
    Table, [process_report] raises a [KeyError] that names it, and the run
    ends with it, no workbook written.  The later steps are tolerant: with
    the four header columns, no [DateTime] column and a [Date] column on
    which [pd.to_datetime] does not raise, lines 72-84 return whether or not
    [No data found] and [Dishes] are there, and line 87 returns whether or
    not [Dishes] and [Dish Quantities] are there. *)
Theorem missing_header_column_aborts
    (to_datetime : ToDatetime) (df : DataFrame) (f : string) :
  In f fields_to_fill ->
  column df f = None ->
  (exists missing,
     In f missing
     /\ process_report to_datetime df = Raise (KeyError missing)
     /\ forall folder out,
          valid folder = true ->
          merge_files (glob_xls folder) = (out, Ok df) ->
          empty df = false ->
          main to_datetime folder
          = {| stdout := out; written := None; raised := Some (KeyError missing) |})
  /\ (forall df',
        (forall f', In f' fields_to_fill -> column df' f' <> None) ->
        column df' "DateTime" = None ->
        date_column_converts to_datetime df' ->
        exists rec, reconcile to_datetime df' = Ok rec)
  /\ (forall rec keys,
        column rec "OR No" = Some keys -> exists tx, transactions rec = Ok tx).
Proof.
  intros Hin Hf. split; [|split].
  - destruct (reconcile_missing to_datetime df Hin Hf) as [missing [Hr Hm]].
    assert (Hp : process_report to_datetime df = Raise (KeyError missing))
      by (unfold process_report; now rewrite Hr).
    exists missing. repeat split; try assumption.
    intros folder out Hv Hmerge He. now apply main_aborts with (df := df).
  - intros df'. apply reconcile_ok.
  - intros rec keys Hk. rewrite (transactions_ok _ Hk). eauto.
Qed.

Lemma missing_header_column_aborts_witness :
  exists missing,
    In "POS Name"%string missing
    /\ process_report iso_to_datetime no_pos_name = Raise (KeyError missing).
Proof.
  destruct (@missing_header_column_aborts iso_to_datetime no_pos_name
              "POS Name"%string) as [(missing & Hin & Hp & _) _].
  - cbn. tauto.
  - reflexivity.
  - exists missing. now split.
Defined.

(* ------------------------------------------------------------------ *)
(** * Further properties of the Text Normalizer *)

Module NormalizerFacts.

Import TextFacts.

Lemma settled_not_lower c : settled c = true -> islower c = false.
Proof. each_char c. Qed.

Lemma settled_not_symbol c : settled c = true -> ~ In c symbols.
Proof.
  intros Hs Hin. pose proof (settled_symbol _ Hs Hin) as H.
  now rewrite Ascii.eqb_refl in H.
Qed.

Lemma space_upper c : isspace c = true -> upper_char c = c.
Proof. each_char c. Qed.

(** An occurrence of [key] brings every character of [key] with it. *)
Lemma starts_with_In key : forall text k,
  starts_with key text = true -> In k key -> In k text.
Proof.
  induction key as [|k0 key IH]; intros text k H Hin; [destruct Hin|].
  destruct text as [|c text]; [discriminate|].
  cbn [starts_with] in H. apply andb_prop in H as [Hk H].
  apply Ascii.eqb_eq in Hk. subst c.
  destruct Hin as [<-|Hin]; [now left|right; now apply IH].
Qed.

Lemma occurs_In key text k :
  occurs key text = true -> In k key -> In k text.
Proof.
  induction text as [|c text IH]; cbn [occurs]; intros H Hin.
  - rewrite orb_false_r in H. exact (starts_with_In _ _ _ H Hin).
  - apply orb_prop in H as [H|H]; [exact (starts_with_In _ _ _ H Hin)|].
    right. now apply IH.
Qed.

Lemma absent_char key text k :
  In k key -> ~ In k text -> occurs key text = false.
Proof.
  intros Hin Hk. destruct (occurs key text) eqn:E; [|reflexivity].
  destruct Hk. exact (occurs_In _ _ _ E Hin).
Qed.

Lemma split_spaces text :
  Forall (fun c => isspace c = true) text -> split text = [].
Proof.
  induction 1 as [|c text Hc _ IH]; [reflexivity|].
  now rewrite split_space.
Qed.

End NormalizerFacts.

Import NormalizerFacts.

(** X1: what the normalizer returns for an ASCII text has no digit, none of
    the symbols [( ) . @], no lower-case letter, and no whitespace but
    single spaces between words: splitting it on whitespace and joining the
    words with one space gives it back. *)
Theorem clean_dish_name_normal_form (s : str) :
  ascii_only s = true ->
  Forall (fun c => isdigit c = false /\ ~ In c symbols /\ islower c = false
                   /\ (isspace c = true -> c = " "%char))
         (clean_dish_name (Str s))
  /\ join (lit " ") (split (clean_dish_name (Str s))) = clean_dish_name (Str s).
Proof.
  intros _. cbn [clean_dish_name].
  destruct (clean_text_normalized s) as [Hs [ws [Hws Heq]]].
  split.
  - assert (Hsp : Forall (fun c => isspace c = true -> c = " "%char) (clean_text s)).
    { rewrite Heq. apply join_Forall; [repeat constructor|].
      eapply Forall_impl; [|exact Hws]. intros w [_ Hw].
      eapply Forall_impl; [|exact Hw]. cbv beta. intros c Hc Hc'. congruence. }
    rewrite Forall_forall in *. intros c Hc.
    pose proof (Hs c Hc) as Hset.
    repeat split.
    + apply negb_true_iff. now apply settled_digit.
    + now apply settled_not_symbol.
    + now apply settled_not_lower.
    + now apply Hsp.
  - rewrite Heq at 1. now rewrite split_join.
Qed.

Lemma clean_dish_name_normal_form_witness :
  join (lit " ") (split (clean_dish_name (Str (lit "  2 pcs  fried_rice (lg.) "))))
  = clean_dish_name (Str (lit "  2 pcs  fried_rice (lg.) ")).
Proof.
  apply (clean_dish_name_normal_form (lit "  2 pcs  fried_rice (lg.) ")).
  reflexivity.
Defined.

(** X2: an ASCII text made of nothing but digits, the symbols [( ) . @] and
    whitespace normalizes to the empty string. *)
Theorem clean_dish_name_noise (s : str) :
  ascii_only s = true ->
  forallb (fun c => isdigit c || existsb (Ascii.eqb c) symbols || isspace c) s = true ->
  clean_dish_name (Str s) = lit "".
Proof.
  intros _ H. cbn [clean_dish_name]. unfold clean_text.
  set (noise := fun c => isdigit c || existsb (Ascii.eqb c) symbols || isspace c) in *.
  assert (Hn : Forall (fun c => noise c = true) s).
  { apply Forall_forall. now apply forallb_forall. }
  assert (H1 : Forall (fun c => noise c = true) (remove_symbols s)).
  { unfold remove_symbols, symbols, remove_char. cbn [fold_left].
    now repeat apply Forall_filter. }
  assert (Hkey : forall key k, In k key -> noise k = false ->
                   occurs key (remove_symbols s) = false).
  { intros key k Hin Hk. apply (absent_char key _ k Hin).
    intros Hc. rewrite Forall_forall in H1. rewrite (H1 _ Hc) in Hk. discriminate. }
  assert (H2 : apply_replacements (remove_symbols s) = remove_symbols s).
  { unfold apply_replacements. cbn [fold_left replacements fst snd].
    rewrite (replace_absent _ _ _ (Hkey (lit "W/") "W"%char ltac:(cbn; tauto) eq_refl)).
    rewrite (replace_absent _ _ _ (Hkey (lit "&") "&"%char ltac:(cbn; tauto) eq_refl)).
    rewrite (replace_absent _ _ _ (Hkey (lit " WIT ") "W"%char ltac:(cbn; tauto) eq_refl)).
    rewrite (replace_absent _ _ _ (Hkey (lit "\n") "n"%char ltac:(cbn; tauto) eq_refl)).
    now rewrite (replace_absent _ _ _ (Hkey (lit "PCS") "P"%char ltac:(cbn; tauto) eq_refl)). }
  rewrite H2.
  assert (H3 : Forall (fun c => isspace c = true) (remove_digits (remove_symbols s))).
  { unfold remove_digits. apply Forall_forall. intros c Hc.
    apply filter_In in Hc as [Hc Hd].
    pose proof (remove_symbols_spec s) as Hsym.
    rewrite Forall_forall in Hsym, H1.
    specialize (H1 c Hc). specialize (Hsym c Hc). unfold noise in H1.
    apply negb_true_iff in Hd. now rewrite Hd, Hsym in H1. }
  assert (H4 : upper (remove_digits (remove_symbols s))
               = remove_digits (remove_symbols s)).
  { unfold upper. rewrite <- (map_id (remove_digits (remove_symbols s))) at 2.
    apply map_ext_in. intros c Hc. rewrite Forall_forall in H3.
    now apply space_upper, H3. }
  now rewrite H4, (split_spaces H3).
Qed.

Lemma clean_dish_name_noise_witness :
  clean_dish_name (Str (lit " (12) @ 3.50 ")) = lit "".
Proof.
  apply (clean_dish_name_noise (lit " (12) @ 3.50 ")); reflexivity.
Defined.

(** X3: the ASCII texts that the normalizer returns unchanged are exactly
    the texts in normal form (characters as in X1, words separated by single
    spaces) that contain none of the keys ["W/"], ["&"], [" WIT "] and
    ["PCS"]. *)
Theorem clean_dish_name_fixed_points (t : str) :
  ascii_only t = true ->
  (clean_dish_name (Str t) = t <-> normalized t /\ key_free t = true).
Proof.
  intros _. cbn [clean_dish_name]. split.
  - intros Heq.
    assert (Hn : normalized t) by (rewrite <- Heq; apply clean_text_normalized).
    split; [exact Hn|]. now apply normalized_fixed_iff.
  - intros [Hn Hk]. now apply normalized_fixed.
Qed.

Lemma clean_dish_name_fixed_points_witness :
  clean_dish_name (Str (lit "FRIED RICE")) = lit "FRIED RICE"
  /\ normalized (lit "FRIED RICE").
Proof.
  assert (H : clean_dish_name (Str (lit "FRIED RICE")) = lit "FRIED RICE")
    by reflexivity.
  split; [exact H|].
  apply (proj1 (clean_dish_name_fixed_points (lit "FRIED RICE") eq_refl) H).
Defined.

(* ------------------------------------------------------------------ *)
(** * Further properties of the File Ingestor *)

Module MergeFacts.

Import FrameFacts IngestFacts.

(** Past a run of files without a failing retry the loop goes on with their
    tables and their lines. *)
Lemma merge_loop_app pre : forall rest all_dfs out,
  forallb (fun file => negb (retry_fails file)) pre = true ->
  merge_loop (pre ++ rest) all_dfs out
  = merge_loop rest (all_dfs ++ parsed_tables pre) (out ++ skipped_lines pre).
Proof.
  induction pre as [|file pre IH]; intros rest all_dfs out H.
  - cbn. now rewrite !app_nil_r.
  - cbn [forallb] in H. apply andb_prop in H as [Hf H].
    unfold retry_fails in Hf.
    cbn [app merge_loop skipped_lines parsed_tables flat_map].
    fold (skipped_lines pre). fold (parsed_tables pre).
    destruct (read_csv file gbk) as [df|e].
    + rewrite IH by assumption. now rewrite <- app_assoc.
    + destruct e; try (rewrite IH by assumption; now rewrite <- app_assoc, ?app_nil_r).
      destruct (read_csv file utf8) as [df|e']; [|discriminate].
      rewrite IH by assumption. now rewrite <- app_assoc.
Qed.

Lemma parsed_tables_In files t :
  In t (parsed_tables files) ->
  exists file enc, In file files /\ read_csv file enc = Ok t.
Proof.
  unfold parsed_tables. rewrite in_flat_map. intros [file [Hin Ht]].
  destruct (read_csv file gbk) as [df|e] eqn:Eg.
  - destruct Ht as [<-|[]]. now exists file, gbk.
  - destruct e; try destruct Ht.
    destruct (read_csv file utf8) as [df|e'] eqn:Eu; [|destruct Ht].
    destruct Ht as [<-|[]]. now exists file, utf8.
Qed.

(** ** [pd.concat] *)

Lemma union_labels_spec names : forall seen,
  NoDup (union_labels seen names)
  /\ forall n, In n (union_labels seen names) <-> In n names /\ ~ In n seen.
Proof.
  induction names as [|n names IH]; intros seen.
  - split; [constructor|]. cbn. tauto.
  - cbn [union_labels].
    destruct (existsb (String.eqb n) seen) eqn:E.
    + destruct (IH seen) as [Hnd Hin]. split; [assumption|].
      assert (Hs : In n seen).
      { apply existsb_exists in E as [x [Hx Hnx]].
        apply String.eqb_eq in Hnx. now subst. }
      intros m. rewrite Hin. cbn [In]. split; [tauto|].
      intros [[<-|Hm] Hns]; tauto.
    + destruct (IH (n :: seen)) as [Hnd Hin].
      assert (Hs : ~ In n seen).
      { intros Hn. assert (Ht : existsb (String.eqb n) seen = true).
        { apply existsb_exists. exists n. split; [assumption|apply String.eqb_refl]. }
        congruence. }
      split.
      * constructor; [|assumption]. rewrite Hin. cbn [In]. tauto.
      * intros m. cbn [In]. rewrite Hin. cbn [In].
        destruct (string_dec n m) as [->|]; tauto.
Qed.

Lemma concat_column_length n dfs :
  Forall wf dfs ->
  List.length (flat_map (fun df => match column df n with
                                   | Some v => v
                                   | None => repeat NaN (nrows df)
                                   end) dfs)
  = list_sum (map nrows dfs).
Proof.
  induction 1 as [|df dfs Hdf _ IH]; [reflexivity|].
  cbn [flat_map map]. rewrite length_app, IH.
  change (list_sum (nrows df :: map nrows dfs))
    with (nrows df + list_sum (map nrows dfs)).
  f_equal.
  destruct (column df n) as [v|] eqn:E; [|apply repeat_length].
  apply lookup_Some_In in E. unfold wf in Hdf. rewrite Forall_forall in Hdf.
  exact (Hdf _ E).
Qed.

Lemma concat_shape dfs :
  Forall wf dfs ->
  wf (concat dfs)
  /\ nrows (concat dfs) = list_sum (map nrows dfs)
  /\ index (concat dfs) = seq 0 (nrows (concat dfs))
  /\ NoDup (labels (concat dfs)).
Proof.
  intros Hwf.
  assert (Hn : nrows (concat dfs) = list_sum (map nrows dfs))
    by (unfold nrows, concat; cbn [index]; apply length_seq).
  split; [|split; [exact Hn|split]].
  - unfold wf. rewrite Hn. unfold concat. cbn [Frame.columns].
    apply Forall_map, Forall_forall. intros n _. cbn [snd].
    now apply concat_column_length.
  - rewrite Hn. reflexivity.
  - unfold labels, concat. cbn [Frame.columns]. rewrite map_map. cbn [fst].
    rewrite map_id. apply union_labels_spec.
Qed.

End MergeFacts.

Import MergeFacts.

(** X4: as long as no file fails in its retry, [merge_files] does not
    raise: it prints one [[ERROR]] line for every file whose first read
    fails with an exception other than a decode error, in the order of the
    files, and returns the concatenation of the tables of all other files
    (the GBK table where GBK reads the file, the UTF-8 table otherwise), or
    the empty table when there is none. *)
Theorem merge_files_isolates (files : list File) :
  forallb (fun file => negb (retry_fails file)) files = true ->
  merge_files files
  = (skipped_lines files,
     Ok (match parsed_tables files with
         | [] => empty_frame
         | _ :: _ => concat (parsed_tables files)
         end)).
Proof.
  intros H. unfold merge_files.
  rewrite (merge_loop_isolates _ [] [] H). reflexivity.
Qed.

Lemma merge_files_isolates_witness :
  merge_files [malformed_file; utf8_file; valid_file]
  = (["[ERROR] Could not read 'malformed.xls': No columns to parse from file"%string],
     Ok (concat [garbage_date; five_rows])).
Proof.
  apply (merge_files_isolates [malformed_file; utf8_file; valid_file]).
  reflexivity.
Defined.

(** X5: [merge_files] stops at the first file whose retry fails: it raises
    the exception of that retry, having printed the lines of the files
    skipped before it, and whatever files come after it are not read. *)
Theorem merge_files_stops_at_failed_retry
    (pre post : list File) (file : File) (e : exn) :
  forallb (fun f => negb (retry_fails f)) pre = true ->
  retry_fails file = true ->
  read_csv file utf8 = Raise e ->
  merge_files (pre ++ file :: post) = (skipped_lines pre, Raise e).
Proof.
  intros Hpre Hf He. unfold merge_files.
  rewrite (merge_loop_app pre (file :: post) [] [] Hpre).
  cbn [app merge_loop]. unfold retry_fails in Hf.
  destruct (read_csv file gbk) as [df|e0]; [discriminate|].
  destruct e0; try discriminate.
  now rewrite He.
Qed.

Lemma merge_files_stops_at_failed_retry_witness :
  merge_files ([malformed_file] ++ binary_file :: [valid_file])
  = (["[ERROR] Could not read 'malformed.xls': No columns to parse from file"%string],
     Raise (UnicodeDecodeError
       "'utf-8' codec can't decode byte 0xff in position 0: invalid start byte")).
Proof.
  apply (merge_files_stops_at_failed_retry [malformed_file] [valid_file] binary_file);
    reflexivity.
Defined.

(** X6: [merge_files] raises exactly when some file fails to decode as GBK
    and then fails again in the UTF-8 retry. *)
Theorem merge_files_raises_iff (files : list File) :
  raises (snd (merge_files files))
  <-> exists file, In file files /\ retry_fails file = true.
Proof.
  destruct (forallb (fun file => negb (retry_fails file)) files) eqn:E.
  - rewrite (merge_files_isolates _ E). cbn [snd]. split.
    + intros [e He]. discriminate.
    + intros [file [Hin Hf]]. rewrite forallb_forall in E.
      specialize (E file Hin). rewrite Hf in E. discriminate.
  - split.
    + intros _. clear -E. induction files as [|file files IH]; [discriminate|].
      cbn [forallb] in E. destruct (retry_fails file) eqn:Ef.
      * exists file. split; [now left|assumption].
      * destruct (IH E) as [f [Hin Hf]]. exists f. split; [now right|assumption].
    + intros _. unfold merge_files.
      destruct (merge_loop_retry_fails files [] [] E) as [out [e ->]].
      now exists e.
Qed.

(** X7: when the tables read from the files are well formed, so is the
    table that [merge_files] returns: every column has one value per row,
    no label occurs twice, the rows are numbered from 0, and there are as
    many rows as the tables read have together. *)
Theorem merged_table_shape (files : list File) (out : console) (df : DataFrame) :
  (forall file enc t, In file files -> read_csv file enc = Ok t -> wf t) ->
  merge_files files = (out, Ok df) ->
  wf df
  /\ nrows df = list_sum (map nrows (parsed_tables files))
  /\ index df = seq 0 (nrows df)
  /\ NoDup (labels df).
Proof.
  intros Hwf Hm.
  destruct (forallb (fun file => negb (retry_fails file)) files) eqn:E.
  - rewrite (merge_files_isolates _ E) in Hm.
    assert (Hdf : df = concat (parsed_tables files)).
    { injection Hm as _ <-. now destruct (parsed_tables files). }
    subst df. apply concat_shape. apply Forall_forall. intros t Ht.
    destruct (parsed_tables_In _ _ Ht) as [file [enc [Hin Hr]]].
    exact (Hwf file enc t Hin Hr).
  - unfold merge_files in Hm.
    destruct (merge_loop_retry_fails files [] [] E) as [out' [e He]].
    rewrite He in Hm. discriminate.
Qed.

Lemma merged_table_shape_witness :
  exists out df,
    merge_files [malformed_file; utf8_file; valid_file] = (out, Ok df)
    /\ nrows df = 7.
Proof.
  destruct (merge_files [malformed_file; utf8_file; valid_file]) as [out [df|e]] eqn:E;
    [|vm_compute in E; discriminate].
  exists out, df. split; [reflexivity|].
  assert (Hwf : forall file enc t,
             In file [malformed_file; utf8_file; valid_file] ->
             read_csv file enc = Ok t -> wf t).
  { intros file enc t [<-|[<-|[<-|[]]]]; destruct enc; cbn; intros Ht;
      try discriminate; injection Ht as <-; repeat constructor. }
  destruct (merged_table_shape _ Hwf E) as (_ & Hn & _).
  exact Hn.
Defined.

(* ------------------------------------------------------------------ *)
(** * Further facts about data frames and [process_report] *)

Module ShapeFacts.

Import FrameFacts ReportFacts.

Lemma labels_update n v w cols :
  lookup n cols = Some w -> map fst (update n v cols) = map fst cols.
Proof.
  induction cols as [|[m u] cols IH]; cbn [lookup update]; [discriminate|].
  destruct (String.eqb m n); [reflexivity|].
  intros H. cbn [map fst]. now rewrite IH.
Qed.

Lemma Forall_update (P : string * Series -> Prop) n v cols :
  Forall P cols -> P (n, v) -> Forall P (update n v cols).
Proof.
  intros Hc Hv. induction Hc as [|[m u] cols Hu Hcols IH]; cbn [update].
  - now constructor.
  - destruct (String.eqb_spec m n) as [->|]; constructor; assumption.
Qed.

Lemma wf_column df n v : wf df -> column df n = Some v -> List.length v = nrows df.
Proof.
  intros Hwf H. apply lookup_Some_In in H.
  unfold wf in Hwf. rewrite Forall_forall in Hwf. exact (Hwf _ H).
Qed.

(** Replacing a column by one of the same length keeps labels and shape. *)
Lemma setcol_shape df n v w :
  column df n = Some w ->
  labels (setcol df n v) = labels df
  /\ (wf df -> List.length v = List.length w -> wf (setcol df n v)).
Proof.
  intros H. split.
  - unfold labels, setcol. cbn [Frame.columns]. now apply labels_update with (w := w).
  - intros Hwf Hlen. unfold wf, setcol, nrows. cbn [Frame.columns index].
    assert (Hv : List.length v = List.length (index df))
      by (rewrite Hlen; now apply wf_column with (n := n)).
    apply Forall_update; [exact Hwf|exact Hv].
Qed.

Lemma drop_shape names df :
  labels (drop names df)
  = filter (fun n => negb (existsb (String.eqb n) names)) (labels df)
  /\ (wf df -> wf (drop names df)).
Proof.
  split.
  - unfold labels, drop. cbn [Frame.columns].
    induction (Frame.columns df) as [|[n v] cols IH]; [reflexivity|].
    cbn [filter map fst]. destruct (existsb (String.eqb n) names); cbn [negb map fst];
      now rewrite IH.
  - unfold wf, drop, nrows. cbn [Frame.columns index]. apply Forall_filter.
Qed.

Lemma insert_shape loc n v df df' :
  insert loc n v df = Ok df' ->
  labels df' = firstn loc (labels df) ++ n :: skipn loc (labels df)
  /\ (wf df -> List.length v = nrows df -> wf df').
Proof.
  unfold insert. destruct (has_column df n); [discriminate|].
  destruct (loc <=? List.length (Frame.columns df)); [|discriminate].
  intros H. injection H as <-. split.
  - unfold labels. cbn [Frame.columns].
    now rewrite map_app, firstn_map, skipn_map.
  - intros Hwf Hlen. unfold wf, nrows in *. cbn [Frame.columns index].
    rewrite <- (firstn_skipn loc (Frame.columns df)) in Hwf.
    apply Forall_app in Hwf as [Hfirst Hrest].
    apply Forall_app. split; [exact Hfirst|].
    constructor; [exact Hlen|exact Hrest].
Qed.

Lemma wf_select mask df : wf df -> wf (select mask df).
Proof.
  unfold wf, select, nrows. cbn [Frame.columns index]. intros H.
  apply Forall_map. eapply Forall_impl; [|exact H]. cbv beta.
  intros [n v] Hv. cbn [snd] in *. now apply keep_length.
Qed.

Lemma wf_getitem df names d : getitem df names = Ok d -> wf df -> wf d.
Proof.
  intros H Hwf. apply getitem_inv in H as [Hall ->].
  unfold wf, nrows. cbn [Frame.columns index].
  apply Forall_map, Forall_forall. intros n Hn. cbn [snd].
  rewrite forallb_forall in Hall.
  destruct (has_column_true _ _ (Hall n Hn)) as [v Hv]. rewrite Hv.
  now apply wf_column with (n := n).
Qed.

Lemma keep_le {A} (mask : list bool) : forall l : list A,
  List.length (keep mask l) <= List.length l.
Proof.
  induction mask as [|b mask IH]; intros [|x l]; cbn [keep List.length]; try lia.
  specialize (IH l). destruct b; cbn [List.length]; lia.
Qed.

(** Once a value has been seen, the fill leaves no blank. *)
Lemma ffill_from_no_blank s : forall last i,
  i < List.length s ->
  (exists w, last = Some w /\ isna w = false)
  \/ (exists j, j <= i /\ isna (nth j s NaN) = false) ->
  isna (nth i (ffill_from last s) NaN) = false.
Proof.
  induction s as [|v s IH]; intros last i Hi H; [cbn in Hi; lia|].
  cbn [List.length] in Hi. cbn [ffill_from].
  destruct (isna v) eqn:Ev.
  - assert (Hnext : forall i', S i' = i ->
              (exists w, last = Some w /\ isna w = false)
              \/ (exists j, j <= i' /\ isna (nth j s NaN) = false)).
    { intros i' <-. destruct H as [H|[j [Hj Hv]]]; [now left|].
      destruct j as [|j]; cbn [nth] in Hv; [congruence|].
      right. exists j. split; [lia|assumption]. }
    destruct last as [w|]; destruct i as [|i]; cbn [nth].
    + destruct H as [[w' [Hw Hna]]|[j [Hj Hv]]]; [congruence|].
      assert (j = 0) by lia. subst j. cbn [nth] in Hv. congruence.
    + apply IH; [lia|now apply Hnext].
    + destruct H as [[w' [Hw _]]|[j [Hj Hv]]]; [discriminate|].
      assert (j = 0) by lia. subst j. cbn [nth] in Hv. congruence.
    + apply IH; [lia|now apply Hnext].
  - destruct i as [|i]; cbn [nth]; [assumption|].
    apply IH; [lia|]. left. now exists v.
Qed.

(** Filling a column of dates and missing values gives such a column. *)
Lemma ffill_dates col :
  forallb is_date_or_missing col = true ->
  forallb is_date_or_missing (ffill col) = true.
Proof.
  unfold ffill.
  assert (H : forall last,
            match last with
            | Some w => is_date_or_missing w = true
            | None => True
            end ->
            forallb is_date_or_missing col = true ->
            forallb is_date_or_missing (ffill_from last col) = true).
  { induction col as [|v col IH]; intros last Hlast Hcol; [reflexivity|].
    cbn [forallb] in Hcol. apply andb_prop in Hcol as [Hv Hcol].
    cbn [ffill_from]. destruct (isna v).
    - destruct last as [w|]; cbn [forallb].
      + rewrite Hlast. now apply IH.
      + rewrite Hv. now apply IH.
    - cbn [forallb]. rewrite Hv. now apply IH. }
  now apply H.
Qed.

Section WithToDatetime.

Variable to_datetime : ToDatetime.

Lemma to_timestamps_length col :
  List.length (to_timestamps to_datetime col) = List.length col.
Proof. apply length_map. Qed.

(** The labels and the shape of the Reconciled Table. *)
Lemma reconcile_shape df rec :
  reconcile to_datetime df = Ok rec ->
  labels rec
  = firstn 1 (labels (drop ["No data found"%string] df))
    ++ "DateTime"%string :: skipn 1 (labels (drop ["No data found"%string] df))
  /\ (wf df -> wf rec).
Proof.
  unfold reconcile. intros H.
  destruct (getitem df fields_to_fill) as [filled|] eqn:Eg; [|discriminate].
  apply getitem_inv in Eg as [Hall ->].
  cbn [forallb fields_to_fill] in Hall.
  repeat (apply andb_prop in Hall as [?%has_column_true Hall]).
  destruct H0 as [d Hd], H1 as [p Hp], H2 as [c Hc], H3 as [t Ht].
  cbn [bind] in H. unfold setitem, ffill_frame, fields_to_fill in H.
  cbn [map fold_left Frame.columns fst snd] in H.
  rewrite Hd, Hp, Hc, Ht in H.
  set (df1 := setcol df "Date" (ffill d)) in *.
  set (df2 := setcol df1 "POS Name" (ffill p)) in *.
  set (df3 := setcol df2 "Cashier Name" (ffill c)) in *.
  set (df4 := setcol df3 "Transaction No" (ffill t)) in *.
  assert (Hp1 : column df1 "POS Name" = Some p) by (unfold df1; now columns).
  assert (Hc2 : column df2 "Cashier Name" = Some c) by (unfold df2, df1; now columns).
  assert (Ht3 : column df3 "Transaction No" = Some t)
    by (unfold df3, df2, df1; now columns).
  destruct (setcol_shape df "Date" (ffill d) Hd) as [L1 W1]. fold df1 in L1, W1.
  destruct (setcol_shape df1 "POS Name" (ffill p) Hp1) as [L2 W2]. fold df2 in L2, W2.
  destruct (setcol_shape df2 "Cashier Name" (ffill c) Hc2) as [L3 W3]. fold df3 in L3, W3.
  destruct (setcol_shape df3 "Transaction No" (ffill t) Ht3) as [L4 W4].
  fold df4 in L4, W4.
  assert (L : labels (drop ["No data found"%string] df4)
              = labels (drop ["No data found"%string] df)).
  { rewrite !(proj1 (drop_shape _ _)). now rewrite L4, L3, L2, L1. }
  assert (W : wf df -> wf (drop ["No data found"%string] df4)).
  { intros Hwf. apply drop_shape.
    apply W4; [|apply ffill_from_length]. apply W3; [|apply ffill_from_length].
    apply W2; [|apply ffill_from_length]. apply W1; [|apply ffill_from_length].
    exact Hwf. }
  assert (Hdate : column (drop ["No data found"%string] df4) "Date" = Some (ffill d))
    by (unfold df4, df3, df2, df1; now columns).
  unfold getcol at 1 in H. rewrite Hdate in H. cbn [bind] in H.
  destruct (pd_to_datetime to_datetime (ffill d)) as [stamps|] eqn:P1;
    [|discriminate].
  apply pd_to_datetime_inv in P1 as ->. cbn [bind] in H.
  destruct (insert 1 "DateTime" _ _) as [df5|] eqn:E5; [|discriminate].
  cbn [bind] in H.
  destruct (insert_shape _ _ _ _ E5) as [L5 W5].
  apply insert_inv in E5 as (_ & Hidx5 & Hcol5).
  assert (Hdate5 : column df5 "Date" = Some (ffill d))
    by (rewrite Hcol5; labels; cbv iota; exact Hdate).
  unfold getcol in H. rewrite Hdate5 in H. cbn [bind] in H.
  destruct (pd_to_datetime to_datetime (ffill d)) as [stamps|] eqn:P2;
    [|discriminate].
  apply pd_to_datetime_inv in P2 as ->. cbn [bind] in H.
  set (dates := map dt_date (to_timestamps to_datetime (ffill d))) in *.
  destruct (setcol_shape df5 "Date" dates Hdate5) as [L6 W6].
  assert (Wrec : wf df -> wf (setcol df5 "Date" dates)).
  { intros Hwf. apply W6.
    - apply W5; [now apply W|].
      rewrite to_timestamps_length.
      exact (@wf_column _ "Date" (ffill d) (W Hwf) Hdate).
    - unfold dates. now rewrite length_map, to_timestamps_length. }
  injection H as <-.
  destruct (column (setcol df5 "Date" dates) "Dishes") as [names|] eqn:Edishes.
  - destruct (setcol_shape (setcol df5 "Date" dates) "Dishes"
                (map (fun v => Str (clean_dish_name v)) names) Edishes) as [L7 W7].
    split.
    + now rewrite L7, L6, L5, L.
    + intros Hwf. apply W7; [now apply Wrec|apply length_map].
  - split; [now rewrite L6, L5, L|exact Wrec].
Qed.

(** A [DateTime] column in the table makes line 79 fail: in
    [pd.to_datetime], which is evaluated first, or else in [df.insert]. *)
Lemma reconcile_datetime_exists df d :
  (forall f, In f fields_to_fill -> column df f <> None) ->
  column df "Date" = Some d ->
  column df "DateTime" <> None ->
  reconcile to_datetime df
  = Raise (match pd_to_datetime to_datetime (ffill d) with
           | Raise e => e
           | Ok _ => ValueError "cannot insert DateTime, already exists"
           end).
Proof.
  intros Hall Hd0 Hdt. unfold reconcile.
  assert (Hf : forallb (has_column df) fields_to_fill = true).
  { apply forallb_forall. intros f Hf. specialize (Hall f Hf).
    unfold has_column. now destruct (column df f). }
  rewrite (getitem_ok _ _ Hf).
  cbn [forallb fields_to_fill] in Hf.
  repeat (apply andb_prop in Hf as [?%has_column_true Hf]).
  destruct H as [d' Hd], H0 as [p Hp], H1 as [c Hc], H2 as [t Ht].
  assert (d' = d) by congruence. subst d'.
  cbn [bind]. unfold setitem, ffill_frame, fields_to_fill.
  cbn [map fold_left Frame.columns fst snd].
  rewrite Hd, Hp, Hc, Ht.
  set (df2 := drop _ _).
  assert (Hdate : column df2 "Date" = Some (ffill d)) by (unfold df2; now columns).
  assert (Hdt2 : column df2 "DateTime" = column df "DateTime")
    by (unfold df2; now columns).
  unfold getcol at 1. rewrite Hdate. cbn [bind].
  destruct (pd_to_datetime to_datetime (ffill d)) as [stamps|e]; [|reflexivity].
  cbn [bind]. unfold insert, has_column. rewrite Hdt2.
  destruct (column df "DateTime"); [reflexivity|congruence].
Qed.

End WithToDatetime.

End ShapeFacts.

Import ShapeFacts.

(* ------------------------------------------------------------------ *)
(** * Further properties of the Reconciliation and Derivation Engine *)

(** X8: the columns of the sheets.  The Reconciled Table has the columns of
    the Unified Table in their order, without [No data found], and with
    [DateTime] put right after the first of them; the Transaction View has
    the columns of the Reconciled Table in their order, without [Dishes] and
    [Dish Quantities]. *)
Theorem sheet_columns
    (to_datetime : ToDatetime) (df rec tx it : DataFrame) :
  process_report to_datetime df = Ok (rec, tx, it) ->
  labels rec
  = firstn 1 (filter (fun n => negb (String.eqb n "No data found")) (labels df))
    ++ "DateTime"%string
       :: skipn 1 (filter (fun n => negb (String.eqb n "No data found")) (labels df))
  /\ labels tx
     = filter (fun n => negb (String.eqb n "Dishes" || String.eqb n "Dish Quantities"))
              (labels rec).
Proof.
  intros H. apply process_report_inv in H as (Hrec & Htx & _).
  split.
  - rewrite (proj1 (reconcile_shape _ _ Hrec)), (proj1 (drop_shape _ _)).
    assert (E : filter (fun n => negb (existsb (String.eqb n) ["No data found"%string]))
                       (labels df)
                = filter (fun n => negb (String.eqb n "No data found")) (labels df)).
    { apply filter_ext. intros n. cbn [existsb]. now rewrite orb_false_r. }
    now rewrite E.
  - destruct (column rec "OR No") as [keys|] eqn:Hk;
      [|rewrite (transactions_missing _ Hk) in Htx; discriminate].
    rewrite (transactions_ok _ Hk) in Htx. injection Htx as <-.
    rewrite (proj1 (drop_shape _ _)).
    assert (E : labels (select (first_mask keys) rec) = labels rec).
    { unfold labels, select. cbn [Frame.columns]. rewrite map_map. reflexivity. }
    rewrite E. apply filter_ext. intros n. cbn [existsb]. now rewrite orb_false_r.
Qed.

Lemma sheet_columns_witness :
  exists rec tx it,
    process_report iso_to_datetime five_rows = Ok (rec, tx, it)
    /\ labels rec
       = ["Date"; "DateTime"; "POS Name"; "Cashier Name"; "Transaction No";
          "OR No"; "Dishes"; "Dish Quantities"]%string.
Proof.
  destruct (process_report iso_to_datetime five_rows) as [[[rec tx] it]|e] eqn:E;
    [|vm_compute in E; discriminate].
  exists rec, tx, it. split; [reflexivity|].
  rewrite (proj1 (sheet_columns iso_to_datetime five_rows E)). reflexivity.
Defined.

(** X9: [process_report] keeps the tables well formed and keeps the rows:
    on a well-formed table every column of the three views has one value
    per row, and the Reconciled Table has the row labels of the Unified
    Table. *)
Theorem process_report_keeps_shape
    (to_datetime : ToDatetime) (df rec tx it : DataFrame) :
  wf df ->
  process_report to_datetime df = Ok (rec, tx, it) ->
  wf rec /\ wf tx /\ wf it /\ index rec = index df.
Proof.
  intros Hwf H. apply process_report_inv in H as (Hrec & Htx & Hit).
  assert (Wrec : wf rec) by (now apply (proj2 (reconcile_shape _ _ Hrec))).
  split; [exact Wrec|]. split; [|split].
  - destruct (column rec "OR No") as [keys|] eqn:Hk;
      [|rewrite (transactions_missing _ Hk) in Htx; discriminate].
    rewrite (transactions_ok _ Hk) in Htx. injection Htx as <-.
    now apply drop_shape, wf_select.
  - unfold dishes in Hit. exact (@wf_getitem _ _ _ Hit Wrec).
  - now apply reconcile_inv in Hrec as (d & p & c & t & _ & _ & _ & _ & _ & Hidx & _).
Qed.

Lemma process_report_keeps_shape_witness :
  exists rec tx it,
    process_report iso_to_datetime five_rows = Ok (rec, tx, it) /\ wf tx.
Proof.
  destruct (process_report iso_to_datetime five_rows) as [[[rec tx] it]|e] eqn:E;
    [|vm_compute in E; discriminate].
  exists rec, tx, it. split; [reflexivity|].
  assert (Hwf : wf five_rows) by (repeat constructor).
  apply (process_report_keeps_shape iso_to_datetime Hwf E).
Defined.

(** X10: in the Reconciled Table [DateTime] holds timestamps or [NaT], one
    for every row, and [Date] is, row by row, the calendar day of
    [DateTime]: a date where [DateTime] is a timestamp, [NaT] where it is
    [NaT]. *)
Theorem date_is_day_of_datetime
    (to_datetime : ToDatetime) (df rec tx it : DataFrame) :
  process_report to_datetime df = Ok (rec, tx, it) ->
  exists src stamps,
    column df "Date" = Some src
    /\ column rec "DateTime" = Some stamps
    /\ column rec "Date" = Some (map dt_date stamps)
    /\ List.length stamps = List.length src
    /\ Forall (fun v => (v = NaT /\ dt_date v = NaT)
                        \/ exists ns, v = Timestamp ns
                                      /\ dt_date v = Date (ns / ns_per_day))
              stamps.
Proof.
  intros H. apply process_report_inv in H as (Hrec & _ & _).
  apply reconcile_inv in Hrec as (d & p & c & t & Hd & _ & _ & _ & _ & _ & Hcol).
  exists d, (to_timestamps to_datetime (ffill d)).
  split; [exact Hd|]. split; [rewrite Hcol; now labels|].
  split; [rewrite Hcol; now labels|].
  split; [rewrite to_timestamps_length; apply ffill_from_length|].
  unfold to_timestamps. apply Forall_map, Forall_forall. intros v _.
  destruct (cell to_datetime (ffill d) v) as [ns|]; [right; now exists ns|now left].
Qed.

Lemma date_is_day_of_datetime_witness :
  exists rec tx it,
    process_report iso_to_datetime five_rows = Ok (rec, tx, it)
    /\ column rec "Date"
       = Some [Date 19727; Date 19727; Date 19727; Date 19727; Date 19727].
Proof.
  destruct (process_report iso_to_datetime five_rows) as [[[rec tx] it]|e] eqn:E;
    [|vm_compute in E; discriminate].
  exists rec, tx, it. split; [reflexivity|].
  destruct (date_is_day_of_datetime iso_to_datetime five_rows E)
    as (src & stamps & _ & Hs & -> & _).
  vm_compute in E. injection E as <- _ _.
  vm_compute in Hs. injection Hs as <-. reflexivity.
Defined.

(** X11: in the Reconciled Table the [Dishes] column is the normalizer
    applied to the [Dishes] column of the Unified Table, cell by cell; so
    every cell is a string and none is blank: a blank cell has become the
    empty string. *)
Theorem dishes_column_normalized
    (to_datetime : ToDatetime) (df rec tx it : DataFrame) :
  process_report to_datetime df = Ok (rec, tx, it) ->
  exists src names,
    column df "Dishes" = Some src
    /\ column rec "Dishes" = Some names
    /\ names = map (fun v => Str (clean_dish_name v)) src
    /\ Forall (fun v => is_str v = true /\ isna v = false) names
    /\ forall i, i < List.length src -> isna (nth i src NaN) = true ->
         nth i names NaN = Str (lit "").
Proof.
  intros H. apply process_report_inv in H as (Hrec & _ & Hit).
  apply reconcile_inv in Hrec as (d & p & c & t & _ & _ & _ & _ & _ & _ & Hcol).
  apply getitem_inv in Hit as [Hall _].
  cbn [forallb dish_columns] in Hall.
  repeat (apply andb_prop in Hall as [? Hall]).
  match goal with
  | Hd : has_column rec "Dishes" = true |- _ =>
      apply has_column_true in Hd as [names Hn]
  end.
  pose proof Hn as Hn'. rewrite Hcol in Hn'. revert Hn'. labels. cbv iota.
  destruct (column df "Dishes") as [src|]; [|discriminate].
  cbn [option_map]. intros Hn'. injection Hn' as <-.
  exists src, (map (fun v => Str (clean_dish_name v)) src).
  repeat split; try assumption.
  - apply Forall_map, Forall_forall. now intros v _.
  - intros i Hi Hna.
    rewrite (nth_indep _ NaN (Str (clean_dish_name NaN)))
      by (now rewrite length_map).
    rewrite (map_nth (fun v => Str (clean_dish_name v))).
    now destruct (nth i src NaN).
Qed.

Lemma dishes_column_normalized_witness :
  exists rec tx it,
    process_report iso_to_datetime five_rows = Ok (rec, tx, it)
    /\ nth 4 (match column rec "Dishes" with Some v => v | None => [] end) NaN
       = Str (lit "").
Proof.
  destruct (process_report iso_to_datetime five_rows) as [[[rec tx] it]|e] eqn:E;
    [|vm_compute in E; discriminate].
  exists rec, tx, it. split; [reflexivity|].
  destruct (dishes_column_normalized iso_to_datetime five_rows E)
    as (src & names & Hsrc & -> & _ & _ & Hblank).
  vm_compute in Hsrc. injection Hsrc as <-.
  apply Hblank; [cbn; lia|reflexivity].
Defined.

(** X12: [process_report] leaves every other column as it is: a column of
    the Reconciled Table whose label is none of [Date], [DateTime],
    [POS Name], [Cashier Name], [Transaction No], [Dishes] and
    [No data found] is the column of the Unified Table ([OR No] and
    [Dish Quantities] among them), and there is no [No data found] column. *)
Theorem other_columns_untouched
    (to_datetime : ToDatetime) (df rec tx it : DataFrame) :
  process_report to_datetime df = Ok (rec, tx, it) ->
  (forall m,
     ~ In m ["Date"; "DateTime"; "POS Name"; "Cashier Name"; "Transaction No";
             "Dishes"; "No data found"]%string ->
     column rec m = column df m)
  /\ column rec "OR No" = column df "OR No"
  /\ column rec "Dish Quantities" = column df "Dish Quantities"
  /\ column rec "No data found" = None.
Proof.
  intros H. apply process_report_inv in H as (Hrec & _ & _).
  apply reconcile_inv in Hrec as (d & p & c & t & _ & _ & _ & _ & _ & _ & Hcol).
  split; [|repeat split; rewrite Hcol; now labels].
  intros m Hm. rewrite Hcol. cbn [In] in Hm.
  repeat match goal with
         | |- context [String.eqb ?a m] =>
             destruct (String.eqb_spec a m) as [<-|]; [exfalso; tauto|]
         end.
  reflexivity.
Qed.

Lemma other_columns_untouched_witness :
  exists rec tx it,
    process_report iso_to_datetime five_rows = Ok (rec, tx, it)
    /\ column rec "OR No" = Some [Int 1; Int 1; Int 2; Int 2; Int 3].
Proof.
  destruct (process_report iso_to_datetime five_rows) as [[[rec tx] it]|e] eqn:E;
    [|vm_compute in E; discriminate].
  exists rec, tx, it. split; [reflexivity|].
  destruct (other_columns_untouched iso_to_datetime five_rows E) as (_ & -> & _).
  reflexivity.
Defined.

(** X13: [process_report] returns exactly on the tables that have the seven
    columns [Date], [POS Name], [Cashier Name], [Transaction No], [OR No],
    [Dishes] and [Dish Quantities], have no [DateTime] column, and have a
    [Date] column on which, once forward-filled, [pd.to_datetime] does not
    raise; on every other table it raises. *)
Theorem process_report_returns_iff (to_datetime : ToDatetime) (df : DataFrame) :
  (exists rec tx it, process_report to_datetime df = Ok (rec, tx, it))
  <-> (forall n, In n ["Date"; "POS Name"; "Cashier Name"; "Transaction No";
                       "OR No"; "Dishes"; "Dish Quantities"]%string ->
                 column df n <> None)
      /\ column df "DateTime" = None
      /\ date_column_converts to_datetime df.
Proof.
  split.
  - intros (rec & tx & it & H).
    apply process_report_inv in H as (Hrec & Htx & Hit).
    pose proof (reconcile_converts _ _ Hrec) as Hconv.
    apply reconcile_inv in Hrec
      as (d & p & c & t & Hd & Hp & Hc & Ht & Hdt & _ & Hcol).
    split; [|split; [exact Hdt|exact Hconv]].
    assert (Hor : column df "OR No" <> None).
    { destruct (column rec "OR No") as [keys|] eqn:Hk;
        [|rewrite (transactions_missing _ Hk) in Htx; discriminate].
      rewrite Hcol in Hk. revert Hk. labels. cbv iota. congruence. }
    unfold dishes in Hit. apply getitem_inv in Hit as [Hall _].
    cbn [forallb dish_columns] in Hall.
    repeat (apply andb_prop in Hall as [?%has_column_true Hall]).
    assert (Hdi : column df "Dishes" <> None).
    { destruct H5 as [v Hv]. rewrite Hcol in Hv. revert Hv. labels. cbv iota.
      now destruct (column df "Dishes"). }
    assert (Hdq : column df "Dish Quantities" <> None).
    { destruct H6 as [v Hv]. rewrite Hcol in Hv. revert Hv. labels. cbv iota.
      congruence. }
    intros n Hn. cbn [In] in Hn.
    repeat (destruct Hn as [<-|Hn]; [congruence|]). destruct Hn.
  - intros (Hall & Hdt & Hconv). now apply process_report_ok.
Qed.

(** X14: a table that has the four header columns and already has a
    [DateTime] column makes [process_report] raise at line 79: the
    exception of [pd.to_datetime], which is evaluated first, when it raises
    on the forward-filled [Date] column, and otherwise the [ValueError] of
    [df.insert]. *)
Theorem existing_datetime_column_raises
    (to_datetime : ToDatetime) (df : DataFrame) (d : Series) :
  (forall f, In f fields_to_fill -> column df f <> None) ->
  column df "Date" = Some d ->
  column df "DateTime" <> None ->
  process_report to_datetime df
  = Raise (match pd_to_datetime to_datetime (ffill d) with
           | Raise e => e
           | Ok _ => ValueError "cannot insert DateTime, already exists"
           end).
Proof.
  intros Hall Hd Hdt. unfold process_report.
  now rewrite (reconcile_datetime_exists to_datetime df Hall Hd Hdt).
Qed.

Lemma existing_datetime_column_raises_witness :
  process_report iso_to_datetime
    (setcol five_rows "DateTime" [NaT; NaT; NaT; NaT; NaT])
  = Raise (ValueError "cannot insert DateTime, already exists")
  /\ process_report offset_to_datetime
       (setcol two_time_zones "DateTime" [NaT; NaT; NaT])
     = Raise (ValueError mixed_timezones).
Proof.
  split.
  - apply (@existing_datetime_column_raises iso_to_datetime
             (setcol five_rows "DateTime" [NaT; NaT; NaT; NaT; NaT])
             [text "2024-01-05 10:00:00"; NaN; NaN; text "2024-01-05 11:30:00"; NaN]).
    + intros f Hf. cbn [In fields_to_fill] in Hf.
      repeat (destruct Hf as [<-|Hf]; [discriminate|]). destruct Hf.
    + reflexivity.
    + discriminate.
  - apply (@existing_datetime_column_raises offset_to_datetime
             (setcol two_time_zones "DateTime" [NaT; NaT; NaT])
             [text "2024-01-05 10:00:00+08:00"; NaN; text "2024-01-05 11:30:00+09:00"]).
    + intros f Hf. cbn [In fields_to_fill] in Hf.
      repeat (destruct Hf as [<-|Hf]; [discriminate|]). destruct Hf.
    + reflexivity.
    + discriminate.
Defined.

(** The table [two_time_zones] has every column that [process_report]
    asks for and no [DateTime] column; with a [pd.to_datetime] that raises
    on differing UTC offsets, [process_report] raises on it, at line 79. *)
Example two_time_zones_raise :
  (forall n, In n ["Date"; "POS Name"; "Cashier Name"; "Transaction No";
                   "OR No"; "Dishes"; "Dish Quantities"]%string ->
             column two_time_zones n <> None)
  /\ column two_time_zones "DateTime" = None
  /\ process_report offset_to_datetime two_time_zones
     = Raise (ValueError mixed_timezones).
Proof.
  split; [|split; reflexivity].
  intros n Hn. cbn [In] in Hn.
  repeat (destruct Hn as [<-|Hn]; [discriminate|]). destruct Hn.
Qed.

(** X15: [process_report] cannot be run on its own result: on the
    Reconciled Table it raises the [ValueError] of [df.insert], the table
    having a [DateTime] column by now. *)
Theorem process_report_not_rerunnable
    (to_datetime : ToDatetime) (df rec tx it : DataFrame) :
  process_report to_datetime df = Ok (rec, tx, it) ->
  process_report to_datetime rec
  = Raise (ValueError "cannot insert DateTime, already exists").
Proof.
  intros H. apply process_report_inv in H as (Hrec & _ & _).
  apply reconcile_inv in Hrec as (d & p & c & t & _ & _ & _ & _ & _ & _ & Hcol).
  set (dates := map dt_date (to_timestamps to_datetime (ffill d))) in *.
  assert (Hdates : column rec "Date" = Some dates) by (rewrite Hcol; now labels).
  assert (Hall : forallb is_date_or_missing dates = true).
  { apply forallb_forall. intros v Hv. unfold dates in Hv.
    apply in_map_iff in Hv as [w [<- _]]. now destruct w. }
  rewrite (@existing_datetime_column_raises to_datetime rec dates).
  - now rewrite (pd_to_datetime_dates _ _ (ffill_dates _ Hall)).
  - intros f Hf. cbn [In fields_to_fill] in Hf. rewrite Hcol.
    repeat (destruct Hf as [<-|Hf]; [labels; discriminate|]). destruct Hf.
  - exact Hdates.
  - rewrite Hcol. labels. discriminate.
Qed.

Lemma process_report_not_rerunnable_witness :
  exists rec tx it,
    process_report iso_to_datetime five_rows = Ok (rec, tx, it)
    /\ process_report iso_to_datetime rec
       = Raise (ValueError "cannot insert DateTime, already exists").
Proof.
  destruct (process_report iso_to_datetime five_rows) as [[[rec tx] it]|e] eqn:E;
    [|vm_compute in E; discriminate].
  exists rec, tx, it. split; [reflexivity|].
  apply (process_report_not_rerunnable iso_to_datetime five_rows E).
Defined.

(** X16: in the columns [POS Name], [Cashier Name] and [Transaction No] of
    the Reconciled Table no row is blank once a row at or above it had a
    value in the Unified Table. *)
Theorem no_blank_below_a_value
    (to_datetime : ToDatetime) (df rec tx it : DataFrame) :
  process_report to_datetime df = Ok (rec, tx, it) ->
  forall f, In f ["POS Name"; "Cashier Name"; "Transaction No"]%string ->
    exists src out,
      column df f = Some src /\ column rec f = Some out
      /\ forall i j, j <= i -> i < List.length src ->
           isna (nth j src NaN) = false -> isna (nth i out NaN) = false.
Proof.
  intros H. apply process_report_inv in H as (Hrec & _ & _).
  apply reconcile_inv in Hrec as (d & p & c & t & _ & Hp & Hc & Ht & _ & _ & Hcol).
  assert (Hfill : forall src i j, j <= i -> i < List.length src ->
            isna (nth j src NaN) = false -> isna (nth i (ffill src) NaN) = false).
  { intros src i j Hj Hi Hv. apply ffill_from_no_blank; [assumption|].
    right. now exists j. }
  intros f [<-|[<-|[<-|[]]]].
  - exists p, (ffill p). rewrite Hcol. labels. cbv iota.
    split; [assumption|]. split; [reflexivity|]. apply Hfill.
  - exists c, (ffill c). rewrite Hcol. labels. cbv iota.
    split; [assumption|]. split; [reflexivity|]. apply Hfill.
  - exists t, (ffill t). rewrite Hcol. labels. cbv iota.
    split; [assumption|]. split; [reflexivity|]. apply Hfill.
Qed.

Lemma no_blank_below_a_value_witness :
  exists rec tx it,
    process_report iso_to_datetime five_rows = Ok (rec, tx, it)
    /\ exists out, column rec "Cashier Name" = Some out
                   /\ isna (nth 4 out NaN) = false.
Proof.
  destruct (process_report iso_to_datetime five_rows) as [[[rec tx] it]|e] eqn:E;
    [|vm_compute in E; discriminate].
  exists rec, tx, it. split; [reflexivity|].
  destruct (@no_blank_below_a_value iso_to_datetime five_rows rec tx it E
              "Cashier Name"%string)
    as (src & out & Hsrc & Hout & Hfill); [cbn; tauto|].
  exists out. split; [exact Hout|].
  vm_compute in Hsrc. injection Hsrc as <-.
  apply (Hfill 4 3); [lia|cbn; lia|reflexivity].
Defined.

(** X17: on a well-formed table the Transaction View has at most as many
    rows as the Item View, and at least one row when the table has one. *)
Theorem transaction_view_row_bounds
    (to_datetime : ToDatetime) (df rec tx it : DataFrame) :
  wf df ->
  process_report to_datetime df = Ok (rec, tx, it) ->
  nrows tx <= nrows it /\ (0 < nrows df -> 0 < nrows tx).
Proof.
  intros Hwf H.
  destruct (process_report_keeps_shape to_datetime Hwf H) as (Wrec & _ & _ & Hidx).
  apply process_report_inv in H as (Hrec & Htx & Hit).
  unfold dishes in Hit. apply getitem_inv in Hit as [_ ->].
  destruct (column rec "OR No") as [keys|] eqn:Hk;
    [|rewrite (transactions_missing _ Hk) in Htx; discriminate].
  rewrite (transactions_ok _ Hk) in Htx. injection Htx as <-.
  pose proof (@wf_column _ _ _ Wrec Hk) as Hlen.
  unfold nrows in *. cbn [drop select index]. rewrite <- Hidx.
  split; [apply keep_le|].
  intros Hpos. destruct (index rec) as [|i0 idx]; [cbn in Hpos; lia|].
  destruct keys as [|k keys]; [discriminate|].
  cbn. lia.
Qed.

Lemma transaction_view_row_bounds_witness :
  exists rec tx it,
    process_report iso_to_datetime five_rows = Ok (rec, tx, it)
    /\ 0 < nrows tx.
Proof.
  destruct (process_report iso_to_datetime five_rows) as [[[rec tx] it]|e] eqn:E;
    [|vm_compute in E; discriminate].
  exists rec, tx, it. split; [reflexivity|].
  assert (Hwf : wf five_rows) by (repeat constructor).
  apply (transaction_view_row_bounds iso_to_datetime Hwf E). cbn. lia.
Defined.

(* ------------------------------------------------------------------ *)
(** * Further properties of [main] *)

(** X18: [main] writes the workbook exactly when the folder is valid,
    [merge_files] returns a table that is not empty, [process_report]
    returns and the writing does not raise; the workbook then has the three
    sheets [DailyReport], [Transactions] and [Dishes], in this order, with
    the three views. *)
Theorem workbook_written_iff
    (to_datetime : ToDatetime) (folder : Folder) (book : Workbook) :
  written (main to_datetime folder) = Some book
  <-> exists out df rec tx it,
        valid folder = true
        /\ merge_files (glob_xls folder) = (out, Ok df)
        /\ empty df = false
        /\ process_report to_datetime df = Ok (rec, tx, it)
        /\ book = [("DailyReport", rec); ("Transactions", tx); ("Dishes", it)]%string
        /\ write_xlsx folder book = None.
Proof.
  unfold main, valid, export_to_excel. split.
  - destruct (folder_exists folder), (is_dir folder); cbn [negb orb andb];
      try discriminate.
    destruct (merge_files (glob_xls folder)) as [out [df|e]]; [|discriminate].
    destruct (empty df) eqn:Ee; [discriminate|].
    destruct (process_report to_datetime df) as [[[rec tx] it]|e] eqn:Ep;
      [|discriminate].
    destruct (write_xlsx folder _) as [e|] eqn:Ew; [discriminate|].
    cbn [written]. intros Hb. injection Hb as <-.
    now exists out, df, rec, tx, it.
  - intros (out & df & rec & tx & it & Hv & Hm & He & Hp & -> & Hw).
    apply andb_prop in Hv as [-> ->]. cbn [negb orb].
    now rewrite Hm, He, Hp, Hw.
Qed.


(** Two runs that end with an exception after [merge_files] has returned:
    one in a folder where the workbook cannot be written, one on a table
    on which [pd.to_datetime] raises. *)
Example read_only_folder_run :
  main iso_to_datetime (read_only_folder_of [valid_file])
  = {| stdout := fst (merge_files [valid_file]);
       written := None;
       raised := Some permission_denied |}.
Proof. reflexivity. Qed.

Example two_time_zones_run :
  main offset_to_datetime (folder_of [two_time_zones_file])
  = {| stdout := fst (merge_files [two_time_zones_file]);
       written := None;
       raised := Some (ValueError mixed_timezones) |}.
Proof. reflexivity. Qed.

(** X20: a run of [main] that neither writes a workbook nor ends with an
    exception is one of two: the folder is not valid, and the only line
    printed is the invalid-folder error (no file is read); or
    [merge_files] returns an empty table (no rows or no columns), and the
    last line printed, after the lines of [merge_files], is the warning. *)
Theorem quiet_run_cases
    (to_datetime : ToDatetime) (folder : Folder) :
  written (main to_datetime folder) = None ->
  raised (main to_datetime folder) = None ->
  (valid folder = false
   /\ stdout (main to_datetime folder)
      = [("[ERROR] Invalid folder path: " ++ path folder)%string])
  \/ (valid folder = true
      /\ exists out df,
           merge_files (glob_xls folder) = (out, Ok df)
           /\ empty df = true
           /\ stdout (main to_datetime folder) = out ++ [no_valid_files]).
Proof.
  unfold main, valid.
  destruct (folder_exists folder), (is_dir folder); cbn [negb orb andb];
    try (intros _ _; left; now split).
  destruct (merge_files (glob_xls folder)) as [out [df|e]]; [|discriminate].
  destruct (empty df) eqn:Ee.
  - intros _ _. right. split; [reflexivity|]. now exists out, df.
  - destruct (process_report to_datetime df) as [[[rec tx] it]|e]; [|discriminate].
    destruct (export_to_excel folder rec tx it) as [info [book|e]]; discriminate.
Qed.

Lemma quiet_run_cases_witness :
  stdout (main iso_to_datetime (folder_of [malformed_file]))
  = ["[ERROR] Could not read 'malformed.xls': No columns to parse from file";
     no_valid_files]%string.
Proof.
  destruct (quiet_run_cases iso_to_datetime (folder_of [malformed_file]) eq_refl eq_refl)
    as [[Hv _]|[_ (out & df & Hm & _ & ->)]]; [discriminate|].
  vm_compute in Hm. now injection Hm as <- _.
Defined.
